(** * VIIRS tiled granules: filename codec, CMR query builder, granule decoder

    A shallow embedding of the three Python modules
    [VIIRS_filename_parsing.py], [VIIRS_CMR_query.py] and
    [VIIRS_tiled_granule.py], followed by the properties proved of them.

    Conventions of the embedding:
    - a Python call that may raise returns [result A]: [Ok a] or [Raise e];
      code that opens files runs in [M], which threads the files and the
      open handles and may raise;
    - [str] is [string] (characters are code points below 256), [int] is
      [Z], [float] is the primitive binary64 [float] with [nan] for
      [np.nan]; an array of numpy has an element type, an integer type,
      float32 or float64, and its arithmetic follows that type: integers
      compare exactly and wrap around, [np.where(..., np.nan, ...)] turns
      integers into float64, float32 stays float32;
    - library calls the source relies on ([os.path.basename], [str.split],
      [int], [datetime.strptime], [strftime] of glibc, [sorted],
      [h5py.File] as a context manager, comparisons and arithmetic of
      numpy arrays with Python numbers) are modelled by their behaviour
      under CPython 3.11 and numpy 2; the external collaborators the
      source treats as opaque ([dateutil.parser.parse], the checks of the
      setters of a CMR request, the earthaccess transport, shapely's
      winding test, reprojection, the MODLAND grid) and the module
      [granule_ID], which is not part of the sources at hand, are
      parameters. *)

From Stdlib Require Import ZArith List String Ascii Bool Lia Floats.
From Stdlib Require Import Sorting.Sorted Sorting.Permutation.
Import ListNotations.

Local Open Scope string_scope.
Local Open Scope Z_scope.

(** ** Exceptions and results *)

(** The reason a [ValueError] was raised, with the text Python quotes in
    its message. *)
Inductive value_error : Type :=
| InvalidLiteral (text : string)      (* invalid literal for int() with base 10: text *)
| DigitLimit (digits : nat)           (* Exceeds the limit (4300 digits) for integer string
                                         conversion: value has digits digits *)
| TimeDataMismatch (text : string)    (* time data text does not match format *)
| UnconvertedData (rest : string)     (* unconverted data remains: rest *)
| OutOfRange                          (* year / ordinal out of range *)
| CannotConvert                       (* cannot convert float NaN to integer *)
| InvalidIdentifier                   (* the HDF5 file behind the object is closed *)
| InvalidArgument                     (* a library call refuses its argument *)
| NotTwoDimensional.                  (* data is not a two-dimensional array *)

Inductive exn : Type :=
| IndexError                          (* list index out of range *)
| KeyError (key : string)              (* the key; from h5py, the object the message names *)
| AttributeError (name : string)
| TypeError
| OverflowError
| ValueError (why : value_error)
| ParserError (text : string)         (* dateutil.parser.ParserError *)
| OSError (path : string)             (* the file cannot be opened *)
| RuntimeError (message : string)
| ConnectionError (message : string)
| KeyboardInterrupt                   (* BaseException, not Exception *)
| SystemExit                          (* BaseException, not Exception *)
| CMRServerUnreachable (cause : exn).

(** [isinstance(e, Exception)]: what [except Exception] catches. *)
Definition is_Exception (e : exn) : bool :=
  match e with
  | KeyboardInterrupt | SystemExit => false
  | _ => true
  end.

Inductive result (A : Type) : Type :=
| Ok (a : A)
| Raise (e : exn).
Arguments Ok {A} a.
Arguments Raise {A} e.

Definition bind {A B : Type} (r : result A) (k : A -> result B) : result B :=
  match r with
  | Ok a => k a
  | Raise e => Raise e
  end.

Notation "x <- r ;; k" := (bind r (fun x => k))
  (at level 61, r at next level, right associativity).

(** [l[k]] on a Python list. *)
Definition index {A : Type} (l : list A) (k : nat) : result A :=
  match nth_error l k with
  | Some a => Ok a
  | None => Raise IndexError
  end.

(** ** Calendar dates *)

Record date : Type := mkdate { year : Z; month : Z; day : Z }.

Definition is_leap (y : Z) : bool :=
  ((y mod 4 =? 0) && negb (y mod 100 =? 0)) || (y mod 400 =? 0).

(** The length of month [m] in a common or a leap year. *)
Definition month_length (leap : bool) (m : Z) : Z :=
  match m with
  | 2 => if leap then 29 else 28
  | 4 | 6 | 9 | 11 => 30
  | _ => 31
  end.

Definition days_in_month (y m : Z) : Z := month_length (is_leap y) m.

Definition days_in_year (y : Z) : Z := if is_leap y then 366 else 365.

(** [datetime.date] accepts exactly these triples. *)
Definition valid_date (d : date) : Prop :=
  1 <= year d <= 9999 /\ 1 <= month d <= 12 /\
  1 <= day d <= days_in_month (year d) (month d).

(** Days before the first of month [m], counted over at most [fuel]
    months starting at month [from]. *)
Fixpoint days_before (leap : bool) (from : Z) (fuel : nat) (m : Z) : Z :=
  match fuel with
  | O => 0
  | S f => if from <? m
           then month_length leap from + days_before leap (from + 1) f m
           else 0
  end.

(** [d.timetuple().tm_yday], what [%j] prints. *)
Definition day_of_year (d : date) : Z :=
  days_before (is_leap (year d)) 1 11 (month d) + day d.

(** Month and day of the [j]-th day counted from the first of month [m],
    looking at most [fuel] months ahead. *)
Fixpoint locate (leap : bool) (m : Z) (fuel : nat) (j : Z) : Z * Z :=
  match fuel with
  | O => (m, j)
  | S f => if j <=? month_length leap m then (m, j)
           else locate leap (m + 1) f (j - month_length leap m)
  end.

(** ** Decimal digits *)

(** The character of a digit and the digit of a character, by their
    codes: ["0"] is 48. *)
Definition digit_char (k : Z) : ascii :=
  if (0 <=? k) && (k <=? 9) then ascii_of_N (Z.to_N (48 + k)) else "?"%char.

Definition digit_value (c : ascii) : option Z :=
  let code := Z.of_N (N_of_ascii c) in
  if (48 <=? code) && (code <=? 57) then Some (code - 48) else None.

(** ["%02d"], ["%03d"] and ["%04d"] of a number below 100, 1000, 10000. *)
Definition pad2 (n : Z) : string :=
  String (digit_char (n / 10 mod 10)) (String (digit_char (n mod 10)) "").
Definition pad3 (n : Z) : string :=
  String (digit_char (n / 100 mod 10)) (pad2 n).
Definition pad4 (n : Z) : string :=
  String (digit_char (n / 1000 mod 10)) (pad3 n).

(** [str(n)] for [0 <= n], most significant digit first. *)
Fixpoint decimal_digits (fuel : nat) (n : Z) (acc : string) : string :=
  match fuel with
  | O => acc
  | S f =>
      let acc' := String (digit_char (n mod 10)) acc in
      if n <? 10 then acc' else decimal_digits f (n / 10) acc'
  end.

Definition str_of_nat (n : nat) : string :=
  decimal_digits (S n) (Z.of_nat n) "".

Fixpoint zeros (k : nat) : string :=
  match k with
  | O => ""
  | S k' => String "0" (zeros k')
  end.

(** [s.zfill(width)] on a string of digits. *)
Definition zfill (width : nat) (s : string) : string :=
  zeros (width - String.length s) ++ s.

(** ** Python string primitives *)

(** [s.split(sep)] for a one-character separator: never empty,
    [len(result) = s.count(sep) + 1]. *)
Fixpoint split (sep : ascii) (s : string) : list string :=
  match s with
  | EmptyString => [EmptyString]
  | String c r =>
      if Ascii.eqb c sep then EmptyString :: split sep r
      else match split sep r with
           | h :: t => String c h :: t
           | [] => [String c EmptyString]
           end
  end.

(** [os.path.basename(p)] on POSIX: [p[p.rfind('/') + 1:]]. *)
Definition basename (p : string) : string :=
  last (split "/" p) EmptyString.

(** [s[1:]]. *)
Definition drop_first (s : string) : string :=
  match s with
  | EmptyString => EmptyString
  | String _ r => r
  end.

Definition contains (c : ascii) (s : string) : bool :=
  existsb (Ascii.eqb c) (list_ascii_of_string s).

(** Whitespace that [int] strips from a [str] of characters below 256:
    tab to carriage return and the space, which the parser of the
    literal skips, and next line and no-break space, the [str.isspace]
    characters outside ASCII, which [int] turns into spaces first. The
    separators 28 to 31 are [str.isspace] but inside ASCII: they are
    left as they are and make the literal invalid. *)
Definition is_space (c : ascii) : bool :=
  match N_of_ascii c with
  | 9 | 10 | 11 | 12 | 13 | 32 | 133 | 160 => true
  | _ => false
  end%N.

Fixpoint lstrip (s : string) : string :=
  match s with
  | EmptyString => EmptyString
  | String c r => if is_space c then lstrip r else s
  end.

Definition reverse_string (s : string) : string :=
  string_of_list_ascii (rev (list_ascii_of_string s)).

Definition strip (s : string) : string :=
  reverse_string (lstrip (reverse_string (lstrip s))).

(** The run of digits and underscores at the start of a literal: its
    value, the number of its digits and what follows it. An underscore
    must come straight after a digit and before one ([seen] says that
    the previous character was a digit); a run that breaks this, or has
    no digit, is no literal. *)
Fixpoint scan_digits (acc : Z) (count : nat) (seen : bool) (s : string)
  : option (Z * nat * string) :=
  match s with
  | EmptyString => if seen then Some (acc, count, EmptyString) else None
  | String c r =>
      match digit_value c with
      | Some d => scan_digits (10 * acc + d) (S count) true r
      | None =>
          if Ascii.eqb c "_" then
            if seen then scan_digits acc count false r else None
          else if seen then Some (acc, count, s) else None
      end
  end.

(** [sys.get_int_max_str_digits()], as the interpreter starts. *)
Definition int_max_str_digits : nat := 4300.

(** [int(s)] for a [str]: surrounding whitespace, an optional sign, the
    run of digits. A run of more digits than the limit is refused
    before what follows the run is looked at. *)
Definition int_of_str (s : string) : result Z :=
  let invalid := Raise (ValueError (InvalidLiteral s)) in
  let literal (sign : Z -> Z) (body : string) :=
    match scan_digits 0 0 false body with
    | None => invalid
    | Some (n, count, rest) =>
        if (int_max_str_digits <? count)%nat
        then Raise (ValueError (DigitLimit count))
        else match rest with
             | EmptyString => Ok (sign n)
             | _ => invalid
             end
    end in
  match strip s with
  | EmptyString => invalid
  | String c r =>
      if Ascii.eqb c "+" then literal (fun n => n) r
      else if Ascii.eqb c "-" then literal Z.opp r
      else literal (fun n => n) (String c r)
  end.

(** ** [datetime.strptime(data, "%Y%j")] *)

(** The regular expression [_strptime] compiles for ["%Y%j"] is
    [(?P<Y>\d\d\d\d)(?P<j>36[0-6]|3[0-5]\d|[1-2]\d\d|0[1-9]\d|00[1-9]|[1-9]\d|0[1-9]|[1-9])]:
    a sequence of character classes, then an ordered choice of such
    sequences. *)
Definition char_class : Type := ascii -> bool.

Definition is_digit : char_class := fun c =>
  match digit_value c with Some _ => true | None => false end.
Definition between (lo hi : Z) : char_class := fun c =>
  match digit_value c with
  | Some d => (lo <=? d) && (d <=? hi)
  | None => false
  end.

Definition year_pattern : list char_class :=
  [is_digit; is_digit; is_digit; is_digit].

Definition julian_patterns : list (list char_class) :=
  [ [between 3 3; between 6 6; between 0 6];
    [between 3 3; between 0 5; is_digit];
    [between 1 2; is_digit; is_digit];
    [between 0 0; between 1 9; is_digit];
    [between 0 0; between 0 0; between 1 9];
    [between 1 9; is_digit];
    [between 0 0; between 1 9];
    [between 1 9] ].

(** Match a sequence of classes at the start of [s]: the matched text and
    what follows it. *)
Fixpoint match_classes (cs : list char_class) (s : string)
  : option (string * string) :=
  match cs with
  | [] => Some (EmptyString, s)
  | cl :: cs' =>
      match s with
      | EmptyString => None
      | String c r =>
          if cl c then
            match match_classes cs' r with
            | Some (m, rest) => Some (String c m, rest)
            | None => None
            end
          else None
      end
  end.

(** Ordered choice: the first alternative that matches. *)
Fixpoint first_alt (alts : list (list char_class)) (s : string)
  : option (string * string) :=
  match alts with
  | [] => None
  | cs :: alts' =>
      match match_classes cs s with
      | Some r => Some r
      | None => first_alt alts' s
      end
  end.

(** The value of a string of digits. *)
Definition digits_value (s : string) : Z :=
  fold_left (fun acc c => 10 * acc + match digit_value c with Some d => d | None => 0 end)
            (list_ascii_of_string s) 0.

(** [date.fromordinal(julian - 1 + date(year, 1, 1).toordinal())]: the
    [julian]-th day counted from the first of January of [year], which
    for day 366 of a common year is the first of January of the next. *)
Definition date_of_year_day (y julian : Z) : result date :=
  if y <? 1 then Raise (ValueError OutOfRange)
  else if julian <=? days_in_year y then
    let (m, d) := locate (is_leap y) 1 11 julian in Ok (mkdate y m d)
  else if y + 1 <=? 9999 then
    let (m, d) := locate (is_leap (y + 1)) 1 11 (julian - days_in_year y) in
    Ok (mkdate (y + 1) m d)
  else Raise (ValueError OutOfRange).

Definition strptime_Yj (data : string) : result date :=
  match match_classes year_pattern data with
  | None => Raise (ValueError (TimeDataMismatch data))
  | Some (Y, after_year) =>
      match first_alt julian_patterns after_year with
      | None => Raise (ValueError (TimeDataMismatch data))
      | Some (j, rest) =>
          match rest with
          | EmptyString => date_of_year_day (digits_value Y) (digits_value j)
          | _ => Raise (ValueError (UnconvertedData rest))
          end
      end
  end.

(** ** VIIRS_filename_parsing.py *)

Module VIIRS_filename_parsing.

Definition tokens (filename : string) : list string :=
  split "." (basename filename).

Definition parse_VIIRS_product (filename : string) : result string :=
  index (tokens filename) 0.

Definition parse_VIIRS_date (filename : string) : result date :=
  token <- index (tokens filename) 1 ;;
  strptime_Yj (drop_first token).

Definition parse_VIIRS_tile (filename : string) : result string :=
  index (tokens filename) 2.

Definition parse_VIIRS_build (filename : string) : result Z :=
  token <- index (tokens filename) 3 ;;
  int_of_str token.

End VIIRS_filename_parsing.

(** The filename grammar [PRODUCT.AYYYYDDD.TILE.BUILD[...]]: the name built
    from its four fields, the build number padded with zeros to [width]
    digits (three in the archive), under a directory and with an
    optional extension. *)
Definition VIIRS_filename (directory product : string) (d : date)
    (tile : string) (width build : nat) (extension : string) : string :=
  directory ++ product ++ "." ++ "A" ++ pad4 (year d) ++ pad3 (day_of_year d)
            ++ "." ++ tile ++ "." ++ zfill width (str_of_nat build) ++ extension.

(** ** Python's [sorted(l, key=...)] *)

Fixpoint map_result {A B : Type} (f : A -> result B) (l : list A)
  : result (list B) :=
  match l with
  | [] => Ok []
  | a :: l' => b <- f a ;; bs <- map_result f l' ;; Ok (b :: bs)
  end.

(** Insertion of a decorated item: it goes before the first item whose key
    is not smaller, so behind nothing it was ahead of with an equal key.
    Only [<] on keys is used, as [list.sort] does. *)
Fixpoint insert_by_key {A : Type} (x : string * A) (l : list (string * A))
  : list (string * A) :=
  match l with
  | [] => [x]
  | y :: l' =>
      if String.ltb (fst y) (fst x) then y :: insert_by_key x l'
      else x :: y :: l'
  end.

Definition sort_decorated {A : Type} (l : list (string * A))
  : list (string * A) :=
  fold_right insert_by_key [] l.

(** Keys are computed once per item, in order; the first failing key
    raises; the items are then ordered by key, stably. *)
Definition sorted {A : Type} (key : A -> result string) (l : list A)
  : result (list A) :=
  keys <- map_result key l ;;
  Ok (map snd (sort_decorated (combine keys l))).

(** ** VIIRS_CMR_query.py *)

Module VIIRS_CMR_query.

Record datetime : Type := mkdatetime {
  calendar_day : date;
  hour : Z;
  minute : Z;
  second : Z;
  utcoffset : option Z   (* minutes east of UTC; [None] for a naive value *)
}.

(** What [date_in] may be: a [date] or a [datetime] object, or a [str]. *)
Inductive date_object : Type :=
| DateObj (d : date)
| DatetimeObj (t : datetime).

Inductive date_in : Type :=
| Obj (x : date_object)
| Str (s : string).

(** A granule record of the catalog: the two entries the query reads
    ([None] when the entry is absent from the record) and the rest. *)
Record granule : Type := mkgranule {
  native_id : option string;            (* granule["meta"]["native-id"] *)
  BeginningDateTime : option string;    (* granule["umm"]["TemporalExtent"]["RangeDateTime"]["BeginningDateTime"] *)
  umm_rest : string
}.

Section Query.

(** [dateutil.parser.parse]. *)
Variable parse : string -> result datetime.

(** Coordinates, and shapely's counter-clockwise test on a ring given
    by its coordinate sequence; [ring.reverse()] reverses the
    sequence. *)
Variable coord : Type.
Definition ring : Type := list (coord * coord).
Variable is_ccw : ring -> bool.

Inductive SpatialGeometry : Type :=
| Point (x y : coord)
| Polygon (exterior : ring)
| RasterGeometry (corner_polygon_latlon_exterior : ring).

(** The request [earthaccess.granule_query()] accumulates. *)
Record Query : Type := mkQuery {
  q_concept_id : option string;
  q_temporal : option (datetime * datetime);
  q_point : option (coord * coord);
  q_polygon : option ring;
  q_readable_granule_name : option string
}.

(** A call of a setter of the request with its arguments. The setters
    are the library's: each checks what it is given (the form of a
    concept identifier, the order of the two ends of a window, the
    points of a polygon) and raises [ValueError] on what it refuses;
    which calls a setter accepts is the library's to say. *)
Inductive setter_call : Type :=
| Call_concept_id (id : string)
| Call_temporal (date_from date_to : datetime)
| Call_point (x y : coord)
| Call_polygon (coordinates : ring)
| Call_readable_granule_name (pattern : string).

Variable accepts : setter_call -> bool.

Definition checked (call : setter_call) (q : Query) : result Query :=
  if accepts call then Ok q else Raise (ValueError InvalidArgument).

Definition granule_query : Query := mkQuery None None None None None.
Definition concept_id (q : Query) (id : string) : result Query :=
  checked (Call_concept_id id)
    (mkQuery (Some id) (q_temporal q) (q_point q) (q_polygon q)
             (q_readable_granule_name q)).
Definition temporal (q : Query) (date_from date_to : datetime) : result Query :=
  checked (Call_temporal date_from date_to)
    (mkQuery (q_concept_id q) (Some (date_from, date_to)) (q_point q)
             (q_polygon q) (q_readable_granule_name q)).
Definition point (q : Query) (x y : coord) : result Query :=
  checked (Call_point x y)
    (mkQuery (q_concept_id q) (q_temporal q) (Some (x, y)) (q_polygon q)
             (q_readable_granule_name q)).
Definition polygon (q : Query) (coordinates : ring) : result Query :=
  checked (Call_polygon coordinates)
    (mkQuery (q_concept_id q) (q_temporal q) (q_point q) (Some coordinates)
             (q_readable_granule_name q)).
Definition readable_granule_name (q : Query) (pattern : string) : result Query :=
  checked (Call_readable_granule_name pattern)
    (mkQuery (q_concept_id q) (q_temporal q) (q_point q) (q_polygon q)
             (Some pattern)).

(** The external transport, [query.get()]. *)
Variable get : Query -> result (list granule).

(** [%Y] of a year from 1 to 9999: its decimal digits, at most four. *)
Definition str_of_year (y : Z) : string := decimal_digits 4 y "".

(** The calendar day of a [date] or a [datetime]. *)
Definition day_of (x : date_object) : date :=
  match x with
  | DateObj d => d
  | DatetimeObj t => calendar_day t
  end.

(** [x.strftime("%Y-%m-%d")] on a [date] or a [datetime], as the C
    library of Linux prints it: the year with the digits it has, not
    padded to four (year 999 is printed [999]), the month and the day
    on two digits. *)
Definition strftime_Ymd (x : date_object) : string :=
  str_of_year (year (day_of x)) ++ "-" ++ pad2 (month (day_of x)) ++ "-"
       ++ pad2 (day (day_of x)).

Definition earliest_datetime (date_in : date_in) : result datetime :=
  datetime_in <- match date_in with
                 | Str s => t <- parse s ;; Ok (DatetimeObj t)
                 | Obj x => Ok x
                 end ;;
  let date_string := strftime_Ymd datetime_in in
  parse (date_string ++ "T00:00:00Z").

Definition latest_datetime (date_in : date_in) : result datetime :=
  datetime_in <- match date_in with
                 | Str s => t <- parse s ;; Ok (DatetimeObj t)
                 | Obj x => Ok x
                 end ;;
  let date_string := strftime_Ymd datetime_in in
  parse (date_string ++ "T23:59:59Z").

(** [if not ring.is_ccw: ring = ring.reverse()]. *)
Definition normalize_winding (r : ring) : ring :=
  if negb (is_ccw r) then rev r else r.

(** The request the function builds before it runs it. The chain
    [granule_query().concept_id(...).temporal(earliest_datetime(...),
    latest_datetime(...))] calls [concept_id] before it reads the two
    ends of the window. *)
Definition build_query (concept_ID : string) (start_date end_date : date_in)
    (target_geometry : option SpatialGeometry) (tile : option string)
  : result Query :=
  query <- concept_id granule_query concept_ID ;;
  date_from <- earliest_datetime start_date ;;
  date_to <- latest_datetime end_date ;;
  query <- temporal query date_from date_to ;;
  query <- match target_geometry with
           | Some (Point x y) => point query x y
           | _ => Ok query
           end ;;
  query <- match target_geometry with
           | Some (Polygon exterior) => polygon query (normalize_winding exterior)
           | _ => Ok query
           end ;;
  query <- match target_geometry with
           | Some (RasterGeometry exterior) =>
               polygon query (normalize_winding exterior)
           | _ => Ok query
           end ;;
  query <- match tile with
           | Some t => readable_granule_name query ("*." ++ t ++ ".*")
           | None => Ok query
           end ;;
  Ok query.

(** [try: body  except Exception as e: raise CMRServerUnreachable(e)]. *)
Definition reraise_as_unreachable {A : Type} (body : result A) : result A :=
  match body with
  | Ok a => Ok a
  | Raise e => if is_Exception e then Raise (CMRServerUnreachable e)
               else Raise e
  end.

Definition begin_key (g : granule) : result string :=
  match BeginningDateTime g with
  | Some t => Ok t
  | None => Raise (KeyError "BeginningDateTime")
  end.

(** The line each granule contributes to the log. *)
Definition log_line (g : granule) : result string :=
  match native_id g with
  | Some id => Ok ("  " ++ id)
  | None => Raise (KeyError "native-id")
  end.

Definition VIIRS_CMR_query (concept_ID : string)
    (start_date end_date : date_in)
    (target_geometry : option SpatialGeometry) (tile : option string)
  : result (list granule) :=
  query <- build_query concept_ID start_date end_date target_geometry tile ;;
  granules <- reraise_as_unreachable (get query) ;;
  granules <- sorted begin_key granules ;;
  _ <- map_result log_line granules ;;
  Ok granules.

End Query.

Arguments Point {coord} x y.
Arguments Polygon {coord} exterior.
Arguments RasterGeometry {coord} corner_polygon_latlon_exterior.
Arguments q_concept_id {coord} q.
Arguments q_temporal {coord} q.
Arguments q_point {coord} q.
Arguments q_polygon {coord} q.
Arguments q_readable_granule_name {coord} q.
Arguments Call_concept_id {coord} id.
Arguments Call_temporal {coord} date_from date_to.
Arguments Call_point {coord} x y.
Arguments Call_polygon {coord} coordinates.
Arguments Call_readable_granule_name {coord} pattern.
Arguments normalize_winding {coord} is_ccw r.
Arguments build_query parse {coord} is_ccw accepts concept_ID start_date end_date
  target_geometry tile.
Arguments VIIRS_CMR_query parse {coord} is_ccw accepts get concept_ID start_date
  end_date target_geometry tile.

End VIIRS_CMR_query.

(** ** Numbers of numpy *)

(** A Python [int] as a binary64 value, rounded to nearest even. *)
Definition float_of_Z (z : Z) : float :=
  SF2Prim (binary_normalize prec emax z 0 false).

(** [float(n)] of a Python [int], as numpy converts an [int] it meets
    in floating-point arithmetic: [OverflowError] when the nearest
    binary64 value is beyond the largest. *)
Definition double_of_int (n : Z) : result float :=
  let f := float_of_Z n in
  if is_infinity f then Raise OverflowError else Ok f.

(** The binary32 value nearest a binary64 value, to nearest even, as
    the binary64 value equal to it. *)
Definition float32 (f : float) : float :=
  match Prim2SF f with
  | S754_finite s m e =>
      match binary_round 24 128 s m e with
      | S754_finite s' m' e' => SF2Prim (binary_round prec emax s' m' e')
      | rounded => SF2Prim rounded
      end
  | _ => f
  end.

(** [int(x)] of a binary64 value: truncation towards zero. *)
Definition int_of_float (f : float) : result Z :=
  match Prim2SF f with
  | S754_zero _ => Ok 0
  | S754_infinity _ => Raise OverflowError
  | S754_nan => Raise (ValueError CannotConvert)
  | S754_finite s m e =>
      let magnitude := Z.shiftl (Zpos m) e in
      Ok (if s then - magnitude else magnitude)
  end.

(** A numpy scalar, and the value of an HDF5 attribute: a scalar, a
    one-dimensional array of scalars, or an object reference (which is
    not a number). *)
Inductive scalar : Type :=
| IntScalar (z : Z)
| FloatScalar (f : float).

Inductive attr : Type :=
| Scalar (x : scalar)
| Array (xs : list scalar)
| Reference.

Definition int_of_scalar (x : scalar) : result Z :=
  match x with
  | IntScalar z => Ok z
  | FloatScalar f => int_of_float f
  end.

Definition float_of_scalar (x : scalar) : result float :=
  match x with
  | IntScalar z => Ok (float_of_Z z)
  | FloatScalar f => Ok f
  end.

(** [int(a)] and [float(a)]: a scalar, or an array of exactly one. *)
Definition int_of_attr (a : attr) : result Z :=
  match a with
  | Scalar x | Array [x] => int_of_scalar x
  | _ => Raise TypeError
  end.

Definition float_of_attr (a : attr) : result float :=
  match a with
  | Scalar x | Array [x] => float_of_scalar x
  | _ => Raise TypeError
  end.

(** [a[k]]. *)
Definition attr_item (a : attr) (k : nat) : result attr :=
  match a with
  | Array xs => x <- index xs k ;; Ok (Scalar x)
  | Scalar _ => Raise IndexError
  | Reference => Raise TypeError
  end.

(** A Python [dict] with string keys. *)
Fixpoint dict_get {V : Type} (d : list (string * V)) (k : string) : option V :=
  match d with
  | [] => None
  | (k', v) :: d' => if String.eqb k k' then Some v else dict_get d' k
  end.

(** ** Arrays of numpy *)

(** The elements of an n-dimensional array in row-major order, and
    the length of each axis. *)
Record ndarray (P : Type) : Type := mkarray {
  dims : list nat;
  data : list P
}.
Arguments mkarray {P} dims data.
Arguments dims {P} n.
Arguments data {P} n.

Definition array_map {P Q : Type} (f : P -> Q) (a : ndarray P) : ndarray Q :=
  mkarray (dims a) (map f (data a)).

(** [np.full(shape, value)]. *)
Definition np_full {P : Type} (sh : list nat) (value : P) : ndarray P :=
  mkarray sh (repeat value (fold_right Nat.mul 1%nat sh)).

(** An integer type of numpy: signed or not, and its width in bits. *)
Record int_type : Type := mkint_type {
  signed : bool;
  bits : Z
}.

Definition int8 : int_type := mkint_type true 8.
Definition uint8 : int_type := mkint_type false 8.
Definition int16 : int_type := mkint_type true 16.
Definition uint16 : int_type := mkint_type false 16.
Definition int32 : int_type := mkint_type true 32.
Definition uint32 : int_type := mkint_type false 32.
Definition int64 : int_type := mkint_type true 64.
Definition uint64 : int_type := mkint_type false 64.

Definition lowest (t : int_type) : Z :=
  if signed t then - 2 ^ (bits t - 1) else 0.
Definition highest (t : int_type) : Z :=
  if signed t then 2 ^ (bits t - 1) - 1 else 2 ^ bits t - 1.
Definition in_range (t : int_type) (n : Z) : bool :=
  (lowest t <=? n) && (n <=? highest t).

(** What an integer type holds for the exact result [n]: the value of
    the type that differs from [n] by a multiple of [2 ^ bits]. *)
Definition wrap (t : int_type) (n : Z) : Z :=
  lowest t + (n - lowest t) mod 2 ^ bits t.

(** A numeric array with its element type. A float32 element is the
    binary64 value equal to it. *)
Inductive pixels : Type :=
| Integers (t : int_type) (values : ndarray Z)
| Float32 (values : ndarray float)
| Float64 (values : ndarray float).

(** [a.shape]. *)
Class Shaped (A : Type) : Type := shape : A -> list nat.

#[export] Instance ndarray_Shaped {P : Type} : Shaped (ndarray P) := dims.

#[export] Instance pixels_Shaped : Shaped pixels :=
  fun a => match a with
           | Integers _ values | Float32 values | Float64 values => dims values
           end.

(** The comparisons the decoder makes between an array and a Python
    [int]: [a == n], [a < n] and [a > n]. *)
Inductive test : Type := IsEqual | IsBelow | IsAbove.

Definition test_int (op : test) (z n : Z) : bool :=
  match op with
  | IsEqual => z =? n
  | IsBelow => z <? n
  | IsAbove => n <? z
  end.

Definition test_float (op : test) (f c : float) : bool :=
  match op with
  | IsEqual => (f =? c)%float
  | IsBelow => (f <? c)%float
  | IsAbove => (c <? f)%float
  end.

(** An integer array is compared with the [int] exactly, whatever the
    size of the [int]; a floating-point array is compared with the
    [int] converted to the element type of the array. *)
Definition compare (op : test) (a : pixels) (n : Z) : result (ndarray bool) :=
  match a with
  | Integers _ values => Ok (array_map (fun z => test_int op z n) values)
  | Float32 values =>
      c <- double_of_int n ;;
      Ok (array_map (fun f => test_float op f (float32 c)) values)
  | Float64 values =>
      c <- double_of_int n ;;
      Ok (array_map (fun f => test_float op f c) values)
  end.

(** [np.where(condition, np.nan, a)] for a condition shaped like [a]:
    integers become float64, each the nearest binary64 value;
    floating-point arrays keep their element type. *)
Definition where_nan (condition : ndarray bool) (a : pixels) : pixels :=
  let choose (values : list float) :=
    map (fun cx : bool * float => if fst cx then nan else snd cx)
        (combine (data condition) values) in
  match a with
  | Integers _ values =>
      Float64 (mkarray (dims values) (choose (map float_of_Z (data values))))
  | Float32 values => Float32 (mkarray (dims values) (choose (data values)))
  | Float64 values => Float64 (mkarray (dims values) (choose (data values)))
  end.

(** A Python number given as a scale or an offset. *)
Inductive pynumber : Type :=
| PyInt (n : Z)
| PyFloat (f : float).

Definition float_of_pynumber (s : pynumber) : result float :=
  match s with
  | PyInt n => double_of_int n
  | PyFloat f => Ok f
  end.

(** [a * s] and [a + s] for a Python number [s]. An integer array
    with an [int] stays of its type and wraps around, and an [int] the
    type cannot hold is refused; an integer array with a [float]
    becomes float64; a floating-point array keeps its element type,
    the number being converted to it. *)
Definition arithmetic (int_op : Z -> Z -> Z) (float_op : float -> float -> float)
    (a : pixels) (s : pynumber) : result pixels :=
  match a with
  | Integers t values =>
      match s with
      | PyInt n =>
          if in_range t n
          then Ok (Integers t (array_map (fun z => wrap t (int_op z n)) values))
          else Raise OverflowError
      | PyFloat c =>
          Ok (Float64 (array_map (fun z => float_op (float_of_Z z) c) values))
      end
  | Float32 values =>
      c <- float_of_pynumber s ;;
      Ok (Float32 (array_map (fun f => float32 (float_op f (float32 c))) values))
  | Float64 values =>
      c <- float_of_pynumber s ;;
      Ok (Float64 (array_map (fun f => float_op f c) values))
  end.

Definition multiply : pixels -> pynumber -> result pixels :=
  arithmetic Z.mul PrimFloat.mul.
Definition add : pixels -> pynumber -> result pixels :=
  arithmetic Z.add PrimFloat.add.

(** ** HDF5 files and the handles opened on them *)

(** A dataset: its array, of the element type it is stored with, and
    its attributes. *)
Record dataset : Type := mkdataset {
  ds_array : pixels;
  ds_attrs : list (string * attr)
}.

#[warnings="-register-all"]
Inductive h5node : Type :=
| H5Group (members : list (string * h5node)) (group_attrs : list (string * attr))
| H5Dataset (d : dataset).

Fixpoint lookup_path (n : h5node) (path : list string) : option h5node :=
  match path with
  | [] => Some n
  | name :: rest =>
      match n with
      | H5Group members _ =>
          match dict_get members name with
          | Some child => lookup_path child rest
          | None => None
          end
      | H5Dataset _ => None
      end
  end.

(** The components of an HDF5 path: empty components (a doubled or
    trailing slash) name nothing. *)
Definition components (path : string) : list string :=
  filter (fun c => negb (String.eqb c EmptyString)) (split "/" path).

(** What happens to files, in order. *)
Inductive event : Type :=
| Opened (handle : nat) (path : string)
| Closed (handle : nat).

(** The file system ([files]), the identifiers of the handles now open
    with the path each was opened on, the next fresh identifier, and the
    events so far, the latest last. *)
Record world : Type := mkworld {
  files : list (string * h5node);
  open_handles : list (nat * string);
  next_handle : nat;
  history : list event
}.

(** A computation that may raise and that reads and changes the world. *)
Definition M (A : Type) : Type := world -> result A * world.

Definition ret {A : Type} (a : A) : M A := fun w => (Ok a, w).
Definition lift {A : Type} (r : result A) : M A := fun w => (r, w).
Definition bindM {A B : Type} (m : M A) (k : A -> M B) : M B :=
  fun w => match m w with
           | (Ok a, w') => k a w'
           | (Raise e, w') => (Raise e, w')
           end.

Notation "x <~ m ;; k" := (bindM m (fun x => k))
  (at level 61, m at next level, right associativity).

Fixpoint handle_path (h : nat) (hs : list (nat * string)) : option string :=
  match hs with
  | [] => None
  | (h', p) :: hs' => if Nat.eqb h h' then Some p else handle_path h hs'
  end.

(** [h5py.File(path, "r")]. *)
Definition File (path : string) : M nat := fun w =>
  match dict_get (files w) path with
  | None => (Raise (OSError path), w)
  | Some _ =>
      let h := next_handle w in
      (Ok h, mkworld (files w) ((h, path) :: open_handles w) (S h)
                     (history w ++ [Opened h path]))
  end.

(** [file.close()]. *)
Definition close (h : nat) : M unit := fun w =>
  (Ok tt, mkworld (files w)
                  (filter (fun hp => negb (Nat.eqb (fst hp) h)) (open_handles w))
                  (next_handle w)
                  (history w ++ [Closed h])).

(** [with h5py.File(path, "r") as file: body]: the handle is closed when
    the body is left, by its end, by a [return] or by an exception. *)
Definition with_File {A : Type} (path : string) (body : nat -> M A) : M A :=
  fun w =>
    match File path w with
    | (Raise e, w1) => (Raise e, w1)
    | (Ok file, w1) =>
        let (r, w2) := body file w1 in
        let (_, w3) := close file w2 in
        (r, w3)
    end.

(** An object of an open file: the handle and the path under it.
    Reading through it needs the handle open. *)
Definition h5object : Type := nat * list string.

(** What the [KeyError] of h5py tells of a path that names nothing
    under [n]: its message names the missing member when the group
    that should hold it is there, and no object when the path is lost
    before its last component. *)
Fixpoint unresolved (n : h5node) (path : list string) : string :=
  match path, n with
  | [name], H5Group _ _ => name
  | name :: rest, H5Group members _ =>
      match dict_get members name with
      | Some child => unresolved child rest
      | None => EmptyString
      end
  | _, _ => EmptyString
  end.

Definition deref (o : h5object) : M h5node := fun w =>
  match handle_path (fst o) (open_handles w) with
  | None => (Raise (ValueError InvalidIdentifier), w)
  | Some p =>
      match dict_get (files w) p with
      | None => (Raise (OSError p), w)
      | Some root =>
          match lookup_path root (snd o) with
          | Some n => (Ok n, w)
          | None => (Raise (KeyError (unresolved root (snd o))), w)
          end
      end
  end.

(** [file[name]]. *)
Definition getitem (file : nat) (name : string) : M h5object :=
  fun w =>
    match deref (file, components name) w with
    | (Ok _, w') => (Ok (file, components name), w')
    | (Raise e, w') => (Raise e, w')
    end.

(** [list(group.keys())]. *)
Definition keys (o : h5object) : M (list string) :=
  n <~ deref o ;;
  match n with
  | H5Group members _ => ret (map fst members)
  | H5Dataset _ => lift (Raise (AttributeError "keys"))
  end.

Definition as_dataset (o : h5object) (attribute : string) : M dataset :=
  n <~ deref o ;;
  match n with
  | H5Dataset d => ret d
  | H5Group _ _ => lift (Raise (AttributeError attribute))
  end.

(** [dataset.shape[0]], [np.array(dataset)], [dict(dataset.attrs)]. *)
Definition shape0 (o : h5object) : M nat :=
  d <~ as_dataset o "shape" ;; lift (index (shape (ds_array d)) 0).
Definition np_array (o : h5object) : M pixels :=
  n <~ deref o ;;
  match n with
  | H5Dataset d => ret (ds_array d)
  | H5Group _ _ => lift (Raise TypeError)
  end.
Definition attrs_dict (o : h5object) : M (list (string * attr)) :=
  n <~ deref o ;;
  match n with
  | H5Dataset d => ret (ds_attrs d)
  | H5Group _ group_attrs => ret group_attrs
  end.

(** ** [os.path.splitext] *)

(** [s.rfind(c)]: the position of the last [c] in [s], or -1. *)
Fixpoint rfind (c : ascii) (s : string) : Z :=
  match s with
  | EmptyString => -1
  | String a r =>
      let k := rfind c r in
      if 0 <=? k then k + 1 else if Ascii.eqb a c then 0 else -1
  end.

(** [s[i:j]] for [0 <= i]. *)
Definition slice (s : string) (i j : Z) : string :=
  substring (Z.to_nat i) (Z.to_nat (j - i)) s.

(** [posixpath.splitext(p)]: the path is cut at its last dot when that
    dot comes after the last slash and some character between the two
    is not a dot (leading dots of the base name start no extension). *)
Definition splitext (p : string) : string * string :=
  let sepIndex := rfind "/" p in
  let dotIndex := rfind "." p in
  if (sepIndex <? dotIndex)
     && existsb (fun c => negb (Ascii.eqb c "."))
                (list_ascii_of_string (slice p (sepIndex + 1) dotIndex))
  then (slice p 0 dotIndex, slice p dotIndex (Z.of_nat (String.length p)))
  else (p, EmptyString).

(** ** VIIRS_tiled_granule.py *)

Module VIIRS_tiled_granule.

(** The decoder object: the two attributes [__init__] sets. *)
Record VIIRSTiledGranule : Type := mkVIIRSTiledGranule {
  _filename : string;
  _cloud_mask : option unit
}.

Definition __init__ (filename : string) : VIIRSTiledGranule :=
  mkVIIRSTiledGranule filename None.

Section Decoder.

(** [abspath(expanduser(path))], which depends on the process. *)
Variable abspath_expanduser : string -> string.

(** [parse_VIIRS_tile] as [from .granule_ID import *] brings it in. *)
Variable parse_VIIRS_tile : string -> result string.

(** Georeferencing: the grid type of [rasters], the MODLAND grid of a
    tile at a pixel dimension, and reprojection to a target. *)
Variable RasterGeometry : Type.
Variable generate_modland_grid : string -> nat -> result RasterGeometry.

Record Raster (A : Type) : Type := mkRaster {
  array : A;
  geometry : RasterGeometry
}.
Arguments mkRaster {A} array geometry.
Arguments array {A} r.
Arguments geometry {A} r.

#[export] Instance Raster_Shaped {A : Type} `{Shaped A} : Shaped (Raster A) :=
  fun r => shape (array r).

(** [Raster(array, geometry=geometry)], which takes arrays of two
    dimensions only. *)
Definition new_Raster {A : Type} `{Shaped A} (array : A) (geometry : RasterGeometry)
  : result (Raster A) :=
  if (List.length (shape array) =? 2)%nat
  then Ok (mkRaster array geometry)
  else Raise (ValueError NotTwoDimensional).

Variable to_geometry : Raster pixels -> RasterGeometry -> result (Raster pixels).

(** [rt.where(layer == n, np.nan, layer)], and the same with [<] and
    [>]: the comparison, then the choice. *)
Definition where_test (op : test) (layer : Raster pixels) (n : Z)
  : result (Raster pixels) :=
  condition <- compare op (array layer) n ;;
  Ok (mkRaster (where_nan condition (array layer)) (geometry layer)).

(** [layer * s] and [layer + s], which [layer *= s] and [layer += s]
    assign to [layer]. *)
Definition times (layer : Raster pixels) (s : pynumber) : result (Raster pixels) :=
  product <- multiply (array layer) s ;;
  Ok (mkRaster product (geometry layer)).
Definition plus (layer : Raster pixels) (s : pynumber) : result (Raster pixels) :=
  sum <- add (array layer) s ;;
  Ok (mkRaster sum (geometry layer)).

Definition filename (self : VIIRSTiledGranule) : string := _filename self.
Definition filename_absolute (self : VIIRSTiledGranule) : string :=
  abspath_expanduser (filename self).
Definition filename_base (self : VIIRSTiledGranule) : string :=
  basename (filename self).
Definition filename_stem (self : VIIRSTiledGranule) : string :=
  fst (splitext (filename_base self)).
Definition tile (self : VIIRSTiledGranule) : result string :=
  parse_VIIRS_tile (filename self).

(** [datetime.strptime(..., "%Y%j")] without [.date()]: the [datetime]
    at midnight of the day, with no time zone. *)
Definition date_UTC (self : VIIRSTiledGranule) : result VIIRS_CMR_query.datetime :=
  token <- index (split "." (filename_base self)) 1 ;;
  d <- strptime_Yj (drop_first token) ;;
  Ok (VIIRS_CMR_query.mkdatetime d 0 0 0 None).

Definition grids (self : VIIRSTiledGranule) : M (list string) :=
  with_File (filename_absolute self) (fun file =>
    group <~ getitem file "HDFEOS/GRIDS/" ;;
    keys group).

Definition variables (self : VIIRSTiledGranule) (grid : string)
  : M (list string) :=
  with_File (filename_absolute self) (fun file =>
    group <~ getitem file ("HDFEOS/GRIDS/" ++ grid ++ "/Data Fields/") ;;
    keys group).

Definition DN (self : VIIRSTiledGranule) (variable grid : string)
    (geometry : option RasterGeometry) : M (Raster pixels) :=
  DN <~ with_File (filename_absolute self) (fun file =>
    let dataset_name := "HDFEOS/GRIDS/" ++ grid ++ "/Data Fields/" ++ variable in
    dataset <~ getitem file dataset_name ;;
    tile <~ lift (tile self) ;;
    tile_size <~ shape0 dataset ;;
    DN_geometry <~ lift (generate_modland_grid tile tile_size) ;;
    DN_array <~ np_array dataset ;;
    lift (new_Raster DN_array DN_geometry)) ;;
  match geometry with
  | Some target => lift (to_geometry DN target)
  | None => ret DN
  end.

Definition attributes (self : VIIRSTiledGranule) (variable grid : string)
  : M (list (string * attr)) :=
  with_File (filename_absolute self) (fun file =>
    let dataset_name := "HDFEOS/GRIDS/" ++ grid ++ "/Data Fields/" ++ variable in
    dataset <~ getitem file dataset_name ;;
    attrs_dict dataset).

(** [if p is None and name in attributes: p = convert(attributes[name])]. *)
Definition or_attribute {A : Type} (p : option A)
    (attributes : list (string * attr)) (name : string)
    (convert : attr -> result A) : result (option A) :=
  match p, dict_get attributes name with
  | None, Some a => v <- convert a ;; Ok (Some v)
  | _, _ => Ok p
  end.

(** [float(a)] kept as the Python number it is. *)
Definition pyfloat_of_attr (a : attr) : result pynumber :=
  f <- float_of_attr a ;; Ok (PyFloat f).

(** The body of [layer] from [layer = DN] to the valid-range test. *)
Definition mask_stages (DN : Raster pixels) (attributes : list (string * attr))
    (fill valid_min valid_max : option Z) : result (Raster pixels) :=
  let layer := DN in
  fill <- or_attribute fill attributes "_Fillvalue" int_of_attr ;;
  layer <- match fill with
           | Some fill => where_test IsEqual layer fill
           | None => Ok layer
           end ;;
  valid_min <- or_attribute valid_min attributes "valid_range"
                 (fun a => x <- attr_item a 0 ;; int_of_attr x) ;;
  layer <- match valid_min with
           | Some valid_min => where_test IsBelow layer valid_min
           | None => Ok layer
           end ;;
  valid_max <- or_attribute valid_max attributes "valid_range"
                 (fun a => x <- attr_item a 1 ;; int_of_attr x) ;;
  layer <- match valid_max with
           | Some valid_max => where_test IsAbove layer valid_max
           | None => Ok layer
           end ;;
  Ok layer.

(** The rest of the body: [layer *= scale], [layer += offset]. *)
Definition rescale_stages (layer : Raster pixels)
    (attributes : list (string * attr)) (scale offset : option pynumber)
  : result (Raster pixels) :=
  scale <- or_attribute scale attributes "scale_factor" pyfloat_of_attr ;;
  layer <- match scale with
           | Some scale => times layer scale
           | None => Ok layer
           end ;;
  offset <- or_attribute offset attributes "add_offset" pyfloat_of_attr ;;
  layer <- match offset with
           | Some offset => plus layer offset
           | None => Ok layer
           end ;;
  Ok layer.

Definition layer (self : VIIRSTiledGranule) (variable grid : string)
    (fill : option Z) (scale offset : option pynumber)
    (valid_min valid_max : option Z) (geometry : option RasterGeometry)
  : M (Raster pixels) :=
  DN <~ DN self variable grid geometry ;;
  attributes <~ attributes self variable grid ;;
  lift (layer <- mask_stages DN attributes fill valid_min valid_max ;;
        rescale_stages layer attributes scale offset).

Definition fill (self : VIIRSTiledGranule) (variable grid : string)
    (fill : option Z) (geometry : option RasterGeometry)
  : M (Raster (ndarray bool)) :=
  DN <~ DN self variable grid geometry ;;
  attributes <~ attributes self variable grid ;;
  lift (let layer := DN in
        fill <- or_attribute fill attributes "_Fillvalue" int_of_attr ;;
        match fill with
        | Some fill =>
            condition <- compare IsEqual (array layer) fill ;;
            Ok (mkRaster condition (Decoder.geometry layer))
        | None => new_Raster (np_full (shape layer) false) (Decoder.geometry layer)
        end).

End Decoder.

Arguments mkRaster {RasterGeometry A} array geometry.
Arguments array {RasterGeometry A} r.
Arguments geometry {RasterGeometry A} r.
Arguments new_Raster {RasterGeometry A _} array geometry.
Arguments where_test {RasterGeometry} op layer n.
Arguments times {RasterGeometry} layer s.
Arguments plus {RasterGeometry} layer s.
Arguments mask_stages {RasterGeometry} DN attributes fill valid_min valid_max.
Arguments rescale_stages {RasterGeometry} layer attributes scale offset.
Arguments DN abspath_expanduser parse_VIIRS_tile {RasterGeometry} generate_modland_grid
  to_geometry self variable grid geometry.
Arguments layer abspath_expanduser parse_VIIRS_tile {RasterGeometry} generate_modland_grid
  to_geometry self variable grid fill scale offset valid_min valid_max geometry.
Arguments fill abspath_expanduser parse_VIIRS_tile {RasterGeometry} generate_modland_grid
  to_geometry self variable grid fill geometry.

End VIIRS_tiled_granule.

(** ** Instances of the external collaborators

    Concrete stand-ins for the parameters of the query builder: a reader
    of ISO 8601 timestamps for [dateutil.parser.parse], the
    signed-area winding test in exact arithmetic on integer
    coordinates, on which a ring without area is not counter-clockwise
    in either direction, and a check of the order of a window; a small
    granule file and stand-ins for the georeferencing of the decoder,
    whose tile parser is here the one of the filename codec. *)

Module Instances.

Import VIIRS_CMR_query.

(** [n] decimal digits and their value. *)
Definition digits (n : nat) (s : string) : option (Z * string) :=
  match match_classes (repeat is_digit n) s with
  | Some (m, rest) => Some (digits_value m, rest)
  | None => None
  end.

Definition expect (c : ascii) (s : string) : option string :=
  match s with
  | String x r => if Ascii.eqb x c then Some r else None
  | EmptyString => None
  end.

Definition valid_dateb (d : date) : bool :=
  (1 <=? year d) && (year d <=? 9999) && (1 <=? month d) && (month d <=? 12)
  && (1 <=? day d) && (day d <=? days_in_month (year d) (month d)).

(** [YYYY-MM-DD] and what follows it. *)
Definition iso_date (s : string) : option (date * string) :=
  match digits 4 s with
  | Some (y, s) =>
      match expect "-" s with
      | Some s =>
          match digits 2 s with
          | Some (m, s) =>
              match expect "-" s with
              | Some s =>
                  match digits 2 s with
                  | Some (d, s) => Some (mkdate y m d, s)
                  | None => None
                  end
              | None => None
              end
          | None => None
          end
      | None => None
      end
  | None => None
  end.

(** [hh:mm:ss] and what follows it. *)
Definition iso_time (s : string) : option (Z * Z * Z * string) :=
  match digits 2 s with
  | Some (h, s) =>
      match expect ":" s with
      | Some s =>
          match digits 2 s with
          | Some (m, s) =>
              match expect ":" s with
              | Some s =>
                  match digits 2 s with
                  | Some (sec, s) =>
                      if (h <? 24) && (m <? 60) && (sec <? 60)
                      then Some (h, m, sec, s) else None
                  | None => None
                  end
              | None => None
              end
          | None => None
          end
      | None => None
      end
  | None => None
  end.

(** A date, then nothing, or [T] or a space and a time, then nothing
    (a naive value) or [Z] (UTC). *)
Definition iso_parse (text : string) : result datetime :=
  match iso_date text with
  | Some (d, EmptyString) =>
      if valid_dateb d then Ok (mkdatetime d 0 0 0 None)
      else Raise (ParserError text)
  | Some (d, String sep s) =>
      if valid_dateb d && (Ascii.eqb sep "T" || Ascii.eqb sep " ") then
        match iso_time s with
        | Some (h, m, sec, EmptyString) => Ok (mkdatetime d h m sec None)
        | Some (h, m, sec, String "Z" EmptyString) =>
            Ok (mkdatetime d h m sec (Some 0))
        | _ => Raise (ParserError text)
        end
      else Raise (ParserError text)
  | None => Raise (ParserError text)
  end.

(** Twice the signed area a coordinate sequence encloses (the shoelace
    sum over consecutive points), positive when counter-clockwise. *)
Definition cross (p q : Z * Z) : Z := fst p * snd q - fst q * snd p.

Fixpoint twice_area (r : list (Z * Z)) : Z :=
  match r with
  | p :: r' =>
      match r' with
      | q :: _ => cross p q + twice_area r'
      | [] => 0
      end
  | [] => 0
  end.

Definition ccw_exact (r : list (Z * Z)) : bool := 0 <? twice_area r.

(** A stand-in for the checks of the setters of the request: a window
    whose start is later than its end is refused, anything else is
    accepted. *)
Definition later (a b : datetime) : bool :=
  let key (t : datetime) :=
    [year (calendar_day t); month (calendar_day t); day (calendar_day t);
     hour t; minute t; second t] in
  (fix after (xs ys : list Z) : bool :=
     match xs, ys with
     | x :: xs', y :: ys' => (y <? x) || ((x =? y) && after xs' ys')
     | _, _ => false
     end) (key a) (key b).

Definition window_in_order (call : setter_call Z) : bool :=
  match call with
  | Call_temporal date_from date_to => negb (later date_from date_to)
  | _ => true
  end.

(** A granule file with one grid: a reflectance band of 16-bit
    integers with the usual attributes, and a quality band of bytes
    with none. *)
Definition sample_file : h5node :=
  H5Group
    [ ("HDFEOS",
       H5Group
         [ ("GRIDS",
            H5Group
              [ ("VNP_Grid_1km_2D",
                 H5Group
                   [ ("Data Fields",
                      H5Group
                        [ ("SurfReflect_M5_1",
                           H5Dataset
                             (mkdataset
                                (Integers int16
                                   (mkarray [2%nat; 2%nat] [-28672; -101; -100; 16000]))
                                [ ("_Fillvalue", Array [IntScalar (-28672)]);
                                  ("valid_range", Array [IntScalar (-100); IntScalar 16000]);
                                  ("scale_factor", Scalar (FloatScalar 2%float));
                                  ("add_offset", Scalar (FloatScalar 1%float)) ]));
                          ("SurfReflect_QF1_1",
                           H5Dataset
                             (mkdataset
                                (Integers uint8 (mkarray [2%nat; 2%nat] [0; 1; 2; 3]))
                                [])) ]
                        []) ]
                   []) ]
              []) ]
         []) ]
    [].

Definition sample_path : string := "/data/VNP09GA.A2020123.h10v05.001.h5".

Definition sample_world : world :=
  mkworld [(sample_path, sample_file)] [] 0 [].

(** The grid of a tile as its name and pixel dimension, the path as it
    is, and a reprojection that keeps the pixels. *)
Definition tile_grid (tile : string) (tile_size : nat) : result (string * nat) :=
  Ok (tile, tile_size).

Definition keep_pixels (r : VIIRS_tiled_granule.Raster (string * nat) pixels)
    (target : string * nat)
  : result (VIIRS_tiled_granule.Raster (string * nat) pixels) :=
  Ok (VIIRS_tiled_granule.mkRaster (VIIRS_tiled_granule.array r) target).

(** A reprojection to a target of one pixel that the tile does not
    cover. *)
Definition off_tile (r : VIIRS_tiled_granule.Raster (string * nat) pixels)
    (target : string * nat)
  : result (VIIRS_tiled_granule.Raster (string * nat) pixels) :=
  Ok (VIIRS_tiled_granule.mkRaster (Float64 (mkarray [1%nat; 1%nat] [nan])) target).

Definition tile_of_name : string -> result string :=
  VIIRS_filename_parsing.parse_VIIRS_tile.

End Instances.

(** * Definitions the statements use *)

(** ** Strings, dates and granule records *)

(** Every character of [s] is a decimal digit. *)
Definition digit_string (s : string) : Prop :=
  Forall (fun c => is_digit c = true) (list_ascii_of_string s).

(** The value of a literal that is digits and underscores to its end. *)
Fixpoint int_digits (acc : Z) (seen : bool) (s : string) : option Z :=
  match s with
  | EmptyString => if seen then Some acc else None
  | String c r =>
      match digit_value c with
      | Some d => int_digits (10 * acc + d) true r
      | None => if Ascii.eqb c "_" && seen then int_digits acc false r else None
      end
  end.

(** The day-of-year pattern accepts the three digits of [j], all of them. *)
Definition julian_matches (j : Z) : bool :=
  match first_alt julian_patterns (pad3 j) with
  | Some (m, EmptyString) => String.eqb m (pad3 j)
  | _ => false
  end.




(** The begin timestamp of a granule that has one. *)
Definition timestamp (g : VIIRS_CMR_query.granule) : string :=
  match VIIRS_CMR_query.BeginningDateTime g with
  | Some t => t
  | None => EmptyString
  end.

(** Granules paired with their sort keys. *)
Definition decorate (l : list VIIRS_CMR_query.granule)
  : list (string * VIIRS_CMR_query.granule) :=
  map (fun g => (timestamp g, g)) l.

(** A granule with both entries the query reads. *)
Definition complete (g : VIIRS_CMR_query.granule) : Prop :=
  VIIRS_CMR_query.BeginningDateTime g <> None /\
  VIIRS_CMR_query.native_id g <> None.

(** The order of the result: begin timestamps compared as Python compares
    [str], which is the order of time for timestamps of one format. *)
Definition begins_before (a b : VIIRS_CMR_query.granule) : Prop :=
  String.leb (timestamp a) (timestamp b) = true.

Definition begins_at (k : string) (g : VIIRS_CMR_query.granule) : bool :=
  String.eqb (timestamp g) k.

Definition key_le {A : Type} (x y : string * A) : Prop :=
  String.leb (fst x) (fst y) = true.

(** The binary64 value of a positive integer below [2^53]: the integer
    shifted to 53 bits, with the exponent that undoes the shift. *)
Definition normal_mantissa (m : positive) : positive :=
  match (53 - Zpos (digits2_pos m))%Z with
  | Zpos k => Pos.iter xO m k
  | _ => m
  end.

Definition normal_exponent (m : positive) : Z := Zpos (digits2_pos m) - 53.

(** The binary64 value of an integer of magnitude below [2^53]. *)
Definition exact_float (z : Z) : spec_float :=
  match z with
  | Z0 => S754_zero false
  | Zpos m => S754_finite false (normal_mantissa m) (normal_exponent m)
  | Zneg m => S754_finite true (normal_mantissa m) (normal_exponent m)
  end.

(** ** Files and handles *)

(** A computation that leaves the world as it found it. *)
Definition quiet {A : Type} (m : M A) : Prop := forall w, snd (m w) = w.

(** Every open handle is older than the next one to be given out. *)
Definition handles_fresh (w : world) : Prop :=
  Forall (fun hp => (fst hp < next_handle w)%nat) (open_handles w).

(** Events in which every file opened is closed before anything else
    happens. *)
Inductive scoped : list event -> Prop :=
| scoped_nil : scoped []
| scoped_open_close h p evs :
    scoped evs -> scoped (Opened h p :: Closed h :: evs).

(** [m] releases what it acquires: from a world with fresh handles it
    ends, whether it returns or raises, in a world with the same files
    and the same open handles, having only opened and closed files in
    pairs. *)
Definition releases {A : Type} (m : M A) : Prop :=
  forall w, handles_fresh w ->
    files (snd (m w)) = files w /\
    open_handles (snd (m w)) = open_handles w /\
    handles_fresh (snd (m w)) /\
    exists evs, history (snd (m w)) = (history w ++ evs)%list /\ scoped evs.

(** ** The elements of an array *)

(** An element with its type. *)
Inductive number : Type :=
| Stored (t : int_type) (z : Z)
| Single (f : float)
| Double (f : float).

Definition elements (a : pixels) : list number :=
  match a with
  | Integers t values => map (Stored t) (data values)
  | Float32 values => map Single (data values)
  | Float64 values => map Double (data values)
  end.

(** No-data: NaN, which only a floating-point element can be. *)
Definition no_data (x : number) : bool :=
  match x with
  | Stored _ _ => false
  | Single f | Double f => is_nan f
  end.

(** An element as a masking stage leaves it: kept, an integer as the
    nearest float64 value, or dropped, NaN of the type it is kept in. *)
Definition kept (x : number) : number :=
  match x with
  | Stored _ z => Double (float_of_Z z)
  | _ => x
  end.

Definition dropped (x : number) : number :=
  match x with
  | Single _ => Single nan
  | _ => Double nan
  end.

(** The comparison of an element with a Python [int]: exact for an
    integer, and with the [int] rounded to the type of the element for
    a floating-point one. *)
Definition meets (op : test) (n : Z) (x : number) : bool :=
  match x with
  | Stored _ z => test_int op z n
  | Single f => test_float op f (float32 (float_of_Z n))
  | Double f => test_float op f (float_of_Z n)
  end.

(** Whether an array can be compared with [n]: a floating-point array
    cannot when [n] is beyond the binary64 range. *)
Definition comparable (a : pixels) (n : Z) : bool :=
  match a with
  | Integers _ _ => true
  | _ => negb (is_infinity (float_of_Z n))
  end.

(** ** The calibration pipeline as the specification words it *)

(** A parameter is the value supplied explicitly, else the value
    discovered in the attributes, else absent. *)
Definition parameter {A : Type} (explicit : option A)
    (discovered : result (option A)) : result (option A) :=
  match explicit with
  | Some v => Ok (Some v)
  | None => discovered
  end.

Definition discover {A : Type} (attributes : list (string * attr))
    (name : string) (convert : attr -> result A) : result (option A) :=
  match dict_get attributes name with
  | Some a => v <- convert a ;; Ok (Some v)
  | None => Ok None
  end.

(** A stage runs, on the whole array, when its parameter is present. *)
Definition when_present {A B : Type} (p : option A) (step : B -> A -> result B)
    (b : B) : result B :=
  match p with
  | Some v => step b v
  | None => Ok b
  end.

(** The five stages in their order, each parameter resolved when its
    stage is reached. *)
Definition calibration_pipeline {RasterGeometry : Type}
    (raw : VIIRS_tiled_granule.Raster RasterGeometry pixels)
    (attributes : list (string * attr))
    (fill : option Z) (scale offset : option pynumber)
    (valid_min valid_max : option Z)
  : result (VIIRS_tiled_granule.Raster RasterGeometry pixels) :=
  fill <- parameter fill (discover attributes "_Fillvalue" int_of_attr) ;;
  layer <- when_present fill (VIIRS_tiled_granule.where_test IsEqual) raw ;;
  valid_min <- parameter valid_min
                 (discover attributes "valid_range"
                    (fun a => x <- attr_item a 0 ;; int_of_attr x)) ;;
  layer <- when_present valid_min (VIIRS_tiled_granule.where_test IsBelow) layer ;;
  valid_max <- parameter valid_max
                 (discover attributes "valid_range"
                    (fun a => x <- attr_item a 1 ;; int_of_attr x)) ;;
  layer <- when_present valid_max (VIIRS_tiled_granule.where_test IsAbove) layer ;;
  scale <- parameter scale
             (discover attributes "scale_factor" VIIRS_tiled_granule.pyfloat_of_attr) ;;
  layer <- when_present scale VIIRS_tiled_granule.times layer ;;
  offset <- parameter offset
              (discover attributes "add_offset" VIIRS_tiled_granule.pyfloat_of_attr) ;;
  when_present offset VIIRS_tiled_granule.plus layer.

(** *** The stages on one element *)

Definition masking (op : test) (n : Z) (x : number) : number :=
  if meets op n x then dropped x else kept x.

Definition fill_masking : Z -> number -> number := masking IsEqual.
Definition low_clamp : Z -> number -> number := masking IsBelow.
Definition high_clamp : Z -> number -> number := masking IsAbove.

(** A Python number as a binary64 value. *)
Definition float_of_py (s : pynumber) : float :=
  match s with
  | PyInt n => float_of_Z n
  | PyFloat f => f
  end.

(** An element times or plus a Python number: in the integer type,
    wrapping around, for an integer and an [int]; in float64 for an
    integer and a [float]; in its own type for a floating-point
    element. *)
Definition scaling (int_op : Z -> Z -> Z) (float_op : float -> float -> float)
    (s : pynumber) (x : number) : number :=
  match x with
  | Stored t z =>
      match s with
      | PyInt n => Stored t (wrap t (int_op z n))
      | PyFloat c => Double (float_op (float_of_Z z) c)
      end
  | Single f => Single (float32 (float_op f (float32 (float_of_py s))))
  | Double f => Double (float_op f (float_of_py s))
  end.

Definition rescale : pynumber -> number -> number := scaling Z.mul PrimFloat.mul.
Definition add_offset : pynumber -> number -> number := scaling Z.add PrimFloat.add.

(** A stage runs when its parameter is present. *)
Definition stage {A : Type} (p : option A) (f : A -> number -> number)
  : number -> number :=
  match p with
  | Some v => f v
  | None => fun x => x
  end.

Definition five_stages (fill valid_min valid_max : option Z)
    (scale offset : option pynumber) : list (number -> number) :=
  [ stage fill fill_masking; stage valid_min low_clamp;
    stage valid_max high_clamp; stage scale rescale; stage offset add_offset ].

(** The stages of a list, the first first. *)
Definition run (stages : list (number -> number)) (x : number) : number :=
  fold_left (fun v st => st v) stages x.

(** A raw element that equals the fill value, is below the minimum or
    is above the maximum, each comparison made as numpy makes it: on
    the element as the earlier stages that ran have left it, an
    integer as float64. *)
Definition seen {A : Type} (p : option A) (x : number) : number :=
  match p with
  | Some _ => kept x
  | None => x
  end.

Definition hit (p : option Z) (op : test) (x : number) : bool :=
  match p with
  | Some n => meets op n x
  | None => false
  end.

Definition excluded (fill valid_min valid_max : option Z) (x : number) : bool :=
  hit fill IsEqual x
  || hit valid_min IsBelow (seen fill x)
  || hit valid_max IsAbove (seen valid_min (seen fill x)).

(** * Further properties: definitions *)

(** The day [locate] finds for the [j]-th day of a year is a day of that
    year's calendar, and the [j]-th. *)
Definition located (leap : bool) (j : Z) : bool :=
  let (m, d) := locate leap 1 11 j in
  (1 <=? m) && (m <=? 12) && (1 <=? d) && (d <=? month_length leap m)
  && (days_before leap 1 11 m + d =? j).

(** Some character of [s] is not a dot. *)
Definition names_something (s : string) : bool :=
  existsb (fun c => negb (Ascii.eqb c ".")) (list_ascii_of_string s).

(** Midnight of a day, with no time zone. *)
Definition midnight (d : date) : VIIRS_CMR_query.datetime :=
  VIIRS_CMR_query.mkdatetime d 0 0 0 None.

(** ** Reading a file without the handles *)

(** What an operation gets from the files when it opens [path] and
    computes [f] from the root of the file. *)
Definition from_file {A : Type} (files : list (string * h5node)) (path : string)
    (f : h5node -> result A) : result A :=
  match dict_get files path with
  | Some root => f root
  | None => Raise (OSError path)
  end.

(** The world after a [with] block on [path] that only read: the handle
    it was given is closed again, and the two events are recorded. *)
Definition closed_after (w : world) (path : string) : world :=
  mkworld (files w)
          (filter (fun hp => negb (Nat.eqb (fst hp) (next_handle w)))
                  ((next_handle w, path) :: open_handles w))
          (S (next_handle w))
          ((history w ++ [Opened (next_handle w) path]) ++ [Closed (next_handle w)]).

(** The object [name] under a root, and what is read from an object. *)
Definition node_at (root : h5node) (name : string) : result h5node :=
  match lookup_path root (components name) with
  | Some n => Ok n
  | None => Raise (KeyError (unresolved root (components name)))
  end.

Definition names_of (n : h5node) : result (list string) :=
  match n with
  | H5Group members _ => Ok (map fst members)
  | H5Dataset _ => Raise (AttributeError "keys")
  end.

Definition first_axis (n : h5node) : result nat :=
  match n with
  | H5Dataset d => index (shape (ds_array d)) 0
  | H5Group _ _ => Raise (AttributeError "shape")
  end.

Definition pixels_of (n : h5node) : result pixels :=
  match n with
  | H5Dataset d => Ok (ds_array d)
  | H5Group _ _ => Raise TypeError
  end.

Definition attrs_of (n : h5node) : list (string * attr) :=
  match n with
  | H5Dataset d => ds_attrs d
  | H5Group _ group_attrs => group_attrs
  end.

(** The HDF5 path of a variable of a grid, as the decoder writes it. *)
Definition dataset_name (grid variable : string) : string :=
  "HDFEOS/GRIDS/" ++ grid ++ "/Data Fields/" ++ variable.

(** A name that is one component of a path: not empty, without a slash,
    and not the reference [.] to the group itself. *)
Definition plain (name : string) : Prop :=
  name <> "" /\ contains "/" name = false /\ name <> ".".

(** A file like the sample with a reflectance band whose fill value is
    an object reference, not a number. *)
Definition reference_fill_file : h5node :=
  H5Group
    [ ("HDFEOS",
       H5Group
         [ ("GRIDS",
            H5Group
              [ ("VNP_Grid_1km_2D",
                 H5Group
                   [ ("Data Fields",
                      H5Group
                        [ ("SurfReflect_M5_1",
                           H5Dataset
                             (mkdataset
                                (Integers int16
                                   (mkarray [2%nat; 2%nat] [-28672; -101; -100; 16000]))
                                [ ("_Fillvalue", Reference) ])) ]
                        []) ]
                   []) ]
              []) ]
         []) ]
    [].

Section Reading.

Variable parse_VIIRS_tile : string -> result string.
Variable RasterGeometry : Type.
Variable generate_modland_grid : string -> nat -> result RasterGeometry.

(** What [DN] computes from the root of the file, before any
    reprojection. *)
Definition read_DN (self : VIIRS_tiled_granule.VIIRSTiledGranule)
    (variable grid : string) (root : h5node)
  : result (VIIRS_tiled_granule.Raster RasterGeometry pixels) :=
  n <- node_at root (dataset_name grid variable) ;;
  t <- VIIRS_tiled_granule.tile parse_VIIRS_tile self ;;
  size <- first_axis n ;;
  g <- generate_modland_grid t size ;;
  a <- pixels_of n ;;
  VIIRS_tiled_granule.new_Raster a g.

End Reading.

Arguments read_DN parse_VIIRS_tile {RasterGeometry} generate_modland_grid
  self variable grid root.
(** * Lemmas *)

Import VIIRS_filename_parsing.

(** ** Strings *)

Lemma append_assoc (a b c : string) : (a ++ b) ++ c = a ++ (b ++ c).
Proof. induction a as [|x a IH]; simpl; [reflexivity | now rewrite IH]. Qed.

Lemma append_nil_r (a : string) : a ++ "" = a.
Proof. induction a as [|x a IH]; simpl; [reflexivity | now rewrite IH]. Qed.

Lemma split_nonempty sep s : split sep s <> [].
Proof.
  destruct s as [|c r]; simpl; [discriminate|].
  destruct (Ascii.eqb c sep); [discriminate|].
  destruct (split sep r); discriminate.
Qed.

Lemma split_without sep s : contains sep s = false -> split sep s = [s].
Proof.
  unfold contains. induction s as [|c r IH]; simpl; [reflexivity|].
  intros H. apply orb_false_elim in H as [Hc Hr].
  rewrite Ascii.eqb_sym, Hc. now rewrite (IH Hr).
Qed.

Lemma split_app sep a b :
  split sep (a ++ String sep b) = (split sep a ++ split sep b)%list.
Proof.
  induction a as [|c a IH]; simpl.
  - now rewrite Ascii.eqb_refl.
  - destruct (Ascii.eqb c sep); [now rewrite IH|].
    rewrite IH. destruct (split sep a) as [|h t] eqn:E.
    + now apply split_nonempty in E.
    + reflexivity.
Qed.

Lemma contains_app c a b : contains c (a ++ b) = contains c a || contains c b.
Proof.
  unfold contains. induction a as [|x a IH]; simpl; [reflexivity|].
  now rewrite IH, orb_assoc.
Qed.

Lemma basename_under directory name :
  directory = "" \/ (exists p, directory = p ++ "/") ->
  contains "/" name = false ->
  basename (directory ++ name) = name.
Proof.
  intros [-> | [p ->]] Hn; unfold basename.
  - simpl. now rewrite split_without.
  - rewrite append_assoc. simpl. rewrite split_app, (split_without _ name Hn).
    apply last_last.
Qed.

(** *** Decimal digits *)
Lemma digit_cases k : 0 <= k <= 9 ->
  k = 0 \/ k = 1 \/ k = 2 \/ k = 3 \/ k = 4 \/ k = 5 \/ k = 6 \/ k = 7 \/ k = 8 \/ k = 9.
Proof. lia. Qed.

Lemma digit_value_char k : 0 <= k <= 9 -> digit_value (digit_char k) = Some k.
Proof.
  intros H. destruct (digit_cases k H) as [-> | [-> | [-> | [-> | [-> | [-> | [-> | [-> | [-> | ->]]]]]]]]];
    reflexivity.
Qed.

Lemma is_digit_char k : 0 <= k <= 9 -> is_digit (digit_char k) = true.
Proof. intros H. unfold is_digit. now rewrite digit_value_char. Qed.

Lemma list_ascii_app a b :
  list_ascii_of_string (a ++ b) = (list_ascii_of_string a ++ list_ascii_of_string b)%list.
Proof. induction a as [|x a IH]; simpl; [reflexivity | now rewrite IH]. Qed.

Lemma digit_string_app a b : digit_string a -> digit_string b -> digit_string (a ++ b).
Proof. unfold digit_string. rewrite list_ascii_app. apply Forall_app_2 || (intros; apply Forall_app; auto). Qed.

Lemma digit_not_char c x : is_digit c = true -> is_digit x = false -> Ascii.eqb x c = false.
Proof.
  intros Hc Hx. destruct (Ascii.eqb_spec x c) as [->|]; [congruence | reflexivity].
Qed.

Lemma digit_string_without x s :
  is_digit x = false -> digit_string s -> contains x s = false.
Proof.
  unfold digit_string, contains. intros Hx. induction 1 as [|c l Hc _ IH]; simpl; [reflexivity|].
  now rewrite (digit_not_char c x Hc Hx), IH.
Qed.

Lemma mod10_digit n : 0 <= n mod 10 <= 9.
Proof. pose proof (Z.mod_pos_bound n 10); lia. Qed.

Lemma digit_string_pad3 n : digit_string (pad3 n).
Proof. repeat constructor; apply is_digit_char, mod10_digit. Qed.
Lemma digit_string_pad4 n : digit_string (pad4 n).
Proof. repeat constructor; apply is_digit_char, mod10_digit. Qed.

Lemma digit_string_decimal fuel : forall n acc,
  digit_string acc -> digit_string (decimal_digits fuel n acc).
Proof.
  induction fuel as [|f IH]; intros n acc Hacc; simpl; [assumption|].
  assert (digit_string (String (digit_char (n mod 10)) acc))
    by (constructor; [apply is_digit_char, mod10_digit | exact Hacc]).
  destruct (n <? 10); auto.
Qed.

Lemma digit_string_zeros k : digit_string (zeros k).
Proof. induction k; simpl; constructor; auto. Qed.

Lemma digit_string_build width n : digit_string (zfill width (str_of_nat n)).
Proof.
  apply digit_string_app; [apply digit_string_zeros|].
  apply digit_string_decimal. constructor.
Qed.

Ltac euclid := Z.to_euclidean_division_equations; lia.

Lemma div_100 n : n / 100 = n / 10 / 10.
Proof. rewrite Z.div_div by lia. reflexivity. Qed.
Lemma div_1000 n : n / 1000 = n / 10 / 10 / 10.
Proof. rewrite !Z.div_div by lia. reflexivity. Qed.

Lemma digits_value_pad4 n : 0 <= n <= 9999 -> digits_value (pad4 n) = n.
Proof.
  intros H. unfold digits_value, pad4, pad3, pad2. cbn [list_ascii_of_string fold_left].
  rewrite !digit_value_char by apply mod10_digit.
  rewrite div_1000, div_100. euclid.
Qed.
Lemma digits_value_pad3 n : 0 <= n <= 999 -> digits_value (pad3 n) = n.
Proof.
  intros H. unfold digits_value, pad3, pad2. cbn [list_ascii_of_string fold_left].
  rewrite !digit_value_char by apply mod10_digit.
  rewrite div_100. euclid.
Qed.

(** *** The calendar *)
Lemma month_cases m : 1 <= m <= 12 ->
  m = 1 \/ m = 2 \/ m = 3 \/ m = 4 \/ m = 5 \/ m = 6 \/ m = 7 \/ m = 8 \/ m = 9 \/
  m = 10 \/ m = 11 \/ m = 12.
Proof. lia. Qed.

Lemma month_length_pos leap m : 1 <= month_length leap m.
Proof.
  unfold month_length. destruct leap;
    repeat match goal with |- context [match ?x with _ => _ end] => destruct x end; lia.
Qed.

Lemma days_before_nonneg leap fuel : forall from m, 0 <= days_before leap from fuel m.
Proof.
  induction fuel as [|f IH]; intros from m; simpl; [lia|].
  destruct (from <? m); [|lia].
  pose proof (month_length_pos leap from). specialize (IH (from + 1) m). lia.
Qed.

(** Counting [d] days into month [k] from the first of month [from] and
    locating the result gives back month [k] and day [d]. *)
Lemma locate_days_before leap fuel : forall from k d,
  from <= k <= from + Z.of_nat fuel ->
  1 <= d <= month_length leap k ->
  locate leap from fuel (days_before leap from fuel k + d) = (k, d).
Proof.
  induction fuel as [|f IH]; intros from k d Hk Hd.
  - simpl. f_equal; lia.
  - cbn [locate days_before].
    destruct (Z.ltb_spec from k) as [Hlt | Hge].
    + pose proof (days_before_nonneg leap f (from + 1) k).
      destruct (Z.leb_spec (month_length leap from + days_before leap (from + 1) f k + d)
                           (month_length leap from)); [lia|].
      replace (month_length leap from + days_before leap (from + 1) f k + d
               - month_length leap from)
        with (days_before leap (from + 1) f k + d) by lia.
      apply IH; lia.
    + assert (k = from) by lia. subst k.
      destruct (Z.leb_spec (0 + d) (month_length leap from)); [reflexivity | lia].
Qed.

Lemma locate_day_of_year d : valid_date d ->
  locate (is_leap (year d)) 1 11 (day_of_year d) = (month d, day d).
Proof.
  intros (Hy & Hm & Hd). unfold day_of_year.
  apply locate_days_before; [lia | exact Hd].
Qed.

Lemma days_before_year_end leap m : 1 <= m <= 12 ->
  days_before leap 1 11 m + month_length leap m <= if leap then 366 else 365.
Proof.
  intros Hm.
  destruct (month_cases m Hm) as [-> | [-> | [-> | [-> | [-> | [-> | [-> | [-> | [-> | [-> | [-> | ->]]]]]]]]]]];
    destruct leap; vm_compute; discriminate.
Qed.

Lemma day_of_year_bounds d : valid_date d -> 1 <= day_of_year d <= days_in_year (year d).
Proof.
  intros (Hy & Hm & Hd). unfold day_of_year, days_in_year.
  pose proof (days_before_nonneg (is_leap (year d)) 11 1 (month d)).
  pose proof (days_before_year_end (is_leap (year d)) (month d) Hm).
  unfold days_in_month in Hd. destruct (is_leap (year d)); lia.
Qed.

Lemma range_check (P : Z -> bool) lo n :
  forallb P (map (fun k => lo + Z.of_nat k) (seq 0 n)) = true ->
  forall z, lo <= z < lo + Z.of_nat n -> P z = true.
Proof.
  intros H z Hz. rewrite forallb_forall in H. apply H.
  apply in_map_iff. exists (Z.to_nat (z - lo)). split; [lia|].
  apply in_seq. lia.
Qed.

Lemma julian_pattern_pad3 j : 1 <= j <= 366 ->
  first_alt julian_patterns (pad3 j) = Some (pad3 j, "").
Proof.
  intros Hj.
  assert (H : julian_matches j = true).
  { apply (range_check julian_matches 1 366); [vm_compute; reflexivity | lia]. }
  unfold julian_matches in H.
  destruct (first_alt julian_patterns (pad3 j)) as [[m [|c r]]|]; try discriminate.
  apply String.eqb_eq in H. now subst.
Qed.

Lemma year_pattern_pad4 y rest :
  match_classes year_pattern (pad4 y ++ rest) = Some (pad4 y, rest).
Proof.
  unfold year_pattern, pad4, pad3, pad2. cbn [append match_classes].
  rewrite !is_digit_char by apply mod10_digit. reflexivity.
Qed.

Lemma strptime_roundtrip d : valid_date d ->
  strptime_Yj (pad4 (year d) ++ pad3 (day_of_year d)) = Ok d.
Proof.
  intros Hd. pose proof (day_of_year_bounds d Hd) as Hj.
  assert (Hj' : 1 <= day_of_year d <= 366)
    by (unfold days_in_year in Hj; destruct (is_leap (year d)); lia).
  destruct Hd as (Hy & Hm & Hdd).
  unfold strptime_Yj. rewrite year_pattern_pad4, julian_pattern_pad3 by exact Hj'.
  rewrite digits_value_pad4, digits_value_pad3 by lia.
  unfold date_of_year_day.
  destruct (Z.ltb_spec (year d) 1); [lia|].
  destruct (Z.leb_spec (day_of_year d) (days_in_year (year d))); [|lia].
  rewrite locate_day_of_year by (repeat split; lia).
  now destruct d.
Qed.

(** *** [int] on a string of digits *)
Lemma is_digit_not_space c : is_digit c = true -> is_space c = false.
Proof.
  destruct c as [[] [] [] [] [] [] [] []]; try reflexivity; discriminate.
Qed.

Lemma lstrip_digits s : digit_string s -> lstrip s = s.
Proof.
  destruct s as [|c r]; [reflexivity|]. intros H. inversion H; subst.
  simpl. now rewrite is_digit_not_space.
Qed.

Lemma digit_string_reverse s : digit_string s -> digit_string (reverse_string s).
Proof.
  unfold digit_string, reverse_string. intros H.
  rewrite list_ascii_of_string_of_list_ascii. now apply Forall_rev.
Qed.

Lemma reverse_string_involutive s : reverse_string (reverse_string s) = s.
Proof.
  unfold reverse_string.
  now rewrite list_ascii_of_string_of_list_ascii, rev_involutive,
    string_of_list_ascii_of_string.
Qed.

Lemma strip_digits s : digit_string s -> strip s = s.
Proof.
  intros H. unfold strip. rewrite (lstrip_digits s H).
  rewrite lstrip_digits by now apply digit_string_reverse.
  apply reverse_string_involutive.
Qed.

Lemma int_digits_decimal fuel : forall n acc a b,
  0 <= n <= Z.of_nat fuel ->
  exists k, 0 <= k /\ int_digits a b (decimal_digits (S fuel) n acc)
                      = int_digits (a * 10 ^ k + n) true acc.
Proof.
  induction fuel as [|f IH]; intros n acc a b Hn.
  - exists 1. split; [lia|]. assert (n = 0) by lia. subst n.
    change (decimal_digits 1 0 acc) with (String "0" acc).
    cbn [int_digits]. change (digit_value "0") with (Some 0).
    cbv beta iota. rewrite Z.pow_1_r. f_equal. lia.
  - cbn [decimal_digits]. destruct (Z.ltb_spec n 10) as [Hlt | Hge].
    + exists 1. split; [lia|]. cbn [int_digits].
      rewrite Z.mod_small by lia. rewrite digit_value_char by lia.
      rewrite Z.pow_1_r. f_equal. lia.
    + destruct (IH (n / 10) (String (digit_char (n mod 10)) acc) a b) as (k & Hk & E).
      { split; [apply Z.div_pos; lia|].
        assert (n / 10 < n) by (apply Z.div_lt; lia). lia. }
      exists (k + 1). split; [lia|].
      cbn [decimal_digits] in E. rewrite E. cbn [int_digits].
      rewrite digit_value_char by apply mod10_digit.
      f_equal. rewrite Z.pow_add_r by lia.
      pose proof (Z.div_mod n 10). lia.
Qed.

Lemma int_digits_zeros k s b : s <> "" ->
  int_digits 0 b (zeros k ++ s) = int_digits 0 (match k with O => b | _ => true end) s.
Proof.
  intros Hs. revert b. induction k as [|k IH]; intros b; [reflexivity|].
  change (int_digits 0 b (zeros (S k) ++ s)) with (int_digits 0 true (zeros k ++ s)).
  rewrite IH. destruct k; reflexivity.
Qed.

Lemma str_of_nat_value n b :
  int_digits 0 b (str_of_nat n) = Some (Z.of_nat n).
Proof.
  unfold str_of_nat.
  destruct (int_digits_decimal n (Z.of_nat n) "" 0 b) as (k & _ & E); [lia|].
  rewrite E. reflexivity.
Qed.

Lemma str_of_nat_nonempty n : str_of_nat n <> "".
Proof.
  intros E. pose proof (str_of_nat_value n false) as H. rewrite E in H. discriminate.
Qed.

Lemma digit_not_sign c : is_digit c = true ->
  Ascii.eqb c "+" = false /\ Ascii.eqb c "-" = false.
Proof.
  destruct c as [[] [] [] [] [] [] [] []]; intros H; try discriminate H; split; reflexivity.
Qed.

Lemma scan_digit_string s : digit_string s -> forall acc count seen,
  scan_digits acc count seen s
  = match int_digits acc seen s with
    | Some n => Some (n, (count + String.length s)%nat, "")
    | None => None
    end.
Proof.
  unfold digit_string. induction s as [|c r IH]; intros H acc count seen.
  - cbn. rewrite Nat.add_0_r. now destruct seen.
  - inversion H as [|? ? Hc Hr]; subst. cbn [scan_digits int_digits String.length].
    unfold is_digit in Hc. destruct (digit_value c) as [d|]; [|discriminate].
    rewrite (IH Hr). now rewrite Nat.add_succ_r.
Qed.

(** [int] on a build token: the number, unless the token has more
    digits than the limit. *)
Lemma int_of_build width n :
  int_of_str (zfill width (str_of_nat n))
  = if (String.length (zfill width (str_of_nat n)) <=? int_max_str_digits)%nat
    then Ok (Z.of_nat n)
    else Raise (ValueError (DigitLimit (String.length (zfill width (str_of_nat n))))).
Proof.
  unfold int_of_str. rewrite strip_digits by apply digit_string_build.
  pose proof (digit_string_build width n) as Hd.
  assert (E : scan_digits 0 0 false (zfill width (str_of_nat n))
              = Some (Z.of_nat n, String.length (zfill width (str_of_nat n)), "")).
  { rewrite (scan_digit_string _ Hd). unfold zfill at 1.
    rewrite int_digits_zeros by apply str_of_nat_nonempty.
    now rewrite str_of_nat_value. }
  destruct (zfill width (str_of_nat n)) as [|c r] eqn:Et.
  - unfold zfill in Et. destruct (zeros (width - String.length (str_of_nat n))); simpl in Et;
      [now apply str_of_nat_nonempty in Et | discriminate].
  - inversion Hd as [|? ? Hc _]; subst.
    destruct (digit_not_sign c Hc) as [-> ->]. rewrite E.
    rewrite Nat.leb_antisym. now destruct (int_max_str_digits <? String.length (String c r))%nat.
Qed.

(** The tokens of a well-formed name. *)
Lemma tokens_of_filename directory product d tile width build extension :
  directory = "" \/ (exists p, directory = p ++ "/") ->
  contains "." product = false -> contains "/" product = false ->
  contains "." tile = false -> contains "/" tile = false ->
  extension = "" \/ (exists e, extension = String "." e) ->
  contains "/" extension = false ->
  exists more,
    tokens (VIIRS_filename directory product d tile width build extension)
    = product :: String "A" (pad4 (year d) ++ pad3 (day_of_year d))
        :: tile :: zfill width (str_of_nat build) :: more.
Proof.
  intros Hdir Hp Hp' Ht Ht' Hext Hext'.
  assert (Hdate : digit_string (pad4 (year d) ++ pad3 (day_of_year d)))
    by (apply digit_string_app; [apply digit_string_pad4 | apply digit_string_pad3]).
  pose proof (digit_string_build width build) as Hbuild.
  unfold tokens, VIIRS_filename. rewrite basename_under; [|exact Hdir|].
  - cbn [append]. rewrite split_app, (split_without _ product Hp).
    replace (String "A" (pad4 (year d) ++ pad3 (day_of_year d) ++
                         String "." (tile ++ String "." (zfill width (str_of_nat build) ++ extension))))
      with (String "A" (pad4 (year d) ++ pad3 (day_of_year d)) ++
            String "." (tile ++ String "." (zfill width (str_of_nat build) ++ extension)))
      by (cbn [append]; now rewrite append_assoc).
    rewrite split_app, split_without.
    2:{ unfold contains. cbn [list_ascii_of_string existsb].
        change (existsb (Ascii.eqb ".") (list_ascii_of_string (pad4 (year d) ++ pad3 (day_of_year d))))
          with (contains "." (pad4 (year d) ++ pad3 (day_of_year d))).
        now rewrite digit_string_without. }
    rewrite split_app, (split_without _ tile Ht).
    destruct Hext as [-> | [e ->]].
    + rewrite append_nil_r, split_without by now apply digit_string_without.
      now exists [].
    + rewrite split_app, split_without by now apply digit_string_without.
      now exists (split "." e).
  - rewrite !contains_app, Hp', Ht', Hext'.
    rewrite (digit_string_without "/" (pad4 (year d))) by (reflexivity || apply digit_string_pad4).
    rewrite (digit_string_without "/" (pad3 (day_of_year d))) by (reflexivity || apply digit_string_pad3).
    rewrite (digit_string_without "/" _ eq_refl Hbuild).
    reflexivity.
Qed.

(** [strptime] returns a date or raises [ValueError]. *)
Lemma strptime_outcome data :
  (exists d, strptime_Yj data = Ok d) \/
  (exists why, strptime_Yj data = Raise (ValueError why)).
Proof.
  unfold strptime_Yj, date_of_year_day.
  repeat match goal with
         | |- context [match ?x with _ => _ end] => destruct x
         | |- context [if ?x then _ else _] => destruct x
         end; eauto.
Qed.

(** ** The query builder: lemmas *)

Import VIIRS_CMR_query.
Import Instances.










(** *** Winding *)
Lemma twice_area_snoc r p q :
  twice_area ((r ++ [p]) ++ [q])%list = twice_area (r ++ [p])%list + cross p q.
Proof.
  induction r as [|a r IH].
  - simpl. lia.
  - change (((a :: r) ++ [p]) ++ [q])%list with (a :: ((r ++ [p]) ++ [q]))%list.
    change ((a :: r) ++ [p])%list with (a :: (r ++ [p]))%list.
    cbn [twice_area]. rewrite IH.
    destruct r as [|b r]; simpl; lia.
Qed.

Lemma cross_swap p q : cross q p = - cross p q.
Proof. unfold cross. lia. Qed.

Lemma twice_area_rev r : twice_area (rev r) = - twice_area r.
Proof.
  induction r as [|p r IH]; [reflexivity|].
  destruct r as [|q r]; [reflexivity|].
  change (rev (p :: q :: r)) with ((rev r ++ [q]) ++ [p])%list.
  rewrite twice_area_snoc. change (rev r ++ [q])%list with (rev (q :: r)).
  rewrite IH, cross_swap. cbn [twice_area]. lia.
Qed.

Lemma ccw_exact_rev r :
  twice_area r <> 0 -> ccw_exact r = false -> ccw_exact (rev r) = true.
Proof.
  unfold ccw_exact. rewrite twice_area_rev. intros Hr H.
  apply Z.ltb_ge in H. apply Z.ltb_lt. lia.
Qed.

(** *** The order of [str] *)
Lemma compare_refl s : String.compare s s = Eq.
Proof.
  pose proof (String.compare_antisym s s) as H.
  destruct (String.compare s s); simpl in H; congruence.
Qed.

Lemma ascii_compare_trans a b c :
  Ascii.compare a b = Lt -> Ascii.compare b c = Lt -> Ascii.compare a c = Lt.
Proof.
  unfold Ascii.compare. rewrite !N.compare_lt_iff. lia.
Qed.

Lemma compare_trans a : forall b c,
  String.compare a b = Lt -> String.compare b c = Lt -> String.compare a c = Lt.
Proof.
  induction a as [|x a IH]; intros [|y b] [|z c] Hab Hbc; simpl in *;
    try discriminate; try reflexivity.
  destruct (Ascii.compare x y) eqn:Exy; try discriminate.
  - apply Ascii.compare_eq_iff in Exy. subst y.
    destruct (Ascii.compare x z); try discriminate; [|reflexivity].
    now apply IH with b.
  - destruct (Ascii.compare y z) eqn:Eyz; try discriminate.
    + apply Ascii.compare_eq_iff in Eyz. subst z. now rewrite Exy.
    + now rewrite (ascii_compare_trans x y z Exy Eyz).
Qed.

Lemma ltb_irrefl s : String.ltb s s = false.
Proof. unfold String.ltb. now rewrite compare_refl. Qed.

Lemma ltb_leb a b : String.ltb a b = true -> String.leb a b = true.
Proof. unfold String.ltb, String.leb. destruct (String.compare a b); congruence. Qed.

Lemma not_ltb_leb a b : String.ltb a b = false -> String.leb b a = true.
Proof.
  unfold String.ltb, String.leb. rewrite (String.compare_antisym b a).
  destruct (String.compare a b); simpl; congruence.
Qed.

Lemma leb_trans a b c :
  String.leb a b = true -> String.leb b c = true -> String.leb a c = true.
Proof.
  unfold String.leb. intros Hab Hbc.
  destruct (String.compare a b) eqn:Eab; try discriminate.
  - apply String.compare_eq_iff in Eab. now subst.
  - destruct (String.compare b c) eqn:Ebc; try discriminate.
    + apply String.compare_eq_iff in Ebc. subst. now rewrite Eab.
    + now rewrite (compare_trans a b c Eab Ebc).
Qed.

(** *** Insertion by key *)
Section Sorting.

Context {A : Type}.
Implicit Types (x y : string * A) (l : list (string * A)).

Lemma insert_by_key_perm x l : Permutation (x :: l) (insert_by_key x l).
Proof.
  induction l as [|y l IH]; simpl; [reflexivity|].
  destruct (String.ltb (fst y) (fst x)); [|reflexivity].
  rewrite perm_swap. now constructor.
Qed.

Lemma insert_by_key_sorted x l :
  StronglySorted key_le l -> StronglySorted key_le (insert_by_key x l).
Proof.
  induction 1 as [|y l Hl IH Hy]; simpl.
  - repeat constructor.
  - destruct (String.ltb (fst y) (fst x)) eqn:E.
    + constructor; [exact IH|].
      apply (Permutation_Forall (insert_by_key_perm x l)).
      constructor; [now apply ltb_leb | exact Hy].
    + apply not_ltb_leb in E. constructor; [now constructor|].
      constructor; [exact E|].
      eapply Forall_impl; [|exact Hy]. intros z Hz. unfold key_le in *.
      now apply leb_trans with (fst y).
Qed.

(** The items with key [k] come in the order they had, the new item
    first. *)
Lemma insert_by_key_stable k x l :
  filter (fun y => String.eqb (fst y) k) (insert_by_key x l)
  = filter (fun y => String.eqb (fst y) k) (x :: l).
Proof.
  induction l as [|y l IH]; [reflexivity|].
  cbn [insert_by_key]. destruct (String.ltb (fst y) (fst x)) eqn:E; [|reflexivity].
  cbn [filter] in *. rewrite IH.
  destruct (String.eqb_spec (fst y) k) as [Hy|Hy], (String.eqb_spec (fst x) k) as [Hx|Hx];
    try reflexivity.
  rewrite Hy, Hx, ltb_irrefl in E. discriminate.
Qed.

Lemma sort_decorated_perm l : Permutation l (sort_decorated l).
Proof.
  induction l as [|x l IH]; simpl; [constructor|].
  rewrite <- insert_by_key_perm. now constructor.
Qed.

Lemma sort_decorated_sorted l : StronglySorted key_le (sort_decorated l).
Proof.
  induction l as [|x l IH]; simpl; [constructor|]. now apply insert_by_key_sorted.
Qed.

Lemma sort_decorated_stable k l :
  filter (fun y => String.eqb (fst y) k) (sort_decorated l)
  = filter (fun y => String.eqb (fst y) k) l.
Proof.
  induction l as [|x l IH]; [reflexivity|].
  cbn [sort_decorated fold_right]. fold (sort_decorated l).
  rewrite insert_by_key_stable. cbn [filter]. now rewrite IH.
Qed.

End Sorting.

(** *** [sorted] on granules *)

Lemma map_result_all {A B : Type} (f : A -> result B) (g : A -> B) (l : list A) :
  Forall (fun a => f a = Ok (g a)) l -> map_result f l = Ok (map g l).
Proof.
  induction 1 as [|a l Ha _ IH]; [reflexivity|].
  cbn [map_result map]. rewrite Ha, IH. reflexivity.
Qed.

Lemma begin_key_timestamp g : BeginningDateTime g <> None -> begin_key g = Ok (timestamp g).
Proof. unfold begin_key, timestamp. destruct (BeginningDateTime g); congruence. Qed.

Lemma combine_decorate l : combine (map timestamp l) l = decorate l.
Proof. induction l as [|g l IH]; [reflexivity|]. cbn. now rewrite IH. Qed.

Lemma sorted_granules l :
  Forall (fun g => BeginningDateTime g <> None) l ->
  sorted begin_key l = Ok (map snd (sort_decorated (decorate l))).
Proof.
  intros H. unfold sorted.
  rewrite (map_result_all begin_key timestamp).
  - cbn [bind]. now rewrite combine_decorate.
  - eapply Forall_impl; [|exact H]. apply begin_key_timestamp.
Qed.

Lemma map_snd_decorate l : map snd (decorate l) = l.
Proof. unfold decorate. rewrite map_map. cbn. apply map_id. Qed.

Lemma decorated_keys l :
  Forall (fun p => fst p = timestamp (snd p)) (sort_decorated (decorate l)).
Proof.
  apply (Permutation_Forall (sort_decorated_perm (decorate l))).
  unfold decorate. apply Forall_forall. intros p Hp.
  apply in_map_iff in Hp as (g & <- & _). reflexivity.
Qed.

Lemma sorted_by_timestamp (ps : list (string * granule)) :
  Forall (fun p => fst p = timestamp (snd p)) ps ->
  StronglySorted key_le ps -> StronglySorted begins_before (map snd ps).
Proof.
  intros Hk Hs. induction Hs as [|p ps Hs IH Hp]; cbn [map]; [constructor|].
  inversion Hk as [|? ? Hkp Hkps]; subst.
  constructor; [now apply IH|].
  apply Forall_map, Forall_forall. intros q Hq.
  rewrite Forall_forall in Hp, Hkps. specialize (Hp q Hq). specialize (Hkps q Hq).
  unfold begins_before, key_le in *. now rewrite <- Hkp, <- Hkps.
Qed.

Lemma filter_by_timestamp k (ps : list (string * granule)) :
  Forall (fun p => fst p = timestamp (snd p)) ps ->
  filter (begins_at k) (map snd ps)
  = map snd (filter (fun p => String.eqb (fst p) k) ps).
Proof.
  induction 1 as [|p ps Hp _ IH]; [reflexivity|].
  cbn [map filter]. unfold begins_at at 1. rewrite <- Hp, IH.
  destruct (String.eqb (fst p) k); reflexivity.
Qed.

Lemma sorted_is_stable k l :
  filter (begins_at k) (map snd (sort_decorated (decorate l))) = filter (begins_at k) l.
Proof.
  rewrite filter_by_timestamp by apply decorated_keys.
  rewrite sort_decorated_stable.
  rewrite <- filter_by_timestamp, map_snd_decorate; [reflexivity|].
  unfold decorate. apply Forall_forall. intros p Hp.
  apply in_map_iff in Hp as (g & <- & _). reflexivity.
Qed.

Lemma unreachable_differs e : CMRServerUnreachable e <> e.
Proof. induction e; try discriminate. intros H. injection H as H. contradiction. Qed.


(** *** The request *)

Section RequestLemmas.

Variable parse : string -> result datetime.
Variable coord : Type.
Variable is_ccw : list (coord * coord) -> bool.
Variable accepts : setter_call coord -> bool.

(** A request that was built holds what the setters were given. *)
Lemma build_query_built concept_ID start_date end_date
    (target_geometry : option (SpatialGeometry coord)) tile q :
  build_query parse is_ccw accepts concept_ID start_date end_date target_geometry tile
    = Ok q ->
  exists date_from date_to,
    earliest_datetime parse start_date = Ok date_from /\
    latest_datetime parse end_date = Ok date_to /\
    q = mkQuery coord (Some concept_ID) (Some (date_from, date_to))
          match target_geometry with
          | Some (Point x y) => Some (x, y)
          | _ => None
          end
          match target_geometry with
          | Some (Polygon r) | Some (RasterGeometry r) => Some (normalize_winding is_ccw r)
          | _ => None
          end
          (option_map (fun t => "*." ++ t ++ ".*") tile).
Proof.
  unfold build_query, concept_id, temporal, point, polygon, readable_granule_name, checked.
  destruct (accepts (Call_concept_id concept_ID)); cbn [bind]; [|discriminate].
  destruct (earliest_datetime parse start_date) as [date_from|e]; cbn [bind]; [|discriminate].
  destruct (latest_datetime parse end_date) as [date_to|e]; cbn [bind]; [|discriminate].
  destruct (accepts (Call_temporal date_from date_to)); cbn [bind]; [|discriminate].
  intros H. exists date_from, date_to. split; [reflexivity|]. split; [reflexivity|].
  destruct target_geometry as [[x y | r | r]|]; cbn [bind] in H.
  - destruct (accepts (Call_point x y)); cbn [bind] in H; [|discriminate].
    destruct tile as [t|]; cbn [bind option_map] in H.
    + destruct (accepts (Call_readable_granule_name _)); [|discriminate]. now injection H.
    + now injection H.
  - destruct (accepts (Call_polygon _)); cbn [bind] in H; [|discriminate].
    destruct tile as [t|]; cbn [bind option_map] in H.
    + destruct (accepts (Call_readable_granule_name _)); [|discriminate]. now injection H.
    + now injection H.
  - destruct (accepts (Call_polygon _)); cbn [bind] in H; [|discriminate].
    destruct tile as [t|]; cbn [bind option_map] in H.
    + destruct (accepts (Call_readable_granule_name _)); [|discriminate]. now injection H.
    + now injection H.
  - destruct tile as [t|]; cbn [bind option_map] in H.
    + destruct (accepts (Call_readable_granule_name _)); [|discriminate]. now injection H.
    + now injection H.
Qed.

End RequestLemmas.
(** ** Binary64 arithmetic *)

(** *** Integers as binary64 values *)

Lemma digits2_size p : digits2_pos p = Pos.size p.
Proof. induction p; simpl; congruence. Qed.

Lemma iter_xO_mul m k : Pos.iter xO m k = (m * 2 ^ k)%positive.
Proof.
  induction k using Pos.peano_ind.
  - simpl. lia.
  - rewrite Pos.iter_succ, IHk, Pos.pow_succ_r. lia.
Qed.

Lemma digits2_iter_xO m k : digits2_pos (Pos.iter xO m k) = (digits2_pos m + k)%positive.
Proof.
  induction k using Pos.peano_ind.
  - simpl. lia.
  - rewrite Pos.iter_succ. cbn [digits2_pos]. rewrite IHk. lia.
Qed.

Lemma digits2_bounds p :
  2 ^ (Zpos (digits2_pos p) - 1) <= Zpos p < 2 ^ Zpos (digits2_pos p).
Proof.
  rewrite digits2_size. pose proof (Pos.size_gt p) as Hgt. pose proof (Pos.size_le p) as Hle.
  split.
  - assert (H : 2 ^ Zpos (Pos.size p) <= 2 * Zpos p).
    { change (2 * Zpos p) with (Zpos p~0). rewrite <- Pos2Z.inj_pow. lia. }
    replace (Zpos (Pos.size p)) with (Zpos (Pos.size p) - 1 + 1) in H by lia.
    rewrite Z.pow_add_r in H by lia. lia.
  - rewrite <- Pos2Z.inj_pow. lia.
Qed.

Lemma normal_mantissa_digits m : Zpos (digits2_pos m) <= 53 ->
  Zpos (digits2_pos (normal_mantissa m)) = 53.
Proof.
  intros H. unfold normal_mantissa.
  destruct (53 - Zpos (digits2_pos m)) as [|k|k] eqn:E; try lia.
  rewrite digits2_iter_xO. lia.
Qed.

Lemma binary_round_small s m : Zpos (digits2_pos m) <= 53 ->
  binary_round prec emax s m 0 = S754_finite s (normal_mantissa m) (normal_exponent m).
Proof.
  intros H. unfold binary_round.
  assert (Hf : fexp prec emax (Zpos (digits2_pos m) + 0) = Zpos (digits2_pos m) - 53)
    by (unfold fexp, emin, prec, emax; lia).
  rewrite Hf.
  assert (Ha : shl_align m 0 (Zpos (digits2_pos m) - 53)
               = (normal_mantissa m, normal_exponent m)).
  { unfold shl_align, normal_mantissa, normal_exponent.
    destruct (Zpos (digits2_pos m) - 53 - 0) as [|k|k] eqn:E; try lia.
    - replace (53 - Zpos (digits2_pos m)) with 0 by lia. f_equal. lia.
    - replace (53 - Zpos (digits2_pos m)) with (Zpos k) by lia. reflexivity. }
  rewrite Ha. unfold binary_round_aux.
  assert (Hs : shr_fexp prec emax (Zpos (normal_mantissa m)) (normal_exponent m) loc_Exact
               = ({| shr_m := Zpos (normal_mantissa m); shr_r := false; shr_s := false |},
                  normal_exponent m)).
  { unfold shr_fexp. cbn [Zdigits2].
    rewrite normal_mantissa_digits by exact H.
    replace (fexp prec emax (53 + normal_exponent m) - normal_exponent m) with 0
      by (unfold fexp, emin, prec, emax, normal_exponent; lia).
    reflexivity. }
  rewrite Hs. cbn [shr_m loc_of_shr_record round_nearest_even].
  rewrite Hs. cbn [shr_m].
  replace (normal_exponent m <=? emax - prec) with true; [reflexivity|].
  symmetry. apply Z.leb_le. unfold normal_exponent, emax, prec. lia.
Qed.

Lemma small_digits m : Zpos m < 2 ^ 53 -> Zpos (digits2_pos m) <= 53.
Proof.
  intros H. pose proof (digits2_bounds m) as [Hlo _].
  assert (2 ^ (Zpos (digits2_pos m) - 1) < 2 ^ 53) by lia.
  apply Z.pow_lt_mono_r_iff in H0; lia.
Qed.

Lemma normal_valid s m : Zpos (digits2_pos m) <= 53 ->
  valid_binary (S754_finite s (normal_mantissa m) (normal_exponent m)) = true.
Proof.
  intros H. unfold SpecFloat.valid_binary, bounded, canonical_mantissa.
  rewrite normal_mantissa_digits by exact H.
  apply andb_true_intro. split.
  - apply Z.eqb_eq. unfold fexp, emin, prec, emax, normal_exponent. lia.
  - apply Z.leb_le. unfold emax, prec, normal_exponent. lia.
Qed.

Lemma Prim2SF_float_of_Z z : Z.abs z < 2 ^ 53 ->
  Prim2SF (float_of_Z z) = exact_float z.
Proof.
  intros H. unfold float_of_Z, binary_normalize.
  destruct z as [|m|m]; cbn [exact_float].
  - reflexivity.
  - rewrite binary_round_small by (apply small_digits; lia).
    apply Prim2SF_SF2Prim, normal_valid, small_digits. lia.
  - rewrite binary_round_small by (apply small_digits; lia).
    apply Prim2SF_SF2Prim, normal_valid, small_digits. lia.
Qed.

Lemma compare_normal a b :
  Zpos (digits2_pos a) <= 53 -> Zpos (digits2_pos b) <= 53 ->
  match normal_exponent a ?= normal_exponent b with
  | Lt => Lt
  | Gt => Gt
  | Eq => Pos.compare_cont Eq (normal_mantissa a) (normal_mantissa b)
  end = (a ?= b)%positive.
Proof.
  intros Ha Hb.
  pose proof (digits2_bounds a) as [Ha1 Ha2]. pose proof (digits2_bounds b) as [Hb1 Hb2].
  unfold normal_exponent.
  destruct (Z.compare_spec (Zpos (digits2_pos a) - 53) (Zpos (digits2_pos b) - 53)) as [E | E | E].
  - unfold normal_mantissa.
    replace (Zpos (digits2_pos b)) with (Zpos (digits2_pos a)) by lia.
    destruct (53 - Zpos (digits2_pos a)) as [|k|k]; try reflexivity.
    rewrite !iter_xO_mul. apply Pos.mul_compare_mono_r.
  - symmetry. apply Pos.compare_lt_iff.
    assert (2 ^ Zpos (digits2_pos a) <= 2 ^ (Zpos (digits2_pos b) - 1))
      by (apply Z.pow_le_mono_r; lia).
    lia.
  - symmetry. apply Pos.compare_gt_iff.
    assert (2 ^ Zpos (digits2_pos b) <= 2 ^ (Zpos (digits2_pos a) - 1))
      by (apply Z.pow_le_mono_r; lia).
    lia.
Qed.

Lemma compare_exact_float a b : Z.abs a < 2 ^ 53 -> Z.abs b < 2 ^ 53 ->
  SFcompare (exact_float a) (exact_float b) = Some (a ?= b).
Proof.
  intros Ha Hb.
  destruct a as [|a|a], b as [|b|b]; unfold exact_float, SFcompare; try reflexivity.
  - f_equal. apply compare_normal; apply small_digits; lia.
  - f_equal. change (Zneg a ?= Zneg b) with (CompOpp (a ?= b)%positive).
    rewrite <- (compare_normal a b) by (apply small_digits; lia).
    destruct (normal_exponent a ?= normal_exponent b); reflexivity.
Qed.

Lemma float_of_Z_eqb a b : Z.abs a < 2 ^ 53 -> Z.abs b < 2 ^ 53 ->
  (float_of_Z a =? float_of_Z b)%float = (a =? b).
Proof.
  intros Ha Hb. rewrite eqb_spec, !Prim2SF_float_of_Z by assumption.
  unfold SFeqb. rewrite compare_exact_float by assumption.
  destruct (Z.compare_spec a b), (Z.eqb_spec a b); try lia; reflexivity.
Qed.

Lemma float_of_Z_ltb a b : Z.abs a < 2 ^ 53 -> Z.abs b < 2 ^ 53 ->
  (float_of_Z a <? float_of_Z b)%float = (a <? b).
Proof.
  intros Ha Hb. rewrite ltb_spec, !Prim2SF_float_of_Z by assumption.
  unfold SFltb. rewrite compare_exact_float by assumption.
  unfold Z.ltb. destruct (a ?= b); reflexivity.
Qed.

Lemma float_of_Z_finite n : Z.abs n < 2 ^ 53 -> is_infinity (float_of_Z n) = false.
Proof.
  intros H. unfold is_infinity.
  rewrite eqb_spec, abs_spec, Prim2SF_float_of_Z by exact H.
  destruct n; reflexivity.
Qed.

Lemma double_of_int_small n : Z.abs n < 2 ^ 53 -> double_of_int n = Ok (float_of_Z n).
Proof. intros H. unfold double_of_int. now rewrite float_of_Z_finite. Qed.

(** The conversion returns the nearest value or raises [OverflowError]. *)
Lemma double_of_int_cases n :
  double_of_int n
  = if is_infinity (float_of_Z n) then Raise OverflowError else Ok (float_of_Z n).
Proof. reflexivity. Qed.

Lemma double_of_int_ok n c : double_of_int n = Ok c -> c = float_of_Z n.
Proof.
  unfold double_of_int. destruct (is_infinity (float_of_Z n)); [discriminate | congruence].
Qed.

(** *** NaN *)
Lemma is_nan_spec x : is_nan x = true -> x = nan.
Proof.
  unfold is_nan. rewrite eqb_spec. intros H.
  apply Prim2SF_inj. change (Prim2SF nan) with S754_nan.
  unfold SFeqb, SFcompare in H.
  destruct (Prim2SF x) as [s|s| |s m e]; try reflexivity; try discriminate.
  - destruct s; discriminate.
  - destruct s; rewrite Z.compare_refl, Pos.compare_cont_refl in H; discriminate.
Qed.

Lemma mul_nan_l s : (nan * s)%float = nan.
Proof. apply Prim2SF_inj. rewrite mul_spec. reflexivity. Qed.

Lemma add_nan_l s : (nan + s)%float = nan.
Proof. apply Prim2SF_inj. rewrite add_spec. reflexivity. Qed.

Lemma ltb_nan_l y : (nan <? y)%float = false.
Proof. rewrite ltb_spec. reflexivity. Qed.

Lemma ltb_nan_r x : (x <? nan)%float = false.
Proof.
  rewrite ltb_spec. change (Prim2SF nan) with S754_nan.
  unfold SFltb, SFcompare. destruct (Prim2SF x) as [s|s| |s m e]; reflexivity.
Qed.


Lemma eqb_nan_l y : (nan =? y)%float = false.
Proof. rewrite eqb_spec. reflexivity. Qed.

Lemma float32_nan : float32 nan = nan.
Proof. reflexivity. Qed.

Lemma test_float_nan op c : test_float op nan c = false.
Proof. destruct op; cbn [test_float]; [apply eqb_nan_l | apply ltb_nan_l | apply ltb_nan_r]. Qed.
(** ** The granule decoder: lemmas *)

Import VIIRS_tiled_granule.

Lemma quiet_ret {A : Type} (a : A) : quiet (ret a).
Proof. intros w. reflexivity. Qed.

Lemma quiet_lift {A : Type} (r : result A) : quiet (lift r).
Proof. intros w. reflexivity. Qed.

Lemma quiet_bind {A B : Type} (m : M A) (k : A -> M B) :
  quiet m -> (forall a, quiet (k a)) -> quiet (bindM m k).
Proof.
  intros Hm Hk w. unfold bindM. specialize (Hm w).
  destruct (m w) as [[a | e] w']; cbn [snd] in *; subst w'; [apply Hk | reflexivity].
Qed.

Lemma quiet_deref o : quiet (deref o).
Proof.
  intros w. unfold deref.
  repeat match goal with |- context [match ?x with _ => _ end] => destruct x end; reflexivity.
Qed.

Lemma quiet_getitem file name : quiet (getitem file name).
Proof.
  intros w. unfold getitem. pose proof (quiet_deref (file, components name) w) as H.
  destruct (deref (file, components name) w) as [[n | e] w']; cbn [snd] in *; subst w';
    reflexivity.
Qed.

Lemma quiet_keys o : quiet (keys o).
Proof.
  apply quiet_bind; [apply quiet_deref|]. intros [ms ats | d]; [apply quiet_ret | apply quiet_lift].
Qed.

Lemma quiet_as_dataset o a : quiet (as_dataset o a).
Proof.
  apply quiet_bind; [apply quiet_deref|]. intros [ms ats | d]; [apply quiet_lift | apply quiet_ret].
Qed.

Lemma quiet_shape0 o : quiet (shape0 o).
Proof. apply quiet_bind; [apply quiet_as_dataset|]. intros d. apply quiet_lift. Qed.

Lemma quiet_np_array o : quiet (np_array o).
Proof.
  apply quiet_bind; [apply quiet_deref|]. intros [ms ats | d]; [apply quiet_lift | apply quiet_ret].
Qed.

Lemma quiet_attrs_dict o : quiet (attrs_dict o).
Proof.
  apply quiet_bind; [apply quiet_deref|]. intros [ms ats | d]; apply quiet_ret.
Qed.

Lemma filter_fresh h (hs : list (nat * string)) :
  Forall (fun hp => (fst hp < h)%nat) hs ->
  filter (fun hp => negb (Nat.eqb (fst hp) h)) hs = hs.
Proof.
  induction 1 as [|hp hs Hhp _ IH]; [reflexivity|].
  cbn [filter]. destruct (Nat.eqb_spec (fst hp) h); [lia|]. cbn [negb]. now rewrite IH.
Qed.

Lemma releases_quiet {A : Type} (m : M A) : quiet m -> releases m.
Proof.
  intros Hm w Hw. rewrite (Hm w). repeat split; trivial.
  exists []. split; [now rewrite app_nil_r | constructor].
Qed.

Lemma scoped_app evs evs' : scoped evs -> scoped evs' -> scoped (evs ++ evs').
Proof. induction 1; cbn; [trivial | intros; constructor; auto]. Qed.

Lemma releases_bind {A B : Type} (m : M A) (k : A -> M B) :
  releases m -> (forall a, releases (k a)) -> releases (bindM m k).
Proof.
  intros Hm Hk w Hw. unfold bindM.
  destruct (Hm w Hw) as (Hf & Ho & Hfr & evs & Hh & Hs).
  destruct (m w) as [[a | e] w']; cbn [snd] in *.
  - destruct (Hk a w' Hfr) as (Hf' & Ho' & Hfr' & evs' & Hh' & Hs').
    repeat split; try congruence.
    exists (evs ++ evs')%list. split; [|now apply scoped_app].
    now rewrite Hh', Hh, app_assoc.
  - repeat split; trivial. now exists evs.
Qed.

(** The [with] statement around a body that only reads. *)
Lemma with_File_releases {A : Type} path (body : nat -> M A) :
  (forall file, quiet (body file)) -> releases (with_File path body).
Proof.
  intros Hbody w Hw. unfold with_File, File.
  destruct (dict_get (files w) path) as [root|].
  - match goal with |- context [body ?h ?w1] => pose proof (Hbody h w1) as Hq;
      destruct (body h w1) as [r w2] end.
    cbn [snd] in Hq. subst w2. cbn [close snd fst files open_handles next_handle history filter].
    rewrite Nat.eqb_refl. cbn [negb].
    rewrite filter_fresh by exact Hw.
    repeat split.
    + unfold handles_fresh. cbn [open_handles next_handle].
      eapply Forall_impl; [|exact Hw]. cbn beta. intros hp Hhp. lia.
    + exists [Opened (next_handle w) path; Closed (next_handle w)].
      split; [now rewrite <- app_assoc | repeat constructor].
  - cbn [snd]. repeat split; trivial.
    exists []. split; [now rewrite app_nil_r | constructor].
Qed.

(** *** Arrays and their elements *)

Lemma choose_map {A : Type} (c : A -> bool) (v : A -> float) l :
  map (fun cx : bool * float => if fst cx then nan else snd cx)
      (combine (map c l) (map v l))
  = map (fun x => if c x then nan else v x) l.
Proof. induction l as [|x l IH]; cbn; [reflexivity | now rewrite IH]. Qed.

Lemma choose_self (c : float -> bool) l :
  map (fun cx : bool * float => if fst cx then nan else snd cx) (combine (map c l) l)
  = map (fun x => if c x then nan else x) l.
Proof. rewrite <- (map_id l) at 2. apply choose_map. Qed.

Lemma float_of_pynumber_ok s c : float_of_pynumber s = Ok c -> c = float_of_py s.
Proof. destruct s as [n | f]; cbn; [apply double_of_int_ok | congruence]. Qed.

(** [compare] in full: it raises only for a floating-point array and
    an [int] beyond the binary64 range, and otherwise compares element
    by element. *)
Lemma compare_cases op a n :
  compare op a n
  = if comparable a n
    then Ok (mkarray (shape a) (map (meets op n) (elements a)))
    else Raise OverflowError.
Proof.
  destruct a as [t v | v | v]; cbn [compare comparable elements];
    rewrite ?double_of_int_cases;
    try destruct (is_infinity (float_of_Z n)); cbn [negb bind]; try reflexivity;
    unfold array_map; now rewrite map_map.
Qed.

Lemma arithmetic_elements int_op float_op a s b :
  arithmetic int_op float_op a s = Ok b ->
  shape b = shape a /\ elements b = map (scaling int_op float_op s) (elements a).
Proof.
  destruct a as [t v | v | v]; cbn [arithmetic].
  - destruct s as [n | c].
    + destruct (in_range t n); [|discriminate]. intros [= <-].
      split; [reflexivity|]. cbn. now rewrite !map_map.
    + intros [= <-]. split; [reflexivity|]. cbn. now rewrite !map_map.
  - destruct (float_of_pynumber s) as [c|] eqn:E; [|discriminate].
    apply float_of_pynumber_ok in E. subst c. intros [= <-].
    split; [reflexivity|]. cbn. now rewrite !map_map.
  - destruct (float_of_pynumber s) as [c|] eqn:E; [|discriminate].
    apply float_of_pynumber_ok in E. subst c. intros [= <-].
    split; [reflexivity|]. cbn. now rewrite !map_map.
Qed.

(** *** The stages on one element *)

Lemma no_data_dropped x : no_data (dropped x) = true.
Proof. now destruct x. Qed.

Lemma no_data_kept x : no_data x = true -> kept x = x.
Proof. now destruct x. Qed.

Lemma kept_kept x : kept (kept x) = kept x.
Proof. now destruct x. Qed.

Lemma masking_hit op n x : meets op n x = true -> no_data (masking op n x) = true.
Proof. intros H. unfold masking. rewrite H. apply no_data_dropped. Qed.

Lemma masking_miss op n x : meets op n x = false -> masking op n x = kept x.
Proof. intros H. unfold masking. now rewrite H. Qed.

Lemma no_data_masking op n x : no_data x = true -> no_data (masking op n x) = true.
Proof.
  intros H. unfold masking. destruct (meets op n x); [apply no_data_dropped|].
  now rewrite no_data_kept.
Qed.

Lemma no_data_stage p op x :
  no_data x = true -> no_data (stage p (masking op) x) = true.
Proof. destruct p; cbn [stage]; [apply no_data_masking | trivial]. Qed.

(** A stage either drops the element or leaves it as [seen]. *)
Lemma stage_cases p op x :
  (hit p op x = true /\ no_data (stage p (masking op) x) = true) \/
  (hit p op x = false /\ stage p (masking op) x = seen p x).
Proof.
  destruct p as [n|]; cbn [hit stage seen]; [|now right].
  destruct (meets op n x) eqn:E; [left | right]; split; trivial.
  - now apply masking_hit.
  - now apply masking_miss.
Qed.

Lemma masked_excluded fill valid_min valid_max x :
  excluded fill valid_min valid_max x = true ->
  no_data (stage valid_max high_clamp (stage valid_min low_clamp (stage fill fill_masking x)))
  = true.
Proof.
  unfold excluded, fill_masking, low_clamp, high_clamp. intros H.
  destruct (stage_cases fill IsEqual x) as [[_ Hn] | [H1 ->]].
  { now apply no_data_stage, no_data_stage. }
  rewrite H1 in H. cbn [orb] in H.
  destruct (stage_cases valid_min IsBelow (seen fill x)) as [[_ Hn] | [H2 ->]].
  { now apply no_data_stage. }
  rewrite H2 in H. cbn [orb] in H.
  destruct (stage_cases valid_max IsAbove (seen valid_min (seen fill x)))
    as [[_ Hn] | [H3 _]]; [exact Hn | congruence].
Qed.

Lemma no_data_nan x : no_data x = true -> x = Single nan \/ x = Double nan.
Proof.
  destruct x as [t z | f | f]; cbn [no_data]; [discriminate | |];
    intros H; apply is_nan_spec in H; subst f; auto.
Qed.

Lemma no_data_rescale s x : no_data x = true -> no_data (rescale s x) = true.
Proof.
  intros H. destruct (no_data_nan x H) as [-> | ->]; unfold rescale; cbn [scaling no_data];
    now rewrite mul_nan_l.
Qed.

Lemma no_data_add_offset o x : no_data x = true -> no_data (add_offset o x) = true.
Proof.
  intros H. destruct (no_data_nan x H) as [-> | ->]; unfold add_offset; cbn [scaling no_data];
    now rewrite add_nan_l.
Qed.

Lemma rescaled_no_data scale offset x :
  no_data x = true -> no_data (stage offset add_offset (stage scale rescale x)) = true.
Proof.
  intros H. destruct scale as [s|], offset as [o|]; cbn [stage]; trivial;
    repeat first [apply no_data_add_offset | apply no_data_rescale]; exact H.
Qed.

(** An element that is NaN meets no comparison. *)
Lemma meets_no_data op n x : no_data x = true -> meets op n x = false.
Proof.
  intros H. destruct (no_data_nan x H) as [-> | ->]; cbn [meets]; apply test_float_nan.
Qed.

(** Integers of magnitude below [2^53] compare as float64 values as
    they compare exactly. *)
Lemma test_float_exact op z n : Z.abs z < 2 ^ 53 -> Z.abs n < 2 ^ 53 ->
  test_float op (float_of_Z z) (float_of_Z n) = test_int op z n.
Proof.
  intros Hz Hn. destruct op; cbn [test_float test_int];
    [apply float_of_Z_eqb | apply float_of_Z_ltb | apply float_of_Z_ltb]; assumption.
Qed.

Lemma excluded_stored fill valid_min valid_max t z :
  Z.abs z < 2 ^ 53 ->
  (forall n, In (Some n) [fill; valid_min; valid_max] -> Z.abs n < 2 ^ 53) ->
  excluded fill valid_min valid_max (Stored t z)
  = match fill with Some f => z =? f | None => false end
    || match valid_min with Some lo => z <? lo | None => false end
    || match valid_max with Some hi => hi <? z | None => false end.
Proof.
  intros Hz Hn. unfold excluded.
  destruct fill as [f|], valid_min as [lo|], valid_max as [hi|];
    cbn [hit seen kept meets test_int];
    rewrite ?test_float_exact by (trivial; apply Hn; cbn; auto);
    reflexivity.
Qed.

Section RasterLemmas.

Context {G : Type}.

Lemma or_attribute_parameter {A : Type} (p : option A) attributes name convert :
  or_attribute p attributes name convert = parameter p (discover attributes name convert).
Proof.
  unfold or_attribute, parameter, discover.
  destruct p, (dict_get attributes name); reflexivity.
Qed.

Lemma or_attribute_explicit {A : Type} (v : A) attributes name convert :
  or_attribute (Some v) attributes name convert = Ok (Some v).
Proof. unfold or_attribute. now destruct (dict_get attributes name). Qed.

Lemma where_test_Integers op t v (g : G) n :
  where_test op (mkRaster (Integers t v) g) n
  = Ok (mkRaster
          (Float64 (array_map (fun z => if test_int op z n then nan else float_of_Z z) v)) g).
Proof.
  unfold where_test. cbn [array compare bind where_nan array_map data dims geometry].
  now rewrite choose_map.
Qed.

Lemma where_test_Float32 op v (g : G) n :
  where_test op (mkRaster (Float32 v) g) n
  = (c <- double_of_int n ;;
     Ok (mkRaster
           (Float32 (array_map (fun f => if test_float op f (float32 c) then nan else f) v))
           g)).
Proof.
  unfold where_test. cbn [array compare]. destruct (double_of_int n) as [c|]; [|reflexivity].
  cbn [bind where_nan array_map data dims geometry]. now rewrite choose_self.
Qed.

Lemma where_test_Float64 op v (g : G) n :
  where_test op (mkRaster (Float64 v) g) n
  = (c <- double_of_int n ;;
     Ok (mkRaster
           (Float64 (array_map (fun f => if test_float op f c then nan else f) v)) g)).
Proof.
  unfold where_test. cbn [array compare]. destruct (double_of_int n) as [c|]; [|reflexivity].
  cbn [bind where_nan array_map data dims geometry]. now rewrite choose_self.
Qed.

Lemma where_test_elements op (layer out : Raster G pixels) n :
  where_test op layer n = Ok out ->
  shape (array out) = shape (array layer) /\
  geometry out = geometry layer /\
  elements (array out) = map (masking op n) (elements (array layer)).
Proof.
  destruct layer as [[t v | v | v] g].
  - rewrite where_test_Integers. intros [= <-]. repeat split.
    cbn. rewrite !map_map. apply map_ext. intros z. unfold masking. cbn [meets dropped kept].
    now destruct (test_int op z n).
  - rewrite where_test_Float32. destruct (double_of_int n) as [c|] eqn:E; [|discriminate].
    apply double_of_int_ok in E. subst c. intros [= <-]. repeat split.
    cbn. rewrite !map_map. apply map_ext. intros f. unfold masking. cbn [meets dropped kept].
    now destruct (test_float op f (float32 (float_of_Z n))).
  - rewrite where_test_Float64. destruct (double_of_int n) as [c|] eqn:E; [|discriminate].
    apply double_of_int_ok in E. subst c. intros [= <-]. repeat split.
    cbn. rewrite !map_map. apply map_ext. intros f. unfold masking. cbn [meets dropped kept].
    now destruct (test_float op f (float_of_Z n)).
Qed.

Lemma masking_stage p op (layer out : Raster G pixels) :
  match p with Some n => where_test op layer n | None => Ok layer end = Ok out ->
  shape (array out) = shape (array layer) /\
  geometry out = geometry layer /\
  elements (array out) = map (stage p (masking op)) (elements (array layer)).
Proof.
  destruct p as [n|]; cbn [stage]; [apply where_test_elements|].
  intros [= <-]. now rewrite map_id.
Qed.

Lemma scaling_stage (p : option pynumber) int_op float_op (layer out : Raster G pixels) :
  match p with
  | Some s => product <- arithmetic int_op float_op (array layer) s ;;
              Ok (mkRaster product (geometry layer))
  | None => Ok layer
  end = Ok out ->
  shape (array out) = shape (array layer) /\
  geometry out = geometry layer /\
  elements (array out) = map (stage p (scaling int_op float_op)) (elements (array layer)).
Proof.
  destruct p as [s|]; cbn [stage].
  - destruct (arithmetic int_op float_op (array layer) s) as [b|] eqn:E; [|discriminate].
    apply arithmetic_elements in E. destruct E as [Hs He]. intros [= <-]. now repeat split.
  - intros [= <-]. now rewrite map_id.
Qed.

(** What the masking stages return, element by element. *)
Lemma mask_stages_elements (raw masked : Raster G pixels) attributes fill valid_min valid_max :
  mask_stages raw attributes fill valid_min valid_max = Ok masked ->
  exists f lo hi,
    or_attribute fill attributes "_Fillvalue" int_of_attr = Ok f /\
    or_attribute valid_min attributes "valid_range"
      (fun a => x <- attr_item a 0 ;; int_of_attr x) = Ok lo /\
    or_attribute valid_max attributes "valid_range"
      (fun a => x <- attr_item a 1 ;; int_of_attr x) = Ok hi /\
    shape (array masked) = shape (array raw) /\
    geometry masked = geometry raw /\
    elements (array masked)
    = map (fun x => stage hi high_clamp (stage lo low_clamp (stage f fill_masking x)))
          (elements (array raw)).
Proof.
  unfold mask_stages. intros H.
  destruct (or_attribute fill attributes "_Fillvalue" int_of_attr) as [f|]; [|discriminate].
  cbn [bind] in H.
  destruct (match f with Some n => where_test IsEqual raw n | None => Ok raw end)
    as [l1|] eqn:E1; [|discriminate].
  cbn [bind] in H.
  destruct (or_attribute valid_min attributes "valid_range" _) as [lo|]; [|discriminate].
  cbn [bind] in H.
  destruct (match lo with Some n => where_test IsBelow l1 n | None => Ok l1 end)
    as [l2|] eqn:E2; [|discriminate].
  cbn [bind] in H.
  destruct (or_attribute valid_max attributes "valid_range" _) as [hi|]; [|discriminate].
  cbn [bind] in H.
  destruct (match hi with Some n => where_test IsAbove l2 n | None => Ok l2 end)
    as [l3|] eqn:E3; [|discriminate].
  cbn [bind] in H. injection H as <-.
  apply masking_stage in E1, E2, E3.
  destruct E1 as (S1 & G1 & D1), E2 as (S2 & G2 & D2), E3 as (S3 & G3 & D3).
  exists f, lo, hi. do 3 (split; [reflexivity|]).
  split; [congruence|]. split; [congruence|].
  rewrite D3, D2, D1, !map_map. reflexivity.
Qed.

(** What the rescaling stages return, element by element. *)
Lemma rescale_stages_elements (layer out : Raster G pixels) attributes scale offset :
  rescale_stages layer attributes scale offset = Ok out ->
  exists s o,
    or_attribute scale attributes "scale_factor" pyfloat_of_attr = Ok s /\
    or_attribute offset attributes "add_offset" pyfloat_of_attr = Ok o /\
    shape (array out) = shape (array layer) /\
    geometry out = geometry layer /\
    elements (array out)
    = map (fun x => stage o add_offset (stage s rescale x)) (elements (array layer)).
Proof.
  unfold rescale_stages. intros H.
  destruct (or_attribute scale attributes "scale_factor" pyfloat_of_attr) as [s|];
    [|discriminate].
  cbn [bind] in H.
  destruct (match s with Some n => times layer n | None => Ok layer end)
    as [l1|] eqn:E1; [|discriminate].
  cbn [bind] in H.
  destruct (or_attribute offset attributes "add_offset" pyfloat_of_attr) as [o|];
    [|discriminate].
  cbn [bind] in H.
  destruct (match o with Some n => plus l1 n | None => Ok l1 end)
    as [l2|] eqn:E2; [|discriminate].
  cbn [bind] in H. injection H as <-.
  apply (scaling_stage s Z.mul PrimFloat.mul) in E1.
  apply (scaling_stage o Z.add PrimFloat.add) in E2.
  destruct E1 as (S1 & G1 & D1), E2 as (S2 & G2 & D2).
  exists s, o. do 2 (split; [reflexivity|]).
  split; [congruence|]. split; [congruence|].
  rewrite D2, D1, !map_map. reflexivity.
Qed.

(** The body of [layer] is the pipeline of the specification. *)
Lemma calibration_refines (raw : Raster G pixels) attributes fill scale offset
    valid_min valid_max :
  (layer <- mask_stages raw attributes fill valid_min valid_max ;;
   rescale_stages layer attributes scale offset)
  = calibration_pipeline raw attributes fill scale offset valid_min valid_max.
Proof.
  unfold mask_stages, rescale_stages, calibration_pipeline, when_present.
  rewrite <- !or_attribute_parameter.
  destruct (or_attribute fill attributes "_Fillvalue" int_of_attr) as [f|]; [|reflexivity].
  cbn [bind].
  destruct (match f with Some n => where_test IsEqual raw n | None => Ok raw end)
    as [l1|]; [|reflexivity].
  cbn [bind].
  destruct (or_attribute valid_min attributes "valid_range" _) as [lo|]; [|reflexivity].
  cbn [bind].
  destruct (match lo with Some n => where_test IsBelow l1 n | None => Ok l1 end)
    as [l2|]; [|reflexivity].
  cbn [bind].
  destruct (or_attribute valid_max attributes "valid_range" _) as [hi|]; [|reflexivity].
  cbn [bind].
  destruct (match hi with Some n => where_test IsAbove l2 n | None => Ok l2 end)
    as [l3|]; [|reflexivity].
  cbn [bind].
  destruct (or_attribute scale attributes "scale_factor" pyfloat_of_attr) as [s|];
    [|reflexivity].
  cbn [bind].
  destruct (match s with Some n => times l3 n | None => Ok l3 end) as [l4|]; [|reflexivity].
  cbn [bind].
  destruct (or_attribute offset attributes "add_offset" pyfloat_of_attr) as [o|];
    [|reflexivity].
  cbn [bind].
  now destruct (match o with Some n => plus l4 n | None => Ok l4 end).
Qed.

(** What the pipeline returns, element by element: the five stages
    with the parameters as resolved. *)
Lemma calibration_elements (raw out : Raster G pixels) attributes fill scale offset
    valid_min valid_max :
  calibration_pipeline raw attributes fill scale offset valid_min valid_max = Ok out ->
  exists f lo hi s o,
    parameter fill (discover attributes "_Fillvalue" int_of_attr) = Ok f /\
    parameter valid_min (discover attributes "valid_range"
                           (fun a => x <- attr_item a 0 ;; int_of_attr x)) = Ok lo /\
    parameter valid_max (discover attributes "valid_range"
                           (fun a => x <- attr_item a 1 ;; int_of_attr x)) = Ok hi /\
    parameter scale (discover attributes "scale_factor" pyfloat_of_attr) = Ok s /\
    parameter offset (discover attributes "add_offset" pyfloat_of_attr) = Ok o /\
    shape (array out) = shape (array raw) /\
    geometry out = geometry raw /\
    elements (array out) = map (run (five_stages f lo hi s o)) (elements (array raw)).
Proof.
  rewrite <- calibration_refines. intros H.
  destruct (mask_stages raw attributes fill valid_min valid_max) as [masked|] eqn:Em;
    [|discriminate].
  cbn [bind] in H.
  apply mask_stages_elements in Em. apply rescale_stages_elements in H.
  destruct Em as (f & lo & hi & Hf & Hlo & Hhi & S1 & G1 & D1).
  destruct H as (s & o & Hs & Ho & S2 & G2 & D2).
  exists f, lo, hi, s, o. rewrite <- !or_attribute_parameter.
  do 5 (split; [assumption|]).
  split; [congruence|]. split; [congruence|].
  rewrite D2, D1, map_map. reflexivity.
Qed.

End RasterLemmas.

(** The example element: an integer [v] through the five stages as
    float64 arithmetic runs them after the first mask, with scale 2
    and offset 1. *)
Lemma example_value f lo hi v :
  Z.abs f < 2 ^ 53 -> Z.abs lo < 2 ^ 53 -> Z.abs hi < 2 ^ 53 -> Z.abs v < 2 ^ 53 ->
  ((if (float_of_Z hi
        <? (if ((if (v =? f)%Z then nan else float_of_Z v) <? float_of_Z lo)%float
            then nan else if (v =? f)%Z then nan else float_of_Z v))%float
    then nan
    else if ((if (v =? f)%Z then nan else float_of_Z v) <? float_of_Z lo)%float
         then nan else if (v =? f)%Z then nan else float_of_Z v) * 2 + 1)%float
  = if (v =? f) || (v <? lo) || (hi <? v) then nan
    else (float_of_Z v * 2 + 1)%float.
Proof.
  intros Hf Hlo Hhi Hv.
  destruct (v =? f); cbn [orb].
  - now rewrite ltb_nan_l, ltb_nan_r, mul_nan_l, add_nan_l.
  - rewrite float_of_Z_ltb by assumption. destruct (v <? lo); cbn [orb].
    + now rewrite ltb_nan_r, mul_nan_l, add_nan_l.
    + rewrite float_of_Z_ltb by assumption. destruct (hi <? v); [|reflexivity].
      now rewrite mul_nan_l, add_nan_l.
Qed.

(** An element no masking stage drops is left as each stage that ran
    has seen it. *)
Lemma masked_not_excluded fill valid_min valid_max x :
  excluded fill valid_min valid_max x = false ->
  stage valid_max high_clamp (stage valid_min low_clamp (stage fill fill_masking x))
  = seen valid_max (seen valid_min (seen fill x)).
Proof.
  unfold excluded, fill_masking, low_clamp, high_clamp. intros H.
  apply orb_false_elim in H. destruct H as [H H3].
  apply orb_false_elim in H. destruct H as [H1 H2].
  destruct (stage_cases fill IsEqual x) as [[E _] | [_ ->]]; [congruence|].
  destruct (stage_cases valid_min IsBelow (seen fill x)) as [[E _] | [_ ->]]; [congruence|].
  destruct (stage_cases valid_max IsAbove (seen valid_min (seen fill x)))
    as [[E _] | [_ ->]]; [congruence | reflexivity].
Qed.
(** * Theorems *)

(** ** The filename codec *)

(** C4. Round trip: a name built by the grammar [PRODUCT.AYYYYDDD.TILE.BUILD]
    from a product and a tile free of dots and slashes, a valid calendar
    date and a build number padded to any width, placed under any
    directory and followed by any dot-led extension, is parsed back by
    the four operations into exactly the product, the date, the tile and
    the build number, as long as the build token has no more digits
    than [int] converts (4300); on a longer build token the build
    operation raises [ValueError] for the digit limit, and the other
    three operations still return their values. *)
Theorem filename_roundtrip directory product d tile width build extension :
  directory = "" \/ (exists p, directory = p ++ "/") ->
  contains "." product = false -> contains "/" product = false ->
  valid_date d ->
  contains "." tile = false -> contains "/" tile = false ->
  extension = "" \/ (exists e, extension = String "." e) ->
  contains "/" extension = false ->
  let name := VIIRS_filename directory product d tile width build extension in
  parse_VIIRS_product name = Ok product /\
  parse_VIIRS_date name = Ok d /\
  parse_VIIRS_tile name = Ok tile /\
  parse_VIIRS_build name
  = if (String.length (zfill width (str_of_nat build)) <=? int_max_str_digits)%nat
    then Ok (Z.of_nat build)
    else Raise (ValueError
                  (DigitLimit (String.length (zfill width (str_of_nat build))))).
Proof.
  intros Hdir Hp Hp' Hd Ht Ht' He He' name.
  destruct (tokens_of_filename directory product d tile width build extension
              Hdir Hp Hp' Ht Ht' He He') as [more E].
  unfold parse_VIIRS_product, parse_VIIRS_date, parse_VIIRS_tile, parse_VIIRS_build.
  subst name. rewrite E. cbn [index nth_error bind drop_first].
  rewrite strptime_roundtrip by exact Hd. rewrite int_of_build. auto.
Qed.

(** The end-to-end scenario of the specification, under a directory:
    [/data/VNP.A2020123.h10v05.001.h5] is the name the grammar builds from
    VNP, 2 May 2020, h10v05 and build 1, and it parses back to them. *)
Lemma filename_roundtrip_witness :
  VIIRS_filename "/data/" "VNP" (mkdate 2020 5 2) "h10v05" 3 1 ".h5"
    = "/data/VNP.A2020123.h10v05.001.h5" /\
  parse_VIIRS_product "/data/VNP.A2020123.h10v05.001.h5" = Ok "VNP" /\
  parse_VIIRS_date "/data/VNP.A2020123.h10v05.001.h5" = Ok (mkdate 2020 5 2) /\
  parse_VIIRS_tile "/data/VNP.A2020123.h10v05.001.h5" = Ok "h10v05" /\
  parse_VIIRS_build "/data/VNP.A2020123.h10v05.001.h5" = Ok 1.
Proof.
  split; [reflexivity|].
  apply (filename_roundtrip "/data/" "VNP" (mkdate 2020 5 2) "h10v05" 3 1 ".h5").
  - right. exists "/data". reflexivity.
  - reflexivity.
  - reflexivity.
  - unfold valid_date. simpl. lia.
  - reflexivity.
  - reflexivity.
  - right. exists "h5". reflexivity.
  - reflexivity.
Defined.

(** What the claim C8 asks of a name: as soon as a token is missing or
    does not convert, every operation raises. *)
Definition some_token_bad (filename : string) : Prop :=
  (List.length (tokens filename) < 4)%nat \/
  (exists e, parse_VIIRS_date filename = Raise e) \/
  (exists e, parse_VIIRS_build filename = Raise e).

Definition every_operation_raises (filename : string) : Prop :=
  (exists e, parse_VIIRS_product filename = Raise e) /\
  (exists e, parse_VIIRS_date filename = Raise e) /\
  (exists e, parse_VIIRS_tile filename = Raise e) /\
  (exists e, parse_VIIRS_build filename = Raise e).

(** C8 as stated fails. The name [VNP] has no date, tile or build token,
    and the three operations that read them raise [IndexError]; the
    product operation still returns [VNP]. So a bad token does not make
    every operation raise. *)
Lemma codec_errors_counterexample :
  some_token_bad "VNP" /\
  parse_VIIRS_date "VNP" = Raise IndexError /\
  parse_VIIRS_product "VNP" = Ok "VNP" /\
  ~ (forall filename, some_token_bad filename -> every_operation_raises filename).
Proof.
  assert (Hbad : some_token_bad "VNP") by (left; vm_compute; lia).
  repeat split; try reflexivity; try exact Hbad.
  intros H. destruct (H "VNP" Hbad) as [[e He] _]. discriminate He.
Qed.

(** C8, amended. Each operation reads one token only, by its position
    among the dot-delimited tokens of the base name. The product
    operation returns the first token and never raises. The tile
    operation returns the third token, and raises [IndexError] when there
    are fewer than three. The date and build operations raise
    [IndexError] when their token (the second, the fourth) is absent, and
    otherwise return what the conversion of that token returns, which is
    a value or a [ValueError]; for the build number the [ValueError]
    carries the token, or, when the token has a run of more than 4300
    digits, reports the digit limit and the number of digits. No
    operation returns a value its token did not produce. *)
Theorem codec_errors filename :
  parse_VIIRS_product filename = Ok (hd "" (tokens filename)) /\
  match nth_error (tokens filename) 2 with
  | Some token => parse_VIIRS_tile filename = Ok token
  | None => parse_VIIRS_tile filename = Raise IndexError
  end /\
  match nth_error (tokens filename) 1 with
  | Some token =>
      parse_VIIRS_date filename = strptime_Yj (drop_first token) /\
      ((exists d, parse_VIIRS_date filename = Ok d) \/
       (exists why, parse_VIIRS_date filename = Raise (ValueError why)))
  | None => parse_VIIRS_date filename = Raise IndexError
  end /\
  match nth_error (tokens filename) 3 with
  | Some token =>
      parse_VIIRS_build filename = int_of_str token /\
      ((exists n, parse_VIIRS_build filename = Ok n) \/
       parse_VIIRS_build filename = Raise (ValueError (InvalidLiteral token)) \/
       (exists digits, (int_max_str_digits < digits)%nat /\
          parse_VIIRS_build filename = Raise (ValueError (DigitLimit digits))))
  | None => parse_VIIRS_build filename = Raise IndexError
  end.
Proof.
  unfold parse_VIIRS_product, parse_VIIRS_tile, parse_VIIRS_date, parse_VIIRS_build, index.
  repeat split.
  - pose proof (split_nonempty "." (basename filename)) as H. unfold tokens.
    destruct (split "." (basename filename)); [contradiction | reflexivity].
  - destruct (nth_error (tokens filename) 2); reflexivity.
  - destruct (nth_error (tokens filename) 1) as [token|]; [|reflexivity].
    split; [reflexivity|]. cbn [bind]. apply strptime_outcome.
  - destruct (nth_error (tokens filename) 3) as [token|]; [|reflexivity].
    split; [reflexivity|]. cbn [bind]. unfold int_of_str.
    assert (literal : forall sign body,
      let r := match scan_digits 0 0 false body with
               | None => Raise (ValueError (InvalidLiteral token))
               | Some (n, count, rest) =>
                   if (int_max_str_digits <? count)%nat
                   then Raise (ValueError (DigitLimit count))
                   else match rest with
                        | EmptyString => Ok (sign n)
                        | _ => Raise (ValueError (InvalidLiteral token))
                        end
               end in
      (exists n : Z, r = Ok n) \/ r = Raise (ValueError (InvalidLiteral token)) \/
      (exists digits, (int_max_str_digits < digits)%nat /\
         r = Raise (ValueError (DigitLimit digits)))).
    { intros sign body. cbv zeta.
      destruct (scan_digits 0 0 false body) as [[[n count] rest]|]; [|auto].
      destruct (Nat.ltb_spec int_max_str_digits count); [eauto|].
      destruct rest; eauto. }
    destruct (strip token) as [|c r]; [auto|].
    destruct (Ascii.eqb c "+"); [apply literal|].
    destruct (Ascii.eqb c "-"); apply literal.
Qed.

(** The date operation drops the first character of its token without
    looking at it: a token that lacks the marker still yields a date. *)
Example date_marker_unchecked :
  parse_VIIRS_date "VNP.2020123.h10v05.001.h5" = Ok (mkdate 201 1 23).
Proof. reflexivity. Qed.

(** Day 366 of a common year is read as the first day of the next. *)
Example day_366_of_common_year :
  parse_VIIRS_date "VNP.A2021366.h10v05.001.h5" = Ok (mkdate 2022 1 1).
Proof. reflexivity. Qed.

(** A separator character in front of the digits is no whitespace to
    [int]: the build operation raises. *)
Example build_after_separator :
  parse_VIIRS_build ("a.b.c." ++ String (ascii_of_nat 28) "7")
  = Raise (ValueError (InvalidLiteral (String (ascii_of_nat 28) "7"))).
Proof. reflexivity. Qed.

(** A build token that is not a number raises [ValueError] with the
    token. *)
Example build_not_a_number :
  parse_VIIRS_build "VNP.A2020123.h10v05.h5"
  = Raise (ValueError (InvalidLiteral "h5")).
Proof. reflexivity. Qed.

(** ** The query builder *)

Section QueryProperties.

Variable parse : string -> result datetime.
Variable coord : Type.
Variable is_ccw : list (coord * coord) -> bool.
Variable accepts : setter_call coord -> bool.
Variable get : Query coord -> result (list granule).


(** C5. When the request is built and the transport raises any
    exception [e] that [except Exception] catches (a network failure,
    a rejected query, a service error), the query raises
    [CMRServerUnreachable] carrying [e], and does not raise [e]
    itself. *)
Theorem transport_failure_uniform (concept_ID : string)
    (start_date end_date : date_in) (target_geometry : option (SpatialGeometry coord))
    (tile : option string) (q : Query coord) (e : exn) :
  build_query parse is_ccw accepts concept_ID start_date end_date target_geometry tile = Ok q ->
  get q = Raise e ->
  is_Exception e = true ->
  VIIRS_CMR_query parse is_ccw accepts get concept_ID start_date end_date target_geometry tile
    = Raise (CMRServerUnreachable e) /\
  VIIRS_CMR_query parse is_ccw accepts get concept_ID start_date end_date target_geometry tile
    <> Raise e.
Proof.
  intros Hq Hget He.
  assert (E : VIIRS_CMR_query parse is_ccw accepts get concept_ID start_date end_date
                target_geometry tile = Raise (CMRServerUnreachable e)).
  { unfold VIIRS_CMR_query. rewrite Hq. cbn [bind].
    unfold reraise_as_unreachable. now rewrite Hget, He. }
  split; [exact E|]. rewrite E. intros H. injection H as H.
  now apply unreachable_differs in H.
Qed.

(** C6. Winding normalization returns a counter-clockwise ring
    unchanged and a ring that is not counter-clockwise reversed; on a
    counter-clockwise ring, and on a clockwise ring (one whose reverse
    is counter-clockwise), normalizing twice is normalizing once; and
    the ring the query builder attaches for a polygon or a raster
    footprint is the normalized exterior ring. *)
Theorem winding_normalization (r : list (coord * coord)) :
  (is_ccw r = true -> normalize_winding is_ccw r = r) /\
  (is_ccw r = false -> normalize_winding is_ccw r = rev r) /\
  (is_ccw r = true \/ is_ccw (rev r) = true ->
   normalize_winding is_ccw (normalize_winding is_ccw r) = normalize_winding is_ccw r) /\
  (forall concept_ID start_date end_date tile q,
     build_query parse is_ccw accepts concept_ID start_date end_date (Some (Polygon r)) tile = Ok q
     \/ build_query parse is_ccw accepts concept_ID start_date end_date (Some (RasterGeometry r)) tile = Ok q ->
     q_polygon q = Some (normalize_winding is_ccw r)).
Proof.
  unfold normalize_winding. repeat split.
  - now intros ->.
  - now intros ->.
  - intros [H | H].
    + now rewrite H; cbn; rewrite H.
    + destruct (is_ccw r) eqn:E; cbn; [now rewrite E | now rewrite H].
  - intros concept_ID start_date end_date tile q [H | H];
      apply build_query_built in H as (date_from & date_to & _ & _ & ->); reflexivity.
Qed.

(** C7. When the request is built, the transport returns [granules]
    and every record has its begin timestamp and its native
    identifier, the query returns the same records, in ascending order
    of begin timestamp, and for every timestamp the records that begin
    at it are in the order the transport returned them. *)
Theorem query_sorted (concept_ID : string)
    (start_date end_date : date_in) (target_geometry : option (SpatialGeometry coord))
    (tile : option string) (q : Query coord) (granules : list granule) :
  build_query parse is_ccw accepts concept_ID start_date end_date target_geometry tile = Ok q ->
  get q = Ok granules ->
  Forall complete granules ->
  exists out,
    VIIRS_CMR_query parse is_ccw accepts get concept_ID start_date end_date target_geometry tile
      = Ok out /\
    Permutation granules out /\
    StronglySorted begins_before out /\
    forall k, filter (begins_at k) out = filter (begins_at k) granules.
Proof.
  intros Hq Hget Hall.
  set (out := map snd (sort_decorated (decorate granules))).
  assert (Hperm : Permutation granules out).
  { subst out. rewrite <- (map_snd_decorate granules) at 1.
    apply Permutation_map, sort_decorated_perm. }
  exists out. repeat split.
  - unfold VIIRS_CMR_query. rewrite Hq. cbn [bind].
    unfold reraise_as_unreachable. rewrite Hget. cbn [bind].
    rewrite sorted_granules
      by (eapply Forall_impl; [|exact Hall]; now intros g [H _]).
    cbn [bind]. fold out.
    rewrite (map_result_all log_line
               (fun g => match native_id g with Some id => "  " ++ id | None => "" end)).
    + reflexivity.
    + apply (Permutation_Forall Hperm).
      eapply Forall_impl; [|exact Hall]. intros g [_ H]. unfold log_line.
      destruct (native_id g); congruence.
  - exact Hperm.
  - apply sorted_by_timestamp; [apply decorated_keys | apply sort_decorated_sorted].
  - intros k. apply sorted_is_stable.
Qed.

End QueryProperties.


(** The text built for a day of year 999 has three year digits. *)
Example short_year_text :
  strftime_Ymd (DateObj (mkdate 999 12 31)) ++ "T00:00:00Z" = "999-12-31T00:00:00Z".
Proof. reflexivity. Qed.

(** The query scenario of the specification: concept C123, 1 January
    2021, a point filter at (10, 20), and a transport that fails. *)
Lemma transport_failure_witness :
  VIIRS_CMR_query iso_parse ccw_exact window_in_order (fun _ => Raise (ConnectionError "timed out"))
    "C123" (Str "2021-01-01") (Str "2021-01-01") (Some (Point 10 20)) None
    = Raise (CMRServerUnreachable (ConnectionError "timed out")) /\
  VIIRS_CMR_query iso_parse ccw_exact window_in_order (fun _ => Raise (ConnectionError "timed out"))
    "C123" (Str "2021-01-01") (Str "2021-01-01") (Some (Point 10 20)) None
    <> Raise (ConnectionError "timed out").
Proof.
  eapply (transport_failure_uniform iso_parse Z ccw_exact window_in_order
            (fun _ => Raise (ConnectionError "timed out"))
            "C123" (Str "2021-01-01") (Str "2021-01-01") (Some (Point 10 20)) None).
  - reflexivity.
  - reflexivity.
  - reflexivity.
Defined.

(** A clockwise square is reversed once, and stays as it is after. *)
Lemma winding_normalization_witness :
  normalize_winding ccw_exact [(0, 0); (0, 1); (1, 1); (1, 0); (0, 0)]
    = [(0, 0); (1, 0); (1, 1); (0, 1); (0, 0)] /\
  normalize_winding ccw_exact
    (normalize_winding ccw_exact [(0, 0); (0, 1); (1, 1); (1, 0); (0, 0)])
    = normalize_winding ccw_exact [(0, 0); (0, 1); (1, 1); (1, 0); (0, 0)].
Proof.
  destruct (winding_normalization iso_parse Z ccw_exact window_in_order
              [(0, 0); (0, 1); (1, 1); (1, 0); (0, 0)]) as (_ & Hrev & Hidem & _).
  split.
  - apply Hrev. reflexivity.
  - apply Hidem. right. reflexivity.
Defined.

(** Three records, the last two with the same begin timestamp, returned
    out of order. *)
Lemma query_sorted_witness :
  exists out,
    VIIRS_CMR_query iso_parse ccw_exact window_in_order
      (fun _ => Ok [ mkgranule (Some "g3") (Some "2021-01-02T00:00:00.000Z") "c";
                     mkgranule (Some "g1") (Some "2021-01-01T00:00:00.000Z") "a";
                     mkgranule (Some "g2") (Some "2021-01-01T00:00:00.000Z") "b" ])
      "C123" (Str "2021-01-01") (Str "2021-01-02") None (Some "h10v05") = Ok out /\
    Permutation [ mkgranule (Some "g3") (Some "2021-01-02T00:00:00.000Z") "c";
                  mkgranule (Some "g1") (Some "2021-01-01T00:00:00.000Z") "a";
                  mkgranule (Some "g2") (Some "2021-01-01T00:00:00.000Z") "b" ] out /\
    StronglySorted begins_before out /\
    forall k, filter (begins_at k) out
              = filter (begins_at k)
                  [ mkgranule (Some "g3") (Some "2021-01-02T00:00:00.000Z") "c";
                    mkgranule (Some "g1") (Some "2021-01-01T00:00:00.000Z") "a";
                    mkgranule (Some "g2") (Some "2021-01-01T00:00:00.000Z") "b" ].
Proof.
  eapply (query_sorted iso_parse Z ccw_exact window_in_order _
            "C123" (Str "2021-01-01") (Str "2021-01-02") None (Some "h10v05")).
  - reflexivity.
  - reflexivity.
  - repeat constructor; discriminate.
Defined.

(** With the signed-area test in exact arithmetic every ring that
    encloses an area is counter-clockwise or has a counter-clockwise
    reverse, so there normalization is idempotent on every such
    ring. *)
Lemma exact_normalization_idempotent (r : list (Z * Z)) :
  twice_area r <> 0 ->
  normalize_winding ccw_exact (normalize_winding ccw_exact r)
  = normalize_winding ccw_exact r.
Proof.
  intros Hr. unfold normalize_winding. destruct (ccw_exact r) eqn:E; cbn [negb].
  - now rewrite E.
  - now rewrite (ccw_exact_rev r Hr E).
Qed.

(** A ring without area is reversed each time: there normalization is
    not idempotent. *)
Example flat_ring_not_idempotent :
  normalize_winding ccw_exact
    (normalize_winding ccw_exact [(0, 0); (1, 0); (2, 0); (0, 0)])
  <> normalize_winding ccw_exact [(0, 0); (1, 0); (2, 0); (0, 0)].
Proof. vm_compute. discriminate. Qed.

(** What the sorted result of the three records is. *)
Example query_sorted_example :
  VIIRS_CMR_query iso_parse ccw_exact window_in_order
    (fun _ => Ok [ mkgranule (Some "g3") (Some "2021-01-02T00:00:00.000Z") "c";
                   mkgranule (Some "g1") (Some "2021-01-01T00:00:00.000Z") "a";
                   mkgranule (Some "g2") (Some "2021-01-01T00:00:00.000Z") "b" ])
    "C123" (Str "2021-01-01") (Str "2021-01-02") None (Some "h10v05")
  = Ok [ mkgranule (Some "g1") (Some "2021-01-01T00:00:00.000Z") "a";
         mkgranule (Some "g2") (Some "2021-01-01T00:00:00.000Z") "b";
         mkgranule (Some "g3") (Some "2021-01-02T00:00:00.000Z") "c" ].
Proof. reflexivity. Qed.

(** The request of the query scenario: the concept, the window of
    1 January 2021 and the point filter. *)
Example query_scenario_request :
  build_query iso_parse ccw_exact window_in_order "C123" (Str "2021-01-01") (Str "2021-01-01")
    (Some (Point 10 20)) None
  = Ok (mkQuery Z (Some "C123")
          (Some (mkdatetime (mkdate 2021 1 1) 0 0 0 (Some 0),
                 mkdatetime (mkdate 2021 1 1) 23 59 59 (Some 0)))
          (Some (10, 20)) None None).
Proof. reflexivity. Qed.

(** An interrupt is not an [Exception]: it passes through as it is. *)
Example interrupt_passes_through :
  VIIRS_CMR_query iso_parse ccw_exact window_in_order (fun _ => Raise KeyboardInterrupt)
    "C123" (Str "2021-01-01") (Str "2021-01-01") (Some (Point 10 20)) None
  = Raise KeyboardInterrupt.
Proof. reflexivity. Qed.

(** * Further properties *)

(** ** The filename codec: lemmas *)

(** Appending text without the separator lengthens the last token. *)
Lemma split_suffix sep a s : contains sep s = false ->
  split sep (a ++ s)
  = (removelast (split sep a) ++ [(last (split sep a) "" ++ s)%string])%list.
Proof.
  intros Hs. induction a as [|c a IH].
  - cbn. now apply split_without.
  - pose proof (split_nonempty sep a) as Hne.
    cbn [append split]. rewrite IH.
    destruct (split sep a) as [|h [|h' t]]; [contradiction| |];
      destruct (Ascii.eqb c sep); reflexivity.
Qed.

Lemma basename_suffix p s : contains "/" s = false ->
  basename (p ++ s) = basename p ++ s.
Proof.
  intros Hs. unfold basename. rewrite split_suffix by exact Hs. apply last_last.
Qed.

Lemma split_tokens_clean sep s :
  Forall (fun t => contains sep t = false) (split sep s).
Proof.
  induction s as [|c s IH]; cbn [split].
  - now constructor.
  - destruct (Ascii.eqb c sep) eqn:E; [now constructor|].
    destruct (split sep s) as [|h t]; [repeat constructor|].
    + unfold contains. cbn. now rewrite Ascii.eqb_sym, E.
    + inversion IH as [|? ? Hh Ht]; subst. constructor; [|exact Ht].
      unfold contains in *. cbn. now rewrite Ascii.eqb_sym, E.
Qed.

Lemma basename_clean p : contains "/" (basename p) = false.
Proof.
  unfold basename. pose proof (split_tokens_clean "/" p) as H.
  pose proof (split_nonempty "/" p) as Hne.
  induction H as [|t l Ht Hl IH]; [contradiction|].
  destruct l as [|t' l']; [exact Ht|]. apply IH. discriminate.
Qed.

Lemma basename_idempotent p : basename (basename p) = basename p.
Proof.
  unfold basename at 1. now rewrite (split_without "/" _ (basename_clean p)).
Qed.

Lemma index_app {A : Type} (l l' : list A) k a :
  index l k = Ok a -> index (l ++ l') k = Ok a.
Proof.
  unfold index. destruct (nth_error l k) as [x|] eqn:E; [|discriminate].
  intros H. rewrite nth_error_app1 by (apply nth_error_Some; congruence).
  now rewrite E.
Qed.

(** The second token of a name whose first two tokens are given. *)
Lemma second_token product token tail :
  contains "." product = false -> contains "/" product = false ->
  contains "." token = false -> contains "/" token = false ->
  tail = "" \/ (exists rest, tail = String "." rest) ->
  contains "/" tail = false ->
  nth_error (tokens (product ++ "." ++ token ++ tail)) 1 = Some token.
Proof.
  intros Hp Hp' Ht Ht' Htail Htail'. unfold tokens.
  assert (Hbase : basename (product ++ "." ++ token ++ tail)
                  = product ++ "." ++ token ++ tail).
  { unfold basename. rewrite split_without; [reflexivity|].
    cbn [append]. rewrite !contains_app, Hp'. cbn [orb].
    change (contains "/" (String "." (token ++ tail))) with (contains "/" (token ++ tail)).
    now rewrite contains_app, Ht', Htail'. }
  rewrite Hbase. cbn [append]. rewrite split_app, (split_without _ product Hp).
  destruct Htail as [-> | [rest ->]].
  - now rewrite append_nil_r, (split_without _ token Ht).
  - now rewrite split_app, (split_without _ token Ht).
Qed.

(** What the character classes of the patterns accept. *)
Lemma between_spec lo hi c : between lo hi c = true ->
  exists d, digit_value c = Some d /\ lo <= d <= hi.
Proof.
  unfold between. destruct (digit_value c) as [d|]; [|discriminate].
  intros H. exists d. split; [reflexivity | lia].
Qed.

Lemma is_digit_spec c : is_digit c = true ->
  exists d, digit_value c = Some d /\ 0 <= d <= 9.
Proof.
  unfold is_digit, digit_value.
  destruct ((48 <=? Z.of_N (N_of_ascii c)) && (Z.of_N (N_of_ascii c) <=? 57)) eqn:E;
    [|discriminate].
  intros _. eexists. split; [reflexivity | lia].
Qed.

Lemma between_digit lo hi c : between lo hi c = true -> is_digit c = true.
Proof.
  unfold between, is_digit. now destruct (digit_value c).
Qed.

Lemma match_classes_spec cs : forall s m rest,
  match_classes cs s = Some (m, rest) ->
  s = m ++ rest /\
  Forall2 (fun (cl : char_class) c => cl c = true) cs (list_ascii_of_string m).
Proof.
  induction cs as [|cl cs IH]; intros s m rest H; cbn [match_classes] in H.
  - injection H as <- <-. split; [reflexivity | constructor].
  - destruct s as [|c r]; [discriminate|].
    destruct (cl c) eqn:Ec; [|discriminate].
    destruct (match_classes cs r) as [[m' rest']|] eqn:E; [|discriminate].
    injection H as <- <-. destruct (IH _ _ _ E) as [-> HF].
    split; [reflexivity | now constructor].
Qed.

Lemma first_alt_spec alts : forall s r,
  first_alt alts s = Some r ->
  exists cs, In cs alts /\ match_classes cs s = Some r.
Proof.
  induction alts as [|cs alts IH]; intros s r H; cbn [first_alt] in H; [discriminate|].
  destruct (match_classes cs s) as [r'|] eqn:E.
  - injection H as <-. exists cs. split; [now left | exact E].
  - destruct (IH _ _ H) as (cs' & Hin & Hm). exists cs'. split; [now right | exact Hm].
Qed.

Lemma digits_value_list s :
  digits_value s
  = fold_left (fun acc c => 10 * acc + match digit_value c with Some d => d | None => 0 end)
              (list_ascii_of_string s) 0.
Proof. reflexivity. Qed.

Lemma year_match data Y rest :
  match_classes year_pattern data = Some (Y, rest) ->
  data = Y ++ rest /\ digit_string Y /\ String.length Y = 4%nat /\
  0 <= digits_value Y <= 9999.
Proof.
  intros H. apply match_classes_spec in H as [-> H]. split; [reflexivity|].
  unfold year_pattern in H.
  pose proof (string_of_list_ascii_of_string Y) as EY.
  remember (list_ascii_of_string Y) as l eqn:El. clear El. subst Y.
  rewrite digits_value_list. unfold digit_string.
  inversion H as [|? c1 ? l1 H1 T1]; subst; clear H.
  inversion T1 as [|? c2 ? l2 H2 T2]; subst; clear T1.
  inversion T2 as [|? c3 ? l3 H3 T3]; subst; clear T2.
  inversion T3 as [|? c4 ? l4 H4 T4]; subst; clear T3.
  inversion T4; subst; clear T4.
  rewrite list_ascii_of_string_of_list_ascii.
  split; [repeat constructor; assumption|]. split; [reflexivity|].
  cbn [fold_left].
  destruct (is_digit_spec _ H1) as (d1 & -> & ?), (is_digit_spec _ H2) as (d2 & -> & ?),
    (is_digit_spec _ H3) as (d3 & -> & ?), (is_digit_spec _ H4) as (d4 & -> & ?).
  lia.
Qed.

Lemma julian_match s j rest :
  first_alt julian_patterns s = Some (j, rest) ->
  s = j ++ rest /\ digit_string j /\
  (1 <= String.length j <= 3)%nat /\ 1 <= digits_value j <= 366.
Proof.
  intros H. apply first_alt_spec in H as (cs & Hin & H).
  apply match_classes_spec in H as [-> H]. split; [reflexivity|].
  pose proof (string_of_list_ascii_of_string j) as EY.
  remember (list_ascii_of_string j) as l eqn:El. clear El. subst j.
  rewrite digits_value_list. unfold digit_string.
  rewrite list_ascii_of_string_of_list_ascii.
  unfold julian_patterns in Hin. cbn [In] in Hin.
  repeat (destruct Hin as [<- | Hin]); [..|contradiction];
    repeat match goal with
           | H : Forall2 _ (_ :: _) _ |- _ => inversion H; subst; clear H
           | H : Forall2 _ [] _ |- _ => inversion H; subst; clear H
           end;
    (split; [repeat constructor; eauto using between_digit|]);
    (split; [cbn; lia|]);
    cbn [fold_left];
    repeat match goal with
           | H : between _ _ _ = true |- _ => apply between_spec in H as (? & -> & ?)
           | H : is_digit _ = true |- _ => apply is_digit_spec in H as (? & -> & ?)
           end;
    lia.
Qed.

Lemma located_all (leap : bool) j :
  1 <= j <= (if leap then 366 else 365) -> located leap j = true.
Proof.
  destruct leap; intros Hj.
  - apply (range_check (located true) 1 366); [vm_compute; reflexivity | lia].
  - apply (range_check (located false) 1 365); [vm_compute; reflexivity | lia].
Qed.

Lemma locate_spec (leap : bool) j m d :
  1 <= j <= (if leap then 366 else 365) ->
  locate leap 1 11 j = (m, d) ->
  1 <= m <= 12 /\ 1 <= d <= month_length leap m /\ days_before leap 1 11 m + d = j.
Proof.
  intros Hj E. pose proof (located_all leap j Hj) as H.
  unfold located in H. rewrite E in H. lia.
Qed.

(** The date of day [j] of year [y]: a day of [y] when [y] has a [j]-th
    day, else the first of January of the next year. *)
Lemma date_of_year_day_spec y j d :
  0 <= y <= 9999 -> 1 <= j <= 366 ->
  date_of_year_day y j = Ok d ->
  valid_date d /\
  ((j <= days_in_year y /\ year d = y /\ day_of_year d = j) \/
   (days_in_year y < j /\ d = mkdate (y + 1) 1 1)).
Proof.
  intros Hy Hj. unfold date_of_year_day, days_in_year.
  destruct (Z.ltb_spec y 1); [discriminate|].
  destruct (Z.leb_spec j (if is_leap y then 366 else 365)) as [Hle | Hgt].
  - destruct (locate (is_leap y) 1 11 j) as [m dd] eqn:E. intros [= <-].
    destruct (locate_spec _ _ _ _ (conj (proj1 Hj) Hle) E) as (Hm & Hd & Hsum).
    split; [unfold valid_date, days_in_month; cbn; lia|].
    left. unfold day_of_year. cbn. auto.
  - assert (Hone : j - (if is_leap y then 366 else 365) = 1)
      by (destruct (is_leap y); lia).
    rewrite Hone. destruct (Z.leb_spec (y + 1) 9999); [|discriminate].
    change (locate (is_leap (y + 1)) 1 11 1) with (1%Z, 1%Z).
    intros [= <-]. split; [|right; auto].
    unfold valid_date, days_in_month. cbn. lia.
Qed.

Lemma length_append a b : String.length (a ++ b) = (String.length a + String.length b)%nat.
Proof. induction a as [|c a IH]; cbn; [reflexivity | now rewrite IH]. Qed.

Lemma strptime_sound data d :
  strptime_Yj data = Ok d ->
  valid_date d /\ digit_string data /\ (5 <= String.length data <= 7)%nat.
Proof.
  unfold strptime_Yj.
  destruct (match_classes year_pattern data) as [[Y after]|] eqn:EY; [|discriminate].
  destruct (first_alt julian_patterns after) as [[j rest]|] eqn:Ej; [|discriminate].
  destruct rest; [|discriminate]. intros H.
  destruct (year_match _ _ _ EY) as (-> & HY & HlY & HvY).
  destruct (julian_match _ _ _ Ej) as (-> & Hjd & Hlj & Hvj).
  rewrite append_nil_r.
  destruct (date_of_year_day_spec _ _ _ HvY Hvj H) as [Hvalid _].
  split; [exact Hvalid|]. split; [now apply digit_string_app|].
  rewrite length_append. lia.
Qed.

(** *** [rfind], slices and [splitext] *)

Lemma rfind_absent c s : contains c s = false -> rfind c s = -1.
Proof.
  unfold contains. induction s as [|a s IH]; cbn [list_ascii_of_string existsb rfind];
    [reflexivity|].
  intros H. apply orb_false_elim in H as [Ha Hs].
  rewrite (IH Hs), Ascii.eqb_sym, Ha. reflexivity.
Qed.

Lemma rfind_last c a e : contains c e = false ->
  rfind c (a ++ String c e) = Z.of_nat (String.length a).
Proof.
  intros He. induction a as [|x a IH]; cbn [append rfind String.length].
  - now rewrite (rfind_absent c e He), Ascii.eqb_refl.
  - rewrite IH. destruct (Z.leb_spec 0 (Z.of_nat (String.length a))); lia.
Qed.

Lemma substring_prefix a b : substring 0 (String.length a) (a ++ b) = a.
Proof. induction a as [|x a IH]; cbn; [now destruct b | now rewrite IH]. Qed.

Lemma substring_suffix a b :
  substring (String.length a) (String.length b) (a ++ b) = b.
Proof.
  induction a as [|x a IH]; cbn [append String.length substring]; [|exact IH].
  rewrite <- (append_nil_r b) at 2. apply substring_prefix.
Qed.

Lemma slice_prefix a b : slice (a ++ b) 0 (Z.of_nat (String.length a)) = a.
Proof.
  unfold slice. rewrite Z.sub_0_r, Nat2Z.id. apply substring_prefix.
Qed.

Lemma slice_suffix a b :
  slice (a ++ b) (Z.of_nat (String.length a)) (Z.of_nat (String.length (a ++ b))) = b.
Proof.
  unfold slice. rewrite length_append, Nat2Z.inj_add, Z.add_simpl_l, !Nat2Z.id.
  apply substring_suffix.
Qed.

(** [splitext] on a base name that has a dot: cut at the last dot,
    unless only dots come before it. *)
Lemma splitext_last_dot stem extension :
  contains "/" stem = false -> contains "/" extension = false ->
  contains "." extension = false ->
  splitext (stem ++ "." ++ extension)
  = if names_something stem then (stem, "." ++ extension)
    else (stem ++ "." ++ extension, "").
Proof.
  intros Hs He Hd. unfold splitext.
  rewrite (rfind_absent "/" (stem ++ "." ++ extension))
    by (rewrite !contains_app, Hs, He; reflexivity).
  cbn [append]. rewrite (rfind_last "." stem extension Hd).
  change (-1 + 1) with 0. rewrite !slice_prefix.
  replace (-1 <? Z.of_nat (String.length stem)) with true by (symmetry; apply Z.ltb_lt; lia).
  cbn [andb]. fold (names_something stem).
  destruct (names_something stem); [|reflexivity].
  now rewrite slice_suffix.
Qed.

Lemma splitext_no_dot name :
  contains "." name = false -> splitext name = (name, "").
Proof.
  intros H. unfold splitext. rewrite (rfind_absent "." name H).
  replace (rfind "/" name <? -1) with false; [reflexivity|].
  symmetry. apply Z.ltb_ge.
  clear H. induction name as [|c r IH]; cbn [rfind]; [lia|].
  destruct (Z.leb_spec 0 (rfind "/" r)); [lia|]. destruct (Ascii.eqb c "/"); lia.
Qed.

(** ** The filename codec *)

(** X1. A directory in front of a name changes nothing: for every
    directory prefix and every name free of slashes, each of the four
    operations gives on [directory/name] what it gives on [name], the
    value or the exception alike. *)
Theorem directory_ignored directory name :
  contains "/" name = false ->
  parse_VIIRS_product (directory ++ "/" ++ name) = parse_VIIRS_product name /\
  parse_VIIRS_date (directory ++ "/" ++ name) = parse_VIIRS_date name /\
  parse_VIIRS_tile (directory ++ "/" ++ name) = parse_VIIRS_tile name /\
  parse_VIIRS_build (directory ++ "/" ++ name) = parse_VIIRS_build name.
Proof.
  intros Hn.
  assert (E : tokens (directory ++ "/" ++ name) = tokens name).
  { unfold tokens. rewrite <- append_assoc.
    rewrite (basename_under (directory ++ "/") name) by eauto.
    unfold basename. now rewrite (split_without "/" name Hn). }
  unfold parse_VIIRS_product, parse_VIIRS_date, parse_VIIRS_tile, parse_VIIRS_build.
  now rewrite E.
Qed.

(** A name that lacks its build token, in two directories deep. *)
Lemma directory_ignored_witness :
  parse_VIIRS_product "/data/2020/VNP09GA.A2020123.h10v05" = Ok "VNP09GA" /\
  parse_VIIRS_date "/data/2020/VNP09GA.A2020123.h10v05" = Ok (mkdate 2020 5 2) /\
  parse_VIIRS_tile "/data/2020/VNP09GA.A2020123.h10v05" = Ok "h10v05" /\
  parse_VIIRS_build "/data/2020/VNP09GA.A2020123.h10v05" = Raise IndexError.
Proof.
  destruct (directory_ignored "/data/2020" "VNP09GA.A2020123.h10v05" eq_refl)
    as (Hp & Hd & Ht & Hb).
  split; [exact Hp|]. split; [exact Hd|]. split; [exact Ht | exact Hb].
Defined.

(** X2. What follows the tokens an operation reads does not matter:
    when an operation returns a value on a name, it returns the same
    value on the name with a dot and any suffix free of slashes
    appended (an extension, or several); the product operation returns
    the same on both in every case. *)
Theorem suffix_ignored filename suffix :
  contains "/" suffix = false ->
  parse_VIIRS_product (filename ++ "." ++ suffix) = parse_VIIRS_product filename /\
  (forall d, parse_VIIRS_date filename = Ok d ->
             parse_VIIRS_date (filename ++ "." ++ suffix) = Ok d) /\
  (forall t, parse_VIIRS_tile filename = Ok t ->
             parse_VIIRS_tile (filename ++ "." ++ suffix) = Ok t) /\
  (forall n, parse_VIIRS_build filename = Ok n ->
             parse_VIIRS_build (filename ++ "." ++ suffix) = Ok n).
Proof.
  intros Hs.
  assert (E : tokens (filename ++ "." ++ suffix)
              = (tokens filename ++ split "." suffix)%list).
  { unfold tokens. rewrite basename_suffix by exact Hs. apply split_app. }
  assert (keep : forall k t, index (tokens filename) k = Ok t ->
                   index (tokens (filename ++ "." ++ suffix)) k = Ok t)
    by (intros k t H; rewrite E; now apply index_app).
  unfold parse_VIIRS_product, parse_VIIRS_date, parse_VIIRS_tile, parse_VIIRS_build.
  repeat split.
  - pose proof (split_nonempty "." (basename filename)) as Hne. fold (tokens filename) in Hne.
    destruct (tokens filename) as [|t0 l] eqn:Et; [contradiction|].
    apply (keep 0%nat t0). reflexivity.
  - intros d H. destruct (index (tokens filename) 1) as [t|] eqn:Et; [|discriminate].
    now rewrite (keep _ _ Et).
  - intros t H. now apply keep.
  - intros n H. destruct (index (tokens filename) 3) as [t|] eqn:Et; [|discriminate].
    now rewrite (keep _ _ Et).
Qed.

(** The metadata file beside a granule parses as the granule does. *)
Lemma suffix_ignored_witness :
  parse_VIIRS_product "VNP09GA.A2020123.h10v05.001.h5.xml" = Ok "VNP09GA" /\
  parse_VIIRS_date "VNP09GA.A2020123.h10v05.001.h5.xml" = Ok (mkdate 2020 5 2) /\
  parse_VIIRS_tile "VNP09GA.A2020123.h10v05.001.h5.xml" = Ok "h10v05" /\
  parse_VIIRS_build "VNP09GA.A2020123.h10v05.001.h5.xml" = Ok 1.
Proof.
  destruct (suffix_ignored "VNP09GA.A2020123.h10v05.001" "h5.xml" eq_refl)
    as (Hp & Hd & Ht & Hb).
  split; [exact Hp|]. split; [apply Hd; reflexivity|].
  split; [apply Ht; reflexivity | apply Hb; reflexivity].
Defined.

(** X3. The date operation returns calendar dates only, and only from
    digits: when it returns [d], [d] is a valid date (year 1 to 9999, a
    month, a day of that month), and the second token of the base name
    is one character followed by five to seven decimal digits. *)
Theorem date_sound filename d :
  parse_VIIRS_date filename = Ok d ->
  valid_date d /\
  exists token,
    nth_error (tokens filename) 1 = Some token /\
    digit_string (drop_first token) /\
    (5 <= String.length (drop_first token) <= 7)%nat.
Proof.
  unfold parse_VIIRS_date, index.
  destruct (nth_error (tokens filename) 1) as [token|]; [|discriminate].
  cbn [bind]. intros H. apply strptime_sound in H as (Hv & Hd & Hl).
  split; [exact Hv|]. now exists token.
Qed.

(** The last day of a leap year. *)
Lemma date_sound_witness :
  valid_date (mkdate 2020 12 31) /\
  exists token,
    nth_error (tokens "VNP09GA.A2020366.h10v05.001.h5") 1 = Some token /\
    digit_string (drop_first token) /\
    (5 <= String.length (drop_first token) <= 7)%nat.
Proof.
  apply (date_sound "VNP09GA.A2020366.h10v05.001.h5" (mkdate 2020 12 31)).
  reflexivity.
Defined.

(** X4. Decoding the day of the year. On a name whose second token is
    [A], the four digits of a year [y] from 1 to 9999 and the three
    digits of a day number [j] from 1 to 366: when year [y] has a
    [j]-th day, the date operation returns the valid date of year [y]
    whose day of the year is [j]; when it has not (day 366 of a common
    year), it returns the first of January of [y + 1], or raises
    [ValueError] for [y = 9999]. *)
Theorem day_of_year_decoded product y j tail :
  contains "." product = false -> contains "/" product = false ->
  tail = "" \/ (exists rest, tail = String "." rest) ->
  contains "/" tail = false ->
  1 <= y <= 9999 -> 1 <= j <= 366 ->
  let name := product ++ "." ++ String "A" (pad4 y ++ pad3 j) ++ tail in
  (j <= days_in_year y ->
   exists d, parse_VIIRS_date name = Ok d /\
             valid_date d /\ year d = y /\ day_of_year d = j) /\
  (days_in_year y < j -> y < 9999 ->
   parse_VIIRS_date name = Ok (mkdate (y + 1) 1 1)) /\
  (days_in_year y < j -> y = 9999 ->
   parse_VIIRS_date name = Raise (ValueError OutOfRange)).
Proof.
  intros Hp Hp' Htail Htail' Hy Hj name.
  assert (Hdigits : digit_string (pad4 y ++ pad3 j))
    by (apply digit_string_app; [apply digit_string_pad4 | apply digit_string_pad3]).
  assert (E : parse_VIIRS_date name = date_of_year_day y j).
  { unfold parse_VIIRS_date, index. subst name.
    rewrite (second_token product (String "A" (pad4 y ++ pad3 j)) tail); trivial.
    - cbn [bind drop_first]. unfold strptime_Yj.
      rewrite year_pattern_pad4, julian_pattern_pad3 by exact Hj.
      now rewrite digits_value_pad4, digits_value_pad3 by lia.
    - unfold contains. cbn [list_ascii_of_string existsb orb Ascii.eqb Bool.eqb andb].
      now apply digit_string_without.
    - unfold contains. cbn [list_ascii_of_string existsb orb Ascii.eqb Bool.eqb andb].
      now apply digit_string_without. }
  rewrite E. repeat split.
  - intros Hle. destruct (date_of_year_day y j) as [d|e] eqn:Ed.
    + destruct (date_of_year_day_spec y j d) as [Hv [(_ & Hyd & Hjd) | [Hgt _]]];
        trivial; try lia.
      exists d. auto.
    + exfalso. revert Ed. unfold date_of_year_day.
      destruct (Z.ltb_spec y 1); [lia|]. destruct (Z.leb_spec j (days_in_year y)); [|lia].
      now destruct (locate (is_leap y) 1 11 j).
  - intros Hgt Hlt. unfold date_of_year_day.
    destruct (Z.ltb_spec y 1); [lia|]. destruct (Z.leb_spec j (days_in_year y)); [lia|].
    destruct (Z.leb_spec (y + 1) 9999); [|lia].
    replace (j - days_in_year y) with 1
      by (unfold days_in_year in *; destruct (is_leap y); lia).
    reflexivity.
  - intros Hgt ->. unfold date_of_year_day.
    destruct (Z.ltb_spec 9999 1); [lia|].
    destruct (Z.leb_spec j (days_in_year 9999)); [lia|]. reflexivity.
Qed.

(** Day 60 of 2020 is 29 February; day 366 of 2021 is 1 January 2022;
    day 366 of year 9999 is no date. *)
Lemma day_of_year_decoded_witness :
  (exists d, parse_VIIRS_date "VNP09GA.A2020060.h10v05.001.h5" = Ok d /\
             valid_date d /\ year d = 2020 /\ day_of_year d = 60) /\
  parse_VIIRS_date "VNP09GA.A2021366.h10v05.001.h5" = Ok (mkdate 2022 1 1) /\
  parse_VIIRS_date "VNP09GA.A9999366.h10v05.001.h5" = Raise (ValueError OutOfRange).
Proof.
  assert (tail : ".h10v05.001.h5" = "" \/ exists rest, ".h10v05.001.h5" = String "." rest)
    by (right; exists "h10v05.001.h5"; reflexivity).
  split; [|split].
  - destruct (day_of_year_decoded "VNP09GA" 2020 60 ".h10v05.001.h5"
                eq_refl eq_refl tail eq_refl) as (H & _ & _); [lia | lia |].
    apply H. vm_compute. discriminate.
  - destruct (day_of_year_decoded "VNP09GA" 2021 366 ".h10v05.001.h5"
                eq_refl eq_refl tail eq_refl) as (_ & H & _); [lia | lia |].
    apply H; [vm_compute; reflexivity | lia].
  - destruct (day_of_year_decoded "VNP09GA" 9999 366 ".h10v05.001.h5"
                eq_refl eq_refl tail eq_refl) as (_ & _ & H); [lia | lia |].
    apply H; [vm_compute; reflexivity | reflexivity].
Defined.

(** X5. The first character of the date token is dropped unread: for
    every character [marker] other than a dot and a slash, the date
    operation gives on the name with [marker] in front of the digits
    what it gives on the name with [A] there. *)
Theorem date_marker_ignored product marker text tail :
  contains "." product = false -> contains "/" product = false ->
  contains "." text = false -> contains "/" text = false ->
  tail = "" \/ (exists rest, tail = String "." rest) ->
  contains "/" tail = false ->
  Ascii.eqb marker "." = false -> Ascii.eqb marker "/" = false ->
  parse_VIIRS_date (product ++ "." ++ String marker text ++ tail)
  = parse_VIIRS_date (product ++ "." ++ String "A" text ++ tail).
Proof.
  intros Hp Hp' Ht Ht' Htail Htail' Hm Hm'.
  assert (read : forall c, Ascii.eqb c "." = false -> Ascii.eqb c "/" = false ->
            parse_VIIRS_date (product ++ "." ++ String c text ++ tail) = strptime_Yj text).
  { intros c Hc Hc'. unfold parse_VIIRS_date, index.
    rewrite (second_token product (String c text) tail); trivial.
    - unfold contains in *. cbn [list_ascii_of_string existsb].
      now rewrite Ascii.eqb_sym, Hc, Ht.
    - unfold contains in *. cbn [list_ascii_of_string existsb].
      now rewrite Ascii.eqb_sym, Hc', Ht'. }
  now rewrite (read marker Hm Hm'), (read "A"%char eq_refl eq_refl).
Qed.

(** A name of the MODIS kind of date token, with another marker. *)
Lemma date_marker_ignored_witness :
  parse_VIIRS_date "VNP09GA.D2020123.h10v05.001.h5" = Ok (mkdate 2020 5 2).
Proof.
  refine (eq_trans
    (date_marker_ignored "VNP09GA" "D" "2020123" ".h10v05.001.h5"
       eq_refl eq_refl eq_refl eq_refl (or_intror (ex_intro _ "h10v05.001.h5" eq_refl))
       eq_refl eq_refl eq_refl) _).
  reflexivity.
Defined.

(** ** The names of a granule *)

(** X6. The stem of a granule is its base name cut at the last dot.
    For a file name made of a directory prefix, a part [stem] free of
    slashes and an extension free of dots and slashes:
    [filename_base] is [stem.extension]; [filename_stem] is [stem]
    when [stem] has a character that is not a dot, and the whole base
    name when it has none; and a base name with no dot at all is its
    own stem. So the stem of a name that carries no extension loses its
    last token. *)
Theorem stem_cuts_last_dot directory stem extension :
  directory = "" \/ (exists p, directory = p ++ "/") ->
  contains "/" stem = false -> contains "/" extension = false ->
  contains "." extension = false ->
  filename_base (__init__ (directory ++ stem ++ "." ++ extension))
    = stem ++ "." ++ extension /\
  filename_stem (__init__ (directory ++ stem ++ "." ++ extension))
    = (if names_something stem then stem else stem ++ "." ++ extension) /\
  filename_stem (__init__ (directory ++ extension)) = extension.
Proof.
  intros Hdir Hs He Hd.
  unfold filename_stem, filename_base, filename, __init__. cbn [_filename].
  rewrite (basename_under directory (stem ++ "." ++ extension) Hdir)
    by (rewrite !contains_app, Hs, He; reflexivity).
  rewrite (basename_under directory extension Hdir He).
  rewrite splitext_last_dot, splitext_no_dot by assumption.
  repeat split. now destruct (names_something stem).
Qed.

(** The stem of a granule file, and of a name with no extension. *)
Lemma stem_cuts_last_dot_witness :
  filename_stem (__init__ "/data/VNP09GA.A2020123.h10v05.001.h5")
    = "VNP09GA.A2020123.h10v05.001" /\
  filename_stem (__init__ "/data/VNP09GA.A2020123.h10v05.001")
    = "VNP09GA.A2020123.h10v05".
Proof.
  assert (dir : "/data/" = "" \/ exists p, "/data/" = p ++ "/")
    by (right; exists "/data"; reflexivity).
  split.
  - exact (proj1 (proj2 (stem_cuts_last_dot "/data/" "VNP09GA.A2020123.h10v05.001" "h5"
                           dir eq_refl eq_refl eq_refl))).
  - exact (proj1 (proj2 (stem_cuts_last_dot "/data/" "VNP09GA.A2020123.h10v05" "001"
                           dir eq_refl eq_refl eq_refl))).
Defined.

(** X7. The date of a granule agrees with the filename codec: on every
    file name [date_UTC] raises what [parse_VIIRS_date] raises, and
    when that returns a date, [date_UTC] is midnight of that date,
    with no time zone attached. *)
Theorem date_UTC_agrees filename :
  date_UTC (__init__ filename)
  = (d <- parse_VIIRS_date filename ;; Ok (midnight d)).
Proof.
  unfold date_UTC, parse_VIIRS_date, filename_base, VIIRS_tiled_granule.filename, __init__, tokens.
  cbn [_filename]. now destruct (index (split "." (basename filename)) 1).
Qed.

(** ** The query builder: lemmas *)

Lemma map_result_raises {A B : Type} (f : A -> result B) (l : list A) e :
  map_result f l = Raise e -> exists a, In a l /\ f a = Raise e.
Proof.
  induction l as [|a l IH]; cbn [map_result]; [discriminate|].
  destruct (f a) as [b|e'] eqn:Ea; cbn [bind].
  - destruct (map_result f l) as [bs|e'']; cbn [bind]; [discriminate|].
    intros [= <-]. destruct (IH eq_refl) as (a' & Hin & Ha'). exists a'. split; [now right | exact Ha'].
  - intros [= <-]. exists a. split; [now left | exact Ea].
Qed.

Lemma map_result_returns {A B : Type} (f : A -> result B) (l : list A) bs :
  map_result f l = Ok bs -> Forall (fun a => exists b, f a = Ok b) l.
Proof.
  revert bs. induction l as [|a l IH]; intros bs; cbn [map_result]; [constructor|].
  destruct (f a) as [b|e] eqn:Ea; cbn [bind]; [|discriminate].
  destruct (map_result f l) as [bs'|e]; cbn [bind]; [|discriminate].
  intros _. constructor; [now exists b | now apply (IH bs')].
Qed.

Lemma sorted_raises {A : Type} (key : A -> result string) (l : list A) e :
  sorted key l = Raise e -> exists a, In a l /\ key a = Raise e.
Proof.
  unfold sorted. destruct (map_result key l) as [ks|e'] eqn:E; cbn [bind]; [discriminate|].
  intros [= <-]. now apply map_result_raises.
Qed.

Lemma leb_not_ltb a b : String.leb a b = true -> String.ltb b a = false.
Proof.
  unfold String.leb, String.ltb. rewrite (String.compare_antisym b a).
  destruct (String.compare a b); cbn; congruence.
Qed.

(** Sorting what is in order changes nothing. *)
Lemma sort_decorated_ordered {A : Type} (l : list (string * A)) :
  StronglySorted key_le l -> sort_decorated l = l.
Proof.
  induction 1 as [|x l Hl IH Hx]; [reflexivity|].
  cbn [sort_decorated fold_right]. fold (sort_decorated l). rewrite IH.
  destruct l as [|y l']; [reflexivity|]. cbn [insert_by_key].
  inversion Hx as [|? ? Hxy _]; subst. unfold key_le in Hxy.
  now rewrite (leb_not_ltb _ _ Hxy).
Qed.

Lemma decorate_ordered l :
  StronglySorted begins_before l -> StronglySorted key_le (decorate l).
Proof.
  induction 1 as [|g l Hl IH Hg]; cbn [decorate map]; [constructor|].
  constructor; [exact IH|]. unfold decorate. apply Forall_map.
  eapply Forall_impl; [|exact Hg]. intros a Ha. exact Ha.
Qed.

Lemma iso_parse_raises s e : iso_parse s = Raise e -> e = ParserError s.
Proof.
  unfold iso_parse.
  destruct (iso_date s) as [[d [|sep rest]]|]; [| |congruence].
  - destruct (valid_dateb d); congruence.
  - destruct (valid_dateb d && (Ascii.eqb sep "T" || Ascii.eqb sep " ")); [|congruence].
    destruct (iso_time rest) as [[[[h m] sec] [|c r]]|]; [congruence| |congruence].
    destruct c as [[] [] [] [] [] [] [] []]; try congruence; destruct r; congruence.
Qed.

Section QueryLemmas.

Variable parse : string -> result datetime.
Variable coord : Type.
Variable is_ccw : list (coord * coord) -> bool.

Lemma window_raises (x : date_in) e :
  earliest_datetime parse x = Raise e \/ latest_datetime parse x = Raise e ->
  exists s, parse s = Raise e.
Proof.
  unfold earliest_datetime, latest_datetime.
  destruct x as [o|s]; cbn [bind].
  - intros [H|H]; eauto.
  - destruct (parse s) as [t|e'] eqn:E; cbn [bind].
    + intros [H|H]; eauto.
    + intros [[= <-]|[= <-]]; eauto.
Qed.

Variable accepts : setter_call coord -> bool.

(** What building the request raises: what the date reader raised, or
    the [ValueError] of a setter. *)
Lemma build_query_raises concept_ID start_date end_date
    (target_geometry : option (SpatialGeometry coord)) tile e :
  build_query parse is_ccw accepts concept_ID start_date end_date target_geometry tile
    = Raise e ->
  (exists s, parse s = Raise e) \/ e = ValueError InvalidArgument.
Proof.
  unfold build_query, concept_id, temporal, point, polygon, readable_granule_name, checked.
  destruct (accepts (Call_concept_id concept_ID)); cbn [bind]; [|intros [= <-]; now right].
  destruct (earliest_datetime parse start_date) as [t0|e0] eqn:E0; cbn [bind];
    [|intros [= <-]; left; apply (window_raises start_date); now left].
  destruct (latest_datetime parse end_date) as [t1|e1] eqn:E1; cbn [bind];
    [|intros [= <-]; left; apply (window_raises end_date); now right].
  destruct (accepts (Call_temporal t0 t1)); cbn [bind]; [|intros [= <-]; now right].
  intros H. right.
  repeat match type of H with
         | context [if accepts ?c then _ else _] =>
             destruct (accepts c); cbn [bind] in H
         | context [match ?x with _ => _ end] => destruct x; cbn [bind] in H
         end; congruence.
Qed.

End QueryLemmas.

(** ** The query builder *)

Section QueryFailures.

Variable parse : string -> result datetime.
Variable coord : Type.
Variable is_ccw : list (coord * coord) -> bool.
Variable accepts : setter_call coord -> bool.
Variable get : Query coord -> result (list granule).

(** X8. [CMRServerUnreachable] comes from the transport and from
    nowhere else. Let the date reader never raise it. Then whenever the
    query raises [CMRServerUnreachable] carrying [cause], the request
    was built, the transport was run on it and raised [cause], an
    exception that [except Exception] catches. Failures to read a date
    and records without the entries read are never reported as an
    unreachable server. *)
Theorem unreachable_means_transport (concept_ID : string)
    (start_date end_date : date_in) (target_geometry : option (SpatialGeometry coord))
    (tile : option string) (cause : exn) :
  (forall s c, parse s <> Raise (CMRServerUnreachable c)) ->
  VIIRS_CMR_query parse is_ccw accepts get concept_ID start_date end_date target_geometry tile
    = Raise (CMRServerUnreachable cause) ->
  exists q,
    build_query parse is_ccw accepts concept_ID start_date end_date target_geometry tile = Ok q /\
    get q = Raise cause /\ is_Exception cause = true.
Proof.
  intros Hparse. unfold VIIRS_CMR_query.
  destruct (build_query parse is_ccw accepts concept_ID start_date end_date target_geometry tile)
    as [q|e] eqn:Eq; cbn [bind].
  - intros H. exists q. split; [reflexivity|].
    unfold reraise_as_unreachable in H. destruct (get q) as [granules|e]; cbn [bind] in H.
    + exfalso. destruct (sorted begin_key granules) as [out|e] eqn:Es; cbn [bind] in H.
      * destruct (map_result log_line out) as [lines|e] eqn:El; cbn [bind] in H;
          [discriminate|].
        apply map_result_raises in El as (g & _ & Hg). unfold log_line in Hg.
        destruct (native_id g); congruence.
      * apply sorted_raises in Es as (g & _ & Hg). unfold begin_key in Hg.
        destruct (BeginningDateTime g); congruence.
    + destruct (is_Exception e) eqn:Ee; cbn [bind] in H.
      * injection H as <-. auto.
      * injection H as ->. discriminate.
  - intros [= ->]. apply build_query_raises in Eq as [[s Hs] | Hs];
      [now apply Hparse in Hs | discriminate Hs].
Qed.

(** X9. A record without its begin timestamp or its native identifier
    makes the query raise [KeyError] although the transport succeeded:
    nothing is returned, and the failure is not reported as an
    unreachable server. *)
Theorem incomplete_record_raises (concept_ID : string)
    (start_date end_date : date_in) (target_geometry : option (SpatialGeometry coord))
    (tile : option string) (q : Query coord) (granules : list granule) (g : granule) :
  build_query parse is_ccw accepts concept_ID start_date end_date target_geometry tile = Ok q ->
  get q = Ok granules ->
  In g granules ->
  BeginningDateTime g = None \/ native_id g = None ->
  exists key,
    VIIRS_CMR_query parse is_ccw accepts get concept_ID start_date end_date target_geometry tile
      = Raise (KeyError key).
Proof.
  intros Hq Hget Hin Hg. unfold VIIRS_CMR_query. rewrite Hq. cbn [bind].
  unfold reraise_as_unreachable. rewrite Hget. cbn [bind].
  destruct (sorted begin_key granules) as [out|e] eqn:Es; cbn [bind].
  - assert (Hall : Forall (fun g => BeginningDateTime g <> None) granules).
    { unfold sorted in Es.
      destruct (map_result begin_key granules) as [ks|e] eqn:Ek; [|discriminate].
      eapply Forall_impl; [|exact (map_result_returns _ _ _ Ek)].
      intros a [b Hb]. unfold begin_key in Hb. destruct (BeginningDateTime a); congruence. }
    rewrite (sorted_granules granules Hall) in Es. injection Es as <-.
    destruct (map_result log_line (map snd (sort_decorated (decorate granules))))
      as [lines|e] eqn:El; cbn [bind].
    + exfalso. apply map_result_returns in El. rewrite Forall_forall in El.
      destruct (El g) as [line Hline].
      * apply (Permutation_in g (Permutation_map snd (sort_decorated_perm (decorate granules)))).
        now rewrite map_snd_decorate.
      * rewrite Forall_forall in Hall. specialize (Hall g Hin).
        unfold log_line in Hline. destruct Hg as [Hg|Hg]; [contradiction|].
        now rewrite Hg in Hline.
    + apply map_result_raises in El as (a & _ & Ha). unfold log_line in Ha.
      destruct (native_id a); [discriminate|]. injection Ha as <-. eauto.
  - apply sorted_raises in Es as (a & _ & Ha). unfold begin_key in Ha.
    destruct (BeginningDateTime a); [discriminate|]. injection Ha as <-. eauto.
Qed.

(** X10. Records that the transport returns in ascending order of begin
    timestamp come back exactly as returned: the same list, nothing
    moved, dropped or added. *)
Theorem ordered_result_unchanged (concept_ID : string)
    (start_date end_date : date_in) (target_geometry : option (SpatialGeometry coord))
    (tile : option string) (q : Query coord) (granules : list granule) :
  build_query parse is_ccw accepts concept_ID start_date end_date target_geometry tile = Ok q ->
  get q = Ok granules ->
  Forall complete granules ->
  StronglySorted begins_before granules ->
  VIIRS_CMR_query parse is_ccw accepts get concept_ID start_date end_date target_geometry tile
    = Ok granules.
Proof.
  intros Hq Hget Hall Hsorted. unfold VIIRS_CMR_query. rewrite Hq. cbn [bind].
  unfold reraise_as_unreachable. rewrite Hget. cbn [bind].
  rewrite sorted_granules
    by (eapply Forall_impl; [|exact Hall]; now intros g [H _]).
  rewrite (sort_decorated_ordered _ (decorate_ordered _ Hsorted)), map_snd_decorate.
  cbn [bind].
  rewrite (map_result_all log_line
             (fun g => match native_id g with Some id => "  " ++ id | None => "" end)).
  - reflexivity.
  - eapply Forall_impl; [|exact Hall]. intros g [_ H]. unfold log_line.
    destruct (native_id g); congruence.
Qed.

(** X12. What [except Exception] does not catch is not wrapped: when
    the request is built and the transport raises a signal that is no
    [Exception] (an interrupt, an exit), the query raises that signal
    as it is. *)
Theorem signals_not_wrapped (concept_ID : string)
    (start_date end_date : date_in) (target_geometry : option (SpatialGeometry coord))
    (tile : option string) (q : Query coord) (e : exn) :
  build_query parse is_ccw accepts concept_ID start_date end_date target_geometry tile = Ok q ->
  get q = Raise e ->
  is_Exception e = false ->
  VIIRS_CMR_query parse is_ccw accepts get concept_ID start_date end_date target_geometry tile
    = Raise e.
Proof.
  intros Hq Hget He. unfold VIIRS_CMR_query. rewrite Hq. cbn [bind].
  unfold reraise_as_unreachable. now rewrite Hget, He.
Qed.

(** X13. Winding normalization keeps the ring: the ring it returns has
    the points of the ring it was given, each as often, so as many;
    and a ring that is closed, its first point being its last, is
    closed after normalization. *)
Theorem winding_keeps_ring (r : list (coord * coord)) :
  Permutation r (normalize_winding is_ccw r) /\
  List.length (normalize_winding is_ccw r) = List.length r /\
  forall d, hd d r = last r d ->
            hd d (normalize_winding is_ccw r) = last (normalize_winding is_ccw r) d.
Proof.
  assert (last_rev : forall (l : list (coord * coord)) d, last (rev l) d = hd d l).
  { intros [|a l] d; [reflexivity|]. cbn [rev hd]. apply last_last. }
  unfold normalize_winding. destruct (negb (is_ccw r)).
  - split; [apply Permutation_rev|]. split; [apply length_rev|].
    intros d H. rewrite last_rev, H.
    rewrite <- (rev_involutive r) at 2. now rewrite last_rev.
  - split; [reflexivity|]. split; [reflexivity|]. auto.
Qed.

End QueryFailures.

(** The query scenario with a transport that times out: the cause the
    error carries is the timeout. *)
Lemma unreachable_means_transport_witness :
  exists q,
    build_query iso_parse ccw_exact window_in_order "C123" (Str "2021-01-01") (Str "2021-01-01")
      (Some (Point 10 20)) None = Ok q /\
    (fun _ : Query Z => @Raise (list granule) (ConnectionError "timed out")) q
      = Raise (ConnectionError "timed out") /\
    is_Exception (ConnectionError "timed out") = true.
Proof.
  apply (unreachable_means_transport iso_parse Z ccw_exact window_in_order
           (fun _ => Raise (ConnectionError "timed out"))
           "C123" (Str "2021-01-01") (Str "2021-01-01") (Some (Point 10 20)) None
           (ConnectionError "timed out")).
  - intros s c H. apply iso_parse_raises in H. discriminate.
  - reflexivity.
Defined.

(** Two records, the second without a native identifier. *)
Lemma incomplete_record_raises_witness :
  exists key,
    VIIRS_CMR_query iso_parse ccw_exact window_in_order
      (fun _ => Ok [ mkgranule (Some "g1") (Some "2021-01-01T00:00:00.000Z") "a";
                     mkgranule None (Some "2021-01-02T00:00:00.000Z") "b" ])
      "C123" (Str "2021-01-01") (Str "2021-01-02") None None
    = Raise (KeyError key).
Proof.
  eapply (incomplete_record_raises iso_parse Z ccw_exact window_in_order _
            "C123" (Str "2021-01-01") (Str "2021-01-02") None None _ _
            (mkgranule None (Some "2021-01-02T00:00:00.000Z") "b")).
  - reflexivity.
  - reflexivity.
  - right. left. reflexivity.
  - right. reflexivity.
Defined.

(** Three records in order, two of them of the same instant. *)
Lemma ordered_result_unchanged_witness :
  VIIRS_CMR_query iso_parse ccw_exact window_in_order
    (fun _ => Ok [ mkgranule (Some "g1") (Some "2021-01-01T00:00:00.000Z") "a";
                   mkgranule (Some "g2") (Some "2021-01-01T00:00:00.000Z") "b";
                   mkgranule (Some "g3") (Some "2021-01-02T00:00:00.000Z") "c" ])
    "C123" (Str "2021-01-01") (Str "2021-01-02") None (Some "h10v05")
  = Ok [ mkgranule (Some "g1") (Some "2021-01-01T00:00:00.000Z") "a";
         mkgranule (Some "g2") (Some "2021-01-01T00:00:00.000Z") "b";
         mkgranule (Some "g3") (Some "2021-01-02T00:00:00.000Z") "c" ].
Proof.
  eapply (ordered_result_unchanged iso_parse Z ccw_exact window_in_order _
            "C123" (Str "2021-01-01") (Str "2021-01-02") None (Some "h10v05")).
  - reflexivity.
  - reflexivity.
  - repeat constructor; discriminate.
  - repeat constructor.
Defined.

(** An interrupt while the transport runs. *)
Lemma signals_not_wrapped_witness :
  VIIRS_CMR_query iso_parse ccw_exact window_in_order (fun _ => Raise KeyboardInterrupt)
    "C123" (Str "2021-01-01") (Str "2021-01-01") None (Some "h10v05")
  = Raise KeyboardInterrupt.
Proof.
  eapply (signals_not_wrapped iso_parse Z ccw_exact window_in_order (fun _ => Raise KeyboardInterrupt)
            "C123" (Str "2021-01-01") (Str "2021-01-01") None (Some "h10v05")).
  - reflexivity.
  - reflexivity.
  - reflexivity.
Defined.

(** ** The granule decoder: what is read *)

Lemma fst_bindM {A B : Type} (m : M A) (k : A -> M B) w :
  fst (bindM m k w)
  = match fst (m w) with
    | Ok a => fst (k a (snd (m w)))
    | Raise e => Raise e
    end.
Proof. unfold bindM. now destruct (m w) as [[a|e] w']. Qed.

Lemma deref_open h comps w path root :
  handle_path h (open_handles w) = Some path ->
  dict_get (files w) path = Some root ->
  deref (h, comps) w
  = (match lookup_path root comps with
     | Some n => Ok n
     | None => Raise (KeyError (unresolved root comps))
     end, w).
Proof.
  intros Hh Hf. unfold deref. cbn [fst snd]. rewrite Hh, Hf.
  now destruct (lookup_path root comps).
Qed.

Lemma getitem_open h name w path root :
  handle_path h (open_handles w) = Some path ->
  dict_get (files w) path = Some root ->
  getitem h name w
  = (match node_at root name with
     | Ok _ => Ok (h, components name)
     | Raise e => Raise e
     end, w).
Proof.
  intros Hh Hf. unfold getitem, node_at. rewrite (deref_open h _ w path root Hh Hf).
  now destruct (lookup_path root (components name)).
Qed.

(** A [with] block on a file that exists, around a body that computes
    [r] from any world in which the handle is open on the path. *)
Lemma with_File_open {A : Type} path (body : nat -> M A) w root r :
  dict_get (files w) path = Some root ->
  (forall w1, handle_path (next_handle w) (open_handles w1) = Some path ->
              files w1 = files w -> body (next_handle w) w1 = (r, w1)) ->
  with_File path body w = (r, closed_after w path).
Proof.
  intros Hf Hbody. unfold with_File, File. rewrite Hf.
  rewrite Hbody; [reflexivity | | reflexivity].
  cbn [open_handles handle_path]. now rewrite Nat.eqb_refl.
Qed.

Lemma with_File_missing {A : Type} path (body : nat -> M A) w :
  dict_get (files w) path = None ->
  with_File path body w = (Raise (OSError path), w).
Proof. intros Hf. unfold with_File, File. now rewrite Hf. Qed.

(** *** Paths *)

Lemma components_app a b :
  components (a ++ String "/" b) = (components a ++ components b)%list.
Proof. unfold components. now rewrite split_app, filter_app. Qed.

Lemma components_plain name : plain name -> components name = [name].
Proof.
  intros (Hne & Hs & _). unfold components. rewrite (split_without "/" name Hs).
  cbn [filter]. destruct (String.eqb_spec name ""); [contradiction | reflexivity].
Qed.

Lemma components_group grid :
  components ("HDFEOS/GRIDS/" ++ grid ++ "/Data Fields/")
  = (["HDFEOS"; "GRIDS"] ++ components grid ++ ["Data Fields"])%list.
Proof.
  change ("HDFEOS/GRIDS/" ++ grid ++ "/Data Fields/")
    with ("HDFEOS" ++ String "/" ("GRIDS" ++ String "/" (grid ++ String "/" "Data Fields/"))).
  now rewrite !components_app.
Qed.

Lemma components_dataset grid variable :
  components (dataset_name grid variable)
  = (components ("HDFEOS/GRIDS/" ++ grid ++ "/Data Fields/") ++ components variable)%list.
Proof.
  rewrite components_group. unfold dataset_name.
  change ("HDFEOS/GRIDS/" ++ grid ++ "/Data Fields/" ++ variable)
    with ("HDFEOS" ++ String "/" ("GRIDS" ++ String "/"
            (grid ++ String "/" ("Data Fields" ++ String "/" variable)))).
  rewrite !components_app. now rewrite <- !app_assoc.
Qed.

Lemma lookup_path_app a : forall n b,
  lookup_path n (a ++ b)
  = match lookup_path n a with
    | Some m => lookup_path m b
    | None => None
    end.
Proof.
  induction a as [|x a IH]; intros n b; cbn [app lookup_path]; [reflexivity|].
  destruct n as [members ats | d]; [|reflexivity].
  destruct (dict_get members x); [apply IH | reflexivity].
Qed.

Lemma dict_get_in {V : Type} (d : list (string * V)) k v :
  dict_get d k = Some v -> In k (map fst d).
Proof.
  induction d as [|[k' v'] d IH]; cbn [dict_get map fst In]; [discriminate|].
  destruct (String.eqb_spec k k'); [now left | intros H; right; auto].
Qed.

(** A member found under a group is one of its keys. *)
Lemma member_listed n name m :
  lookup_path n (name :: m) <> None ->
  exists names, names_of n = Ok names /\ In name names.
Proof.
  cbn [lookup_path]. destruct n as [members ats | d]; [|congruence].
  destruct (dict_get members name) as [child|] eqn:E; [|congruence].
  intros _. exists (map fst members). split; [reflexivity | now apply dict_get_in in E].
Qed.

(** *** Reading through an open handle *)

Section OpenHandle.

Variables (h : nat) (w : world) (path : string) (root : h5node).
Hypothesis open : handle_path h (open_handles w) = Some path.
Hypothesis present : dict_get (files w) path = Some root.

Lemma keys_open name n :
  node_at root name = Ok n -> keys (h, components name) w = (names_of n, w).
Proof.
  unfold node_at, keys, bindM. rewrite (deref_open h _ w path root open present).
  destruct (lookup_path root (components name)); [|discriminate].
  intros [= ->]. now destruct n.
Qed.

Lemma shape0_open name n :
  node_at root name = Ok n -> shape0 (h, components name) w = (first_axis n, w).
Proof.
  unfold node_at, shape0, as_dataset, bindM.
  rewrite (deref_open h _ w path root open present).
  destruct (lookup_path root (components name)); [|discriminate].
  intros [= ->]. now destruct n.
Qed.

Lemma np_array_open name n :
  node_at root name = Ok n -> np_array (h, components name) w = (pixels_of n, w).
Proof.
  unfold node_at, np_array, bindM. rewrite (deref_open h _ w path root open present).
  destruct (lookup_path root (components name)); [|discriminate].
  intros [= ->]. now destruct n.
Qed.

Lemma attrs_dict_open name n :
  node_at root name = Ok n ->
  attrs_dict (h, components name) w = (Ok (attrs_of n), w).
Proof.
  unfold node_at, attrs_dict, bindM. rewrite (deref_open h _ w path root open present).
  destruct (lookup_path root (components name)); [|discriminate].
  intros [= ->]. now destruct n.
Qed.

End OpenHandle.

(** *** The operations as functions of the files *)

Section DecoderProperties.

Variable abspath_expanduser : string -> string.
Variable parse_VIIRS_tile : string -> result string.
Variable RasterGeometry : Type.
Variable generate_modland_grid : string -> nat -> result RasterGeometry.
Variable to_geometry :
  Raster RasterGeometry pixels -> RasterGeometry -> result (Raster RasterGeometry pixels).

Abbreviation tile := (tile parse_VIIRS_tile).
Abbreviation DN :=
  (DN abspath_expanduser parse_VIIRS_tile generate_modland_grid to_geometry).
Abbreviation attributes := (attributes abspath_expanduser).
Abbreviation layer :=
  (layer abspath_expanduser parse_VIIRS_tile generate_modland_grid to_geometry).
Abbreviation fill :=
  (fill abspath_expanduser parse_VIIRS_tile generate_modland_grid to_geometry).
Abbreviation path_of self := (abspath_expanduser (filename self)).

Lemma names_block self name w root :
  dict_get (files w) (path_of self) = Some root ->
  with_File (path_of self) (fun file => group <~ getitem file name ;; keys group) w
  = (n <- node_at root name ;; names_of n, closed_after w (path_of self)).
Proof.
  intros Hf. apply (with_File_open _ _ w root); [exact Hf|].
  intros w1 Hh Hfiles. rewrite <- Hfiles in Hf. unfold bindM.
  rewrite (getitem_open _ _ w1 _ root Hh Hf).
  destruct (node_at root name) as [n|e] eqn:En; cbn [bind]; [|reflexivity].
  apply (keys_open _ w1 _ root Hh Hf _ _ En).
Qed.

Lemma names_result self name w :
  fst (with_File (path_of self) (fun file => group <~ getitem file name ;; keys group) w)
  = from_file (files w) (path_of self) (fun root => n <- node_at root name ;; names_of n).
Proof.
  unfold from_file. destruct (dict_get (files w) (path_of self)) as [root|] eqn:Hf.
  - now rewrite (names_block self name w root Hf).
  - now rewrite with_File_missing.
Qed.

Lemma grids_result self w :
  fst (grids abspath_expanduser self w)
  = from_file (files w) (path_of self)
      (fun root => n <- node_at root "HDFEOS/GRIDS/" ;; names_of n).
Proof. apply (names_result self "HDFEOS/GRIDS/" w). Qed.

Lemma variables_result self grid w :
  fst (variables abspath_expanduser self grid w)
  = from_file (files w) (path_of self)
      (fun root => n <- node_at root ("HDFEOS/GRIDS/" ++ grid ++ "/Data Fields/") ;;
                   names_of n).
Proof. apply (names_result self ("HDFEOS/GRIDS/" ++ grid ++ "/Data Fields/") w). Qed.

Lemma DN_block self variable grid geometry w root :
  dict_get (files w) (path_of self) = Some root ->
  DN self variable grid geometry w
  = (raw <- read_DN parse_VIIRS_tile generate_modland_grid self variable grid root ;;
     match geometry with
     | Some target => to_geometry raw target
     | None => Ok raw
     end, closed_after w (path_of self)).
Proof.
  intros Hf. unfold VIIRS_tiled_granule.DN, filename_absolute. unfold bindM at 1.
  rewrite (with_File_open _ _ w root (read_DN parse_VIIRS_tile generate_modland_grid self variable grid root) Hf).
  - destruct (read_DN parse_VIIRS_tile generate_modland_grid self variable grid root) as [raw|e]; [|reflexivity].
    now destruct geometry.
  - intros w1 Hh Hfiles. rewrite <- Hfiles in Hf. unfold bindM, read_DN.
    fold (dataset_name grid variable).
    rewrite (getitem_open _ _ w1 _ root Hh Hf).
    destruct (node_at root (dataset_name grid variable)) as [n|e] eqn:En; cbn [bind];
      [|reflexivity].
    unfold lift at 1. destruct (tile self) as [t|e]; cbn [bind]; [|reflexivity].
    rewrite (shape0_open _ w1 _ root Hh Hf _ _ En).
    destruct (first_axis n) as [size|e]; cbn [bind]; [|reflexivity].
    unfold lift at 1. destruct (generate_modland_grid t size) as [g|e]; cbn [bind];
      [|reflexivity].
    rewrite (np_array_open _ w1 _ root Hh Hf _ _ En).
    now destruct (pixels_of n).
Qed.

Lemma DN_missing self variable grid geometry w :
  dict_get (files w) (path_of self) = None ->
  DN self variable grid geometry w = (Raise (OSError (path_of self)), w).
Proof.
  intros Hf. unfold VIIRS_tiled_granule.DN, bindM, filename_absolute.
  now rewrite with_File_missing.
Qed.

Lemma DN_result self variable grid geometry w :
  fst (DN self variable grid geometry w)
  = (raw <- from_file (files w) (path_of self) (read_DN parse_VIIRS_tile generate_modland_grid self variable grid) ;;
     match geometry with
     | Some target => to_geometry raw target
     | None => Ok raw
     end) /\
  files (snd (DN self variable grid geometry w)) = files w.
Proof.
  unfold from_file. destruct (dict_get (files w) (path_of self)) as [root|] eqn:Hf.
  - rewrite (DN_block self variable grid geometry w root Hf). split; reflexivity.
  - rewrite (DN_missing self variable grid geometry w Hf). split; reflexivity.
Qed.

Lemma attributes_block self variable grid w root :
  dict_get (files w) (path_of self) = Some root ->
  attributes self variable grid w
  = (n <- node_at root (dataset_name grid variable) ;; Ok (attrs_of n),
     closed_after w (path_of self)).
Proof.
  intros Hf. unfold VIIRS_tiled_granule.attributes, filename_absolute.
  apply (with_File_open _ _ w root); [exact Hf|].
  intros w1 Hh Hfiles. rewrite <- Hfiles in Hf. unfold bindM.
  fold (dataset_name grid variable).
  rewrite (getitem_open _ _ w1 _ root Hh Hf).
  destruct (node_at root (dataset_name grid variable)) as [n|e] eqn:En; cbn [bind];
    [|reflexivity].
  apply (attrs_dict_open _ w1 _ root Hh Hf _ _ En).
Qed.

Lemma attributes_result self variable grid w :
  fst (attributes self variable grid w)
  = from_file (files w) (path_of self)
      (fun root => n <- node_at root (dataset_name grid variable) ;; Ok (attrs_of n)) /\
  files (snd (attributes self variable grid w)) = files w.
Proof.
  unfold from_file. destruct (dict_get (files w) (path_of self)) as [root|] eqn:Hf.
  - rewrite (attributes_block self variable grid w root Hf). split; reflexivity.
  - unfold VIIRS_tiled_granule.attributes, filename_absolute.
    rewrite with_File_missing by exact Hf. split; reflexivity.
Qed.

(** [layer] and [fill]: the two reads, then a computation on what was
    read. *)
Lemma two_reads {A : Type} self variable grid geometry
    (compute : Raster RasterGeometry pixels -> list (string * attr) -> result A) w :
  fst ((raw <~ DN self variable grid geometry ;;
        attrs <~ attributes self variable grid ;;
        lift (compute raw attrs)) w)
  = (raw <- fst (DN self variable grid geometry w) ;;
     attrs <- from_file (files w) (path_of self)
                (fun root => n <- node_at root (dataset_name grid variable) ;;
                             Ok (attrs_of n)) ;;
     compute raw attrs).
Proof.
  rewrite fst_bindM. destruct (DN_result self variable grid geometry w) as [_ Hfiles].
  destruct (fst (DN self variable grid geometry w)) as [raw|e]; cbn [bind]; [|reflexivity].
  rewrite fst_bindM.
  destruct (attributes_result self variable grid (snd (DN self variable grid geometry w)))
    as [-> _].
  rewrite Hfiles.
  now destruct (from_file (files w) (path_of self) _).
Qed.

(** A dataset that is there: what the two reads give. *)
Lemma DN_dataset self variable grid w root d t size g :
  dict_get (files w) (path_of self) = Some root ->
  lookup_path root (components (dataset_name grid variable)) = Some (H5Dataset d) ->
  tile self = Ok t ->
  nth_error (shape (ds_array d)) 0 = Some size ->
  generate_modland_grid t size = Ok g ->
  DN self variable grid None w
  = (new_Raster (ds_array d) g, closed_after w (path_of self)).
Proof.
  intros Hf Hn Ht Hs Hg. rewrite (DN_block self variable grid None w root Hf).
  unfold read_DN, node_at, first_axis, pixels_of, index.
  rewrite Hn. cbn [bind]. rewrite Ht. cbn [bind]. rewrite Hs. cbn [bind]. rewrite Hg.
  cbn [bind]. now destruct (new_Raster (ds_array d) g).
Qed.

Lemma attributes_dataset self variable grid w root d :
  dict_get (files w) (path_of self) = Some root ->
  lookup_path root (components (dataset_name grid variable)) = Some (H5Dataset d) ->
  attributes self variable grid w = (Ok (ds_attrs d), closed_after w (path_of self)).
Proof.
  intros Hf Hn. rewrite (attributes_block self variable grid w root Hf).
  unfold node_at. now rewrite Hn.
Qed.

(** *** Handles *)

Lemma grids_releases self : releases (grids abspath_expanduser self).
Proof.
  apply with_File_releases. intros file.
  apply quiet_bind; [apply quiet_getitem | intros; apply quiet_keys].
Qed.

Lemma variables_releases self grid : releases (variables abspath_expanduser self grid).
Proof.
  apply with_File_releases. intros file.
  apply quiet_bind; [apply quiet_getitem | intros; apply quiet_keys].
Qed.

Lemma DN_releases self variable grid geometry :
  releases (DN self variable grid geometry).
Proof.
  apply releases_bind.
  - apply with_File_releases. intros file.
    apply quiet_bind; [apply quiet_getitem | intros dataset].
    apply quiet_bind; [apply quiet_lift | intros tile].
    apply quiet_bind; [apply quiet_shape0 | intros tile_size].
    apply quiet_bind; [apply quiet_lift | intros DN_geometry].
    apply quiet_bind; [apply quiet_np_array | intros DN_array].
    apply quiet_lift.
  - intros raw. apply releases_quiet. destruct geometry; [apply quiet_lift | apply quiet_ret].
Qed.

Lemma attributes_releases self variable grid :
  releases (attributes self variable grid).
Proof.
  apply with_File_releases. intros file.
  apply quiet_bind; [apply quiet_getitem | intros; apply quiet_attrs_dict].
Qed.

Lemma new_Raster_ok {A : Type} `{Shaped A} (a : A) (g : RasterGeometry) r :
  new_Raster a g = Ok r <-> List.length (shape a) = 2%nat /\ r = mkRaster a g.
Proof.
  unfold new_Raster. destruct (Nat.eqb_spec (List.length (shape a)) 2); split.
  - intros [= <-]. now split.
  - now intros [_ ->].
  - discriminate.
  - intros [H0 _]. contradiction.
Qed.

(** When [DN] returns, the dataset was there, with two dimensions, and
    the raster is its array on the grid of the tile, or what
    reprojection made of that. *)
Lemma DN_inversion self variable grid geometry w raw w1 :
  DN self variable grid geometry w = (Ok raw, w1) ->
  exists root d t size g,
    dict_get (files w) (path_of self) = Some root /\
    lookup_path root (components (dataset_name grid variable)) = Some (H5Dataset d) /\
    tile self = Ok t /\
    nth_error (shape (ds_array d)) 0 = Some size /\
    generate_modland_grid t size = Ok g /\
    List.length (shape (ds_array d)) = 2%nat /\
    w1 = closed_after w (path_of self) /\
    match geometry with
    | Some target => to_geometry (mkRaster (ds_array d) g) target = Ok raw
    | None => raw = mkRaster (ds_array d) g
    end.
Proof.
  intros H. destruct (dict_get (files w) (path_of self)) as [root|] eqn:Hf.
  2:{ rewrite (DN_missing self variable grid geometry w Hf) in H. discriminate. }
  rewrite (DN_block self variable grid geometry w root Hf) in H.
  injection H as H <-.
  unfold read_DN, node_at, first_axis, pixels_of, index in H.
  destruct (lookup_path root (components (dataset_name grid variable)))
    as [[ms ats | d]|] eqn:En; cbn [bind] in H.
  - destruct (tile self); cbn [bind] in H; discriminate.
  - destruct (tile self) as [t|] eqn:Et; cbn [bind] in H; [|discriminate].
    destruct (nth_error (shape (ds_array d)) 0) as [size|] eqn:Es; cbn [bind] in H;
      [|discriminate].
    destruct (generate_modland_grid t size) as [g|] eqn:Eg; cbn [bind] in H; [|discriminate].
    destruct (new_Raster (ds_array d) g) as [r|] eqn:Er; cbn [bind] in H; [|discriminate].
    apply new_Raster_ok in Er. destruct Er as [Hd ->].
    exists root, d, t, size, g. do 7 (split; [reflexivity || assumption|]).
    destruct geometry; [exact H | now injection H].
  - discriminate.
Qed.

(** ** The granule decoder *)

(** C9. Each of [grids], [variables], [DN], [attributes], [layer] and
    [fill] releases what it acquires: started in any world whose open
    handles are older than the next one, it ends, by returning or by
    raising, with the same files and the same handles open as before,
    and all it did to files was to open and at once close them, one
    pair per [with] block it ran. The object itself has only the
    fields [_filename] and [_cloud_mask] and is not changed by any
    operation, so it holds no handle between calls. *)
Theorem file_released self variable grid fill_value scale offset valid_min valid_max geometry :
  releases (grids abspath_expanduser self) /\
  releases (variables abspath_expanduser self grid) /\
  releases (DN self variable grid geometry) /\
  releases (attributes self variable grid) /\
  releases (layer self variable grid fill_value scale offset valid_min valid_max geometry) /\
  releases (fill self variable grid fill_value geometry).
Proof.
  split; [apply grids_releases|].
  split; [apply variables_releases|].
  split; [apply DN_releases|].
  split; [apply attributes_releases|].
  split.
  - apply releases_bind; [apply DN_releases | intros raw].
    apply releases_bind; [apply attributes_releases | intros attrs].
    apply releases_quiet, quiet_lift.
  - apply releases_bind; [apply DN_releases | intros raw].
    apply releases_bind; [apply attributes_releases | intros attrs].
    apply releases_quiet, quiet_lift.
Qed.

(** C2. After the raw array and the attributes are read, the
    attributes are those the file holds for the dataset and, without a
    target geometry, the raw array is the stored one. When a fill
    value is supplied, or else is found in the attributes, the
    supplied one winning: the mask is shaped and georeferenced like
    the raw array and is true exactly at the elements equal to that
    fill value, integers being compared exactly; only a
    floating-point array with a fill value beyond the binary64 range
    makes the comparison raise [OverflowError]. When none is supplied
    and none is found, the operation does not raise on a raw array of
    two dimensions (which every array read without a target geometry
    is): the mask is shaped like the raw array and false at every
    element. *)
Theorem validity_mask self variable grid fill_value geometry w raw w1 attrs w2 :
  DN self variable grid geometry w = (Ok raw, w1) ->
  attributes self variable grid w1 = (Ok attrs, w2) ->
  (exists root d,
     dict_get (files w) (path_of self) = Some root /\
     lookup_path root (components (dataset_name grid variable)) = Some (H5Dataset d) /\
     attrs = ds_attrs d /\
     (geometry = None ->
      array raw = ds_array d /\ List.length (shape (array raw)) = 2%nat)) /\
  (forall f,
     fill_value = Some f \/
     (fill_value = None /\
      exists a, dict_get attrs "_Fillvalue" = Some a /\ int_of_attr a = Ok f) ->
     (comparable (array raw) f = true ->
      exists mask,
        fill self variable grid fill_value geometry w = (Ok mask, w2) /\
        shape (array mask) = shape (array raw) /\
        VIIRS_tiled_granule.geometry mask = VIIRS_tiled_granule.geometry raw /\
        forall i, nth_error (data (array mask)) i
                  = option_map (meets IsEqual f) (nth_error (elements (array raw)) i)) /\
     (comparable (array raw) f = false ->
      fill self variable grid fill_value geometry w = (Raise OverflowError, w2))) /\
  (fill_value = None -> dict_get attrs "_Fillvalue" = None ->
   List.length (shape (array raw)) = 2%nat ->
   exists mask,
     fill self variable grid fill_value geometry w = (Ok mask, w2) /\
     shape (array mask) = shape (array raw) /\
     VIIRS_tiled_granule.geometry mask = VIIRS_tiled_granule.geometry raw /\
     data (array mask) = repeat false (fold_right Nat.mul 1%nat (shape (array raw)))).
Proof.
  intros HDN Hattrs. split; [|split].
  - destruct (DN_inversion _ _ _ _ _ _ _ HDN)
      as (root & d & t & size & g & Hf & Hn & _ & _ & _ & Hd & -> & Hraw).
    exists root, d. do 2 (split; [assumption|]). split.
    + rewrite (attributes_dataset self variable grid _ root d) in Hattrs by assumption.
      now injection Hattrs.
    + intros ->. subst raw. now split.
  - intros f Hfill. unfold VIIRS_tiled_granule.fill, bindM. rewrite HDN, Hattrs. unfold lift.
    assert (Hres : or_attribute fill_value attrs "_Fillvalue" int_of_attr = Ok (Some f)).
    { destruct Hfill as [-> | (-> & a & Ha & Hi)]; [apply or_attribute_explicit|].
      unfold or_attribute. now rewrite Ha, Hi. }
    rewrite Hres. cbn [bind]. rewrite compare_cases. split; intros ->; cbn [bind].
    + eexists. split; [reflexivity|]. cbn [array VIIRS_tiled_granule.geometry data].
      repeat split. intros i. apply nth_error_map.
    + reflexivity.
  - intros -> Ha Hd. unfold VIIRS_tiled_granule.fill, bindM. rewrite HDN, Hattrs.
    unfold lift, or_attribute. rewrite Ha. cbn [bind].
    unfold new_Raster. change (shape (np_full (shape raw) false)) with (shape (array raw)).
    rewrite Hd. cbn [Nat.eqb]. eexists. split; [reflexivity|]. repeat split.
Qed.

(** C10. When the calibrated layer is returned, it is the rescaling
    of the array [masked] the masking stages produced from the raw
    array, of the same shape; every raw element equal to the fill
    value, below the minimum or above the maximum is NaN in [masked];
    and every element that is NaN in [masked] is NaN in the result,
    whatever the scale and the offset. *)
Theorem masked_stays_masked self variable grid fill_value scale offset
    valid_min valid_max geometry w out w' :
  layer self variable grid fill_value scale offset valid_min valid_max geometry w
    = (Ok out, w') ->
  exists raw w1 attrs masked f lo hi,
    DN self variable grid geometry w = (Ok raw, w1) /\
    attributes self variable grid w1 = (Ok attrs, w') /\
    or_attribute fill_value attrs "_Fillvalue" int_of_attr = Ok f /\
    or_attribute valid_min attrs "valid_range"
      (fun a => x <- attr_item a 0 ;; int_of_attr x) = Ok lo /\
    or_attribute valid_max attrs "valid_range"
      (fun a => x <- attr_item a 1 ;; int_of_attr x) = Ok hi /\
    mask_stages raw attrs fill_value valid_min valid_max = Ok masked /\
    rescale_stages masked attrs scale offset = Ok out /\
    shape (array out) = shape (array masked) /\
    (forall i x, nth_error (elements (array raw)) i = Some x ->
       excluded f lo hi x = true ->
       exists y, nth_error (elements (array masked)) i = Some y /\ no_data y = true) /\
    (forall i x, nth_error (elements (array masked)) i = Some x ->
       no_data x = true ->
       exists y, nth_error (elements (array out)) i = Some y /\ no_data y = true).
Proof.
  unfold VIIRS_tiled_granule.layer, bindM, lift. intros H.
  destruct (DN self variable grid geometry w) as [[raw | e] w1] eqn:HDN; [|discriminate].
  destruct (attributes self variable grid w1) as [[attrs | e] w2] eqn:Hattrs; [|discriminate].
  injection H as H <-.
  destruct (mask_stages raw attrs fill_value valid_min valid_max) as [masked | e] eqn:Hmask;
    cbn [bind] in H; [|discriminate].
  destruct (mask_stages_elements _ _ _ _ _ _ Hmask) as (f & lo & hi & Hf & Hlo & Hhi & _ & _ & Dm).
  destruct (rescale_stages_elements _ _ _ _ _ H) as (s & o & _ & _ & Sr & _ & Dr).
  exists raw, w1, attrs, masked, f, lo, hi.
  do 7 (split; [reflexivity || assumption|]).
  split; [exact Sr|]. split.
  - intros i x Hx Hex. rewrite Dm, nth_error_map, Hx. cbn [option_map].
    eexists. split; [reflexivity|]. now apply masked_excluded.
  - intros i x Hx Hnan. rewrite Dr, nth_error_map, Hx. cbn [option_map].
    eexists. split; [reflexivity|]. now apply rescaled_no_data.
Qed.

(** C1. (1) The calibrated layer is the raw array, read with its
    attributes, put through the pipeline of the specification: the
    five stages fill masking, low clamp, high clamp, rescale, offset
    in that order, each run exactly when its parameter is supplied or
    found in the attributes. Without a target geometry the raw array
    and the attributes are those the file holds for the dataset.
    (2) When the body returns, every element of the result is the raw
    element put through the five stages with the parameters as
    resolved, a supplied one winning over the attribute. (3) With all
    five parameters supplied the attributes are not consulted. (4)
    With no parameter supplied and no attribute the array is returned
    as read. (5) For stored integers [fill, min - 1, min, max, max + 1]
    (of magnitude below [2^53]) with scale 2 and offset 1, given as
    [int] or as [float], the result is a float64 array in which the
    fill position, the position below the minimum and the position
    above the maximum are no-data, and the minimum and the maximum,
    unless equal to the fill value or outside the range, become
    [v * 2 + 1]. *)
Theorem calibrated_layer self variable grid fill_value scale offset valid_min valid_max
    geometry w (g : RasterGeometry) (t : int_type) (f lo hi : Z) :
  Z.abs f < 2 ^ 53 -> Z.abs (lo - 1) < 2 ^ 53 -> Z.abs lo < 2 ^ 53 ->
  Z.abs hi < 2 ^ 53 -> Z.abs (hi + 1) < 2 ^ 53 ->
  (layer self variable grid fill_value scale offset valid_min valid_max geometry w
   = (raw <~ DN self variable grid geometry ;;
      attributes <~ attributes self variable grid ;;
      lift (calibration_pipeline raw attributes fill_value scale offset
              valid_min valid_max)) w /\
   forall root d tl size g0,
     dict_get (files w) (path_of self) = Some root ->
     lookup_path root (components (dataset_name grid variable)) = Some (H5Dataset d) ->
     tile self = Ok tl ->
     nth_error (shape (ds_array d)) 0 = Some size ->
     generate_modland_grid tl size = Ok g0 ->
     List.length (shape (ds_array d)) = 2%nat ->
     fst (layer self variable grid fill_value scale offset valid_min valid_max None w)
     = calibration_pipeline (mkRaster (ds_array d) g0) (ds_attrs d)
         fill_value scale offset valid_min valid_max) /\
  (forall (raw out : Raster RasterGeometry pixels) attrs,
     (layer <- mask_stages raw attrs fill_value valid_min valid_max ;;
      rescale_stages layer attrs scale offset) = Ok out ->
     exists f' lo' hi' s o,
       parameter fill_value (discover attrs "_Fillvalue" int_of_attr) = Ok f' /\
       parameter valid_min (discover attrs "valid_range"
                              (fun a => x <- attr_item a 0 ;; int_of_attr x)) = Ok lo' /\
       parameter valid_max (discover attrs "valid_range"
                              (fun a => x <- attr_item a 1 ;; int_of_attr x)) = Ok hi' /\
       parameter scale (discover attrs "scale_factor" pyfloat_of_attr) = Ok s /\
       parameter offset (discover attrs "add_offset" pyfloat_of_attr) = Ok o /\
       shape (array out) = shape (array raw) /\
       VIIRS_tiled_granule.geometry out = VIIRS_tiled_granule.geometry raw /\
       elements (array out)
       = map (run (five_stages f' lo' hi' s o)) (elements (array raw))) /\
  (forall (raw : Raster RasterGeometry pixels) attrs attrs' s o,
     (layer <- mask_stages raw attrs (Some f) (Some lo) (Some hi) ;;
      rescale_stages layer attrs (Some s) (Some o))
     = (layer <- mask_stages raw attrs' (Some f) (Some lo) (Some hi) ;;
        rescale_stages layer attrs' (Some s) (Some o))) /\
  (forall raw : Raster RasterGeometry pixels,
     (layer <- mask_stages raw [] None None None ;;
      rescale_stages layer [] None None) = Ok raw) /\
  (forall attrs s o,
     In s [PyInt 2; PyFloat 2%float] -> In o [PyInt 1; PyFloat 1%float] ->
     (layer <- mask_stages (mkRaster (Integers t (mkarray [5%nat]
                              [f; lo - 1; lo; hi; hi + 1])) g)
                 attrs (Some f) (Some lo) (Some hi) ;;
      rescale_stages layer attrs (Some s) (Some o))
     = Ok (mkRaster (Float64 (mkarray [5%nat]
             [ nan; nan;
               if (lo =? f) || (hi <? lo) then nan else (float_of_Z lo * 2 + 1)%float;
               if (hi =? f) || (hi <? lo) then nan else (float_of_Z hi * 2 + 1)%float;
               nan ])) g)).
Proof.
  intros Hf Hlo Hlo' Hhi' Hhi.
  assert (Hlayer : forall geo,
    layer self variable grid fill_value scale offset valid_min valid_max geo w
    = (raw <~ DN self variable grid geo ;;
       attributes <~ attributes self variable grid ;;
       lift (calibration_pipeline raw attributes fill_value scale offset
               valid_min valid_max)) w).
  { intros geo. unfold VIIRS_tiled_granule.layer, bindM, lift.
    destruct (DN self variable grid geo w) as [[raw | e] w1]; [|reflexivity].
    destruct (attributes self variable grid w1) as [[attributes | e] w2]; [|reflexivity].
    now rewrite calibration_refines. }
  split; [split|split; [|split; [|split]]].
  - apply Hlayer.
  - intros root d tl size g0 Hroot Hd Ht Hs Hg H2. rewrite Hlayer. unfold bindM.
    rewrite (DN_dataset self variable grid w root d tl size g0) by assumption.
    unfold new_Raster. rewrite H2. cbn [Nat.eqb].
    rewrite (attributes_dataset self variable grid _ root d) by assumption.
    reflexivity.
  - intros raw out attrs H. rewrite calibration_refines in H.
    now apply calibration_elements.
  - intros raw attrs attrs' s o. unfold mask_stages, rescale_stages.
    now rewrite !or_attribute_explicit.
  - intros raw. reflexivity.
  - intros attrs s o Hs Ho. unfold mask_stages, rescale_stages.
    rewrite !or_attribute_explicit. cbn [bind].
    rewrite where_test_Integers. cbn [bind].
    rewrite where_test_Float64, double_of_int_small by assumption. cbn [bind].
    rewrite where_test_Float64, double_of_int_small by assumption. cbn [bind].
    assert (Es : float_of_pynumber s = Ok 2%float)
      by (destruct Hs as [<- | [<- | []]]; reflexivity).
    assert (Eo : float_of_pynumber o = Ok 1%float)
      by (destruct Ho as [<- | [<- | []]]; reflexivity).
    unfold times, plus, multiply, add.
    cbn [array arithmetic VIIRS_tiled_granule.geometry]. rewrite Es. cbn [bind].
    cbn [array arithmetic VIIRS_tiled_granule.geometry]. rewrite Eo. cbn [bind].
    unfold array_map. cbn [data dims map test_int test_float].
    rewrite !example_value by assumption.
    do 4 f_equal. repeat (f_equal; [|]).
    + now rewrite Z.eqb_refl.
    + replace (lo - 1 <? lo) with true by (symmetry; apply Z.ltb_lt; lia).
      now rewrite orb_true_r.
    + rewrite Z.ltb_irrefl, orb_false_r. reflexivity.
    + rewrite Z.ltb_irrefl, orb_false_r.
      destruct (hi =? f), (Z.ltb_spec hi lo); reflexivity.
    + replace (hi <? hi + 1) with true by (symmetry; apply Z.ltb_lt; lia).
      now rewrite orb_true_r.
Qed.

(** ** The granule decoder: what is read *)

(** X14. What an operation returns or raises depends on the files
    only: in two worlds with the same files, whatever handles are open
    and whatever happened before, each of [grids], [variables], [DN],
    [attributes], [layer] and [fill] has the same outcome. As no
    operation changes the files, a call repeated, or made after any
    other call, gives what it gave first. *)
Theorem results_depend_on_files self variable grid fill_value scale offset
    valid_min valid_max geometry w1 w2 :
  files w1 = files w2 ->
  fst (grids abspath_expanduser self w1) = fst (grids abspath_expanduser self w2) /\
  fst (variables abspath_expanduser self grid w1)
    = fst (variables abspath_expanduser self grid w2) /\
  fst (DN self variable grid geometry w1) = fst (DN self variable grid geometry w2) /\
  fst (attributes self variable grid w1) = fst (attributes self variable grid w2) /\
  fst (layer self variable grid fill_value scale offset valid_min valid_max geometry w1)
    = fst (layer self variable grid fill_value scale offset valid_min valid_max geometry w2) /\
  fst (fill self variable grid fill_value geometry w1)
    = fst (fill self variable grid fill_value geometry w2).
Proof.
  intros E.
  assert (HDN : fst (DN self variable grid geometry w1)
                = fst (DN self variable grid geometry w2)).
  { rewrite (proj1 (DN_result self variable grid geometry w1)),
      (proj1 (DN_result self variable grid geometry w2)). now rewrite E. }
  split; [now rewrite !grids_result, E|].
  split; [now rewrite !variables_result, E|].
  split; [exact HDN|].
  split.
  { rewrite (proj1 (attributes_result self variable grid w1)),
      (proj1 (attributes_result self variable grid w2)). now rewrite E. }
  unfold VIIRS_tiled_granule.layer, VIIRS_tiled_granule.fill.
  rewrite !two_reads, HDN, E. split; reflexivity.
Qed.

(** X15. On a path where there is no file, each of the six operations
    raises [OSError] for the absolute path and leaves the world as it
    was: nothing is opened, so nothing is recorded. *)
Theorem missing_file self variable grid fill_value scale offset
    valid_min valid_max geometry w :
  dict_get (files w) (path_of self) = None ->
  grids abspath_expanduser self w = (Raise (OSError (path_of self)), w) /\
  variables abspath_expanduser self grid w = (Raise (OSError (path_of self)), w) /\
  DN self variable grid geometry w = (Raise (OSError (path_of self)), w) /\
  attributes self variable grid w = (Raise (OSError (path_of self)), w) /\
  layer self variable grid fill_value scale offset valid_min valid_max geometry w
    = (Raise (OSError (path_of self)), w) /\
  fill self variable grid fill_value geometry w = (Raise (OSError (path_of self)), w).
Proof.
  intros Hf.
  pose proof (DN_missing self variable grid geometry w Hf) as HDN.
  unfold grids, variables, VIIRS_tiled_granule.attributes, VIIRS_tiled_granule.layer,
    VIIRS_tiled_granule.fill, filename_absolute, bindM.
  rewrite HDN, !with_File_missing by exact Hf. repeat split.
Qed.


(** X17. What can be read has been listed. For a grid and a variable
    that are plain names: when [variables] returns for the grid, the
    grid is among the names [grids] returns; and when [DN] or
    [attributes] returns for the variable, the variable is among the
    names [variables] returns for its grid. *)
Theorem listed_before_read self variable grid geometry w :
  plain grid -> plain variable ->
  (forall names, fst (variables abspath_expanduser self grid w) = Ok names ->
     exists listed, fst (grids abspath_expanduser self w) = Ok listed /\ In grid listed) /\
  (forall raw, fst (DN self variable grid geometry w) = Ok raw ->
     exists listed, fst (variables abspath_expanduser self grid w) = Ok listed /\
                    In variable listed) /\
  (forall attrs, fst (attributes self variable grid w) = Ok attrs ->
     exists listed, fst (variables abspath_expanduser self grid w) = Ok listed /\
                    In variable listed).
Proof.
  intros Hgrid Hvariable.
  rewrite grids_result, variables_result, (proj1 (DN_result self variable grid geometry w)),
    (proj1 (attributes_result self variable grid w)).
  unfold from_file, read_DN, node_at.
  destruct (dict_get (files w) (path_of self)) as [root|]; cbn [bind];
    [|repeat split; discriminate].
  rewrite components_dataset, components_group, (components_plain grid Hgrid),
    (components_plain variable Hvariable).
  change (components "HDFEOS/GRIDS/") with ["HDFEOS"; "GRIDS"].
  assert (member : forall group e,
            lookup_path root (group ++ [variable]) <> None ->
            exists listed,
              (n <- match lookup_path root group with
                    | Some n => Ok n
                    | None => Raise e
                    end ;; names_of n) = Ok listed /\ In variable listed).
  { intros group e H. rewrite lookup_path_app in H.
    destruct (lookup_path root group) as [n|]; [|congruence]. cbn [bind].
    now apply (member_listed n variable []). }
  split; [|split].
  - intros names H.
    change (["HDFEOS"; "GRIDS"] ++ [grid] ++ ["Data Fields"])%list
      with (["HDFEOS"; "GRIDS"] ++ grid :: ["Data Fields"])%list in H.
    rewrite lookup_path_app in H.
    destruct (lookup_path root ["HDFEOS"; "GRIDS"]) as [n|]; [|discriminate]. cbn [bind].
    apply (member_listed n grid ["Data Fields"]).
    destruct (lookup_path n (grid :: ["Data Fields"])); [discriminate | discriminate H].
  - intros raw H. apply member.
    destruct (lookup_path root _); [discriminate | discriminate H].
  - intros attrs H. apply member.
    destruct (lookup_path root _); [discriminate | discriminate H].
Qed.


(** X19. The calibrated layer has the shape and the georeference of
    what [DN] returned, and every element of it is the raw element put
    through the stages with the parameters as resolved: no-data when
    the raw element equals the fill value, is below the minimum or is
    above the maximum, and otherwise the raw element, as float64 if it
    is an integer and a mask was applied, times the scale plus the
    offset, a factor or a term that is absent being left out. The
    arithmetic is that of the element type: an integer array that no
    mask was applied to stays an integer array under an [int] scale
    or offset and wraps around, float32 stays float32. For a stored
    integer and parameters of magnitude below [2^53] the three tests
    are the exact ones on integers. *)
Theorem layer_pixels self variable grid fill_value scale offset
    valid_min valid_max geometry w out w' :
  layer self variable grid fill_value scale offset valid_min valid_max geometry w
    = (Ok out, w') ->
  exists raw w1 attrs f lo hi s o,
    DN self variable grid geometry w = (Ok raw, w1) /\
    attributes self variable grid w1 = (Ok attrs, w') /\
    or_attribute fill_value attrs "_Fillvalue" int_of_attr = Ok f /\
    or_attribute valid_min attrs "valid_range"
      (fun a => x <- attr_item a 0 ;; int_of_attr x) = Ok lo /\
    or_attribute valid_max attrs "valid_range"
      (fun a => x <- attr_item a 1 ;; int_of_attr x) = Ok hi /\
    or_attribute scale attrs "scale_factor" pyfloat_of_attr = Ok s /\
    or_attribute offset attrs "add_offset" pyfloat_of_attr = Ok o /\
    shape (array out) = shape (array raw) /\
    VIIRS_tiled_granule.geometry out = VIIRS_tiled_granule.geometry raw /\
    (forall i x, nth_error (elements (array raw)) i = Some x ->
       exists y,
         nth_error (elements (array out)) i = Some y /\
         if excluded f lo hi x then no_data y = true
         else y = stage o add_offset (stage s rescale (seen hi (seen lo (seen f x))))) /\
    (forall i, nth_error (elements (array raw)) i = None ->
       nth_error (elements (array out)) i = None) /\
    (forall t z, Z.abs z < 2 ^ 53 ->
       (forall n, In (Some n) [f; lo; hi] -> Z.abs n < 2 ^ 53) ->
       excluded f lo hi (Stored t z)
       = match f with Some n => z =? n | None => false end
         || match lo with Some n => z <? n | None => false end
         || match hi with Some n => n <? z | None => false end).
Proof.
  unfold VIIRS_tiled_granule.layer, bindM, lift. intros H.
  destruct (DN self variable grid geometry w) as [[raw | e] w1] eqn:HDN; [|discriminate].
  destruct (attributes self variable grid w1) as [[attrs | e] w2] eqn:Hattrs; [|discriminate].
  injection H as H <-.
  destruct (mask_stages raw attrs fill_value valid_min valid_max) as [masked | e] eqn:Hmask;
    cbn [bind] in H; [|discriminate].
  destruct (mask_stages_elements _ _ _ _ _ _ Hmask)
    as (f & lo & hi & Hf & Hlo & Hhi & Sm & Gm & Dm).
  destruct (rescale_stages_elements _ _ _ _ _ H) as (s & o & Hs & Ho & Sr & Gr & Dr).
  exists raw, w1, attrs, f, lo, hi, s, o.
  do 7 (split; [reflexivity || assumption|]).
  split; [congruence|]. split; [congruence|]. split; [|split].
  - intros i x Hx. rewrite Dr, Dm, map_map, nth_error_map, Hx. cbn [option_map].
    eexists. split; [reflexivity|].
    destruct (excluded f lo hi x) eqn:E.
    + now apply rescaled_no_data, masked_excluded.
    + now rewrite masked_not_excluded.
  - intros i Hx. now rewrite Dr, Dm, map_map, nth_error_map, Hx.
  - intros t z. apply excluded_stored.
Qed.

(** X20. The mask and the layer agree: when [fill] and [layer] both
    return for the same variable, fill value and geometry, every
    element the mask holds true is no-data in the layer, whatever the
    other parameters of the layer. *)
Theorem fill_marks_nodata self variable grid fill_value scale offset
    valid_min valid_max geometry w mask w' out w'' :
  fill self variable grid fill_value geometry w = (Ok mask, w') ->
  layer self variable grid fill_value scale offset valid_min valid_max geometry w
    = (Ok out, w'') ->
  forall i, nth_error (data (array mask)) i = Some true ->
    exists y, nth_error (elements (array out)) i = Some y /\ no_data y = true.
Proof.
  unfold VIIRS_tiled_granule.fill, VIIRS_tiled_granule.layer, bindM, lift.
  destruct (DN self variable grid geometry w) as [[raw | e] w1]; [|discriminate].
  destruct (attributes self variable grid w1) as [[attrs | e] w2]; [|discriminate].
  intros Hfill H. injection H as H _.
  destruct (mask_stages raw attrs fill_value valid_min valid_max) as [masked | e] eqn:Hmask;
    cbn [bind] in H; [|discriminate].
  destruct (mask_stages_elements _ _ _ _ _ _ Hmask) as (f & lo & hi & Hf & _ & _ & _ & _ & Dm).
  destruct (rescale_stages_elements _ _ _ _ _ H) as (s & o & _ & _ & _ & _ & Dr).
  rewrite Hf in Hfill. cbn [bind] in Hfill. intros i Hi.
  destruct f as [f|].
  - rewrite compare_cases in Hfill.
    destruct (comparable (array raw) f); cbn [bind] in Hfill; [|discriminate].
    injection Hfill as <- _. cbn [array data] in Hi. rewrite nth_error_map in Hi.
    destruct (nth_error (elements (array raw)) i) as [x|] eqn:Ex; [|discriminate].
    injection Hi as Hx.
    rewrite Dr, Dm, map_map, nth_error_map, Ex. cbn [option_map].
    eexists. split; [reflexivity|].
    apply rescaled_no_data, masked_excluded. unfold excluded. cbn [hit]. now rewrite Hx.
  - unfold new_Raster in Hfill.
    destruct (List.length (shape (np_full (shape raw) false)) =? 2)%nat; [|discriminate].
    injection Hfill as <- _. exfalso. cbn in Hi.
    apply nth_error_In, repeat_spec in Hi. discriminate.
Qed.

(** X21. A fill attribute that is not a number stops both readers:
    when the raw array and the attributes are read and the conversion
    of the [_Fillvalue] attribute to an integer raises, [layer] and
    [fill] called without a fill value raise that exception and
    return nothing; [fill] called with a fill value of its own does
    not look at the attribute and returns the mask of that value, or
    raises [OverflowError] if the array cannot be compared with it. *)
Theorem unreadable_fill self variable grid scale offset valid_min valid_max geometry
    w raw w1 attrs w2 a e :
  DN self variable grid geometry w = (Ok raw, w1) ->
  attributes self variable grid w1 = (Ok attrs, w2) ->
  dict_get attrs "_Fillvalue" = Some a ->
  int_of_attr a = Raise e ->
  layer self variable grid None scale offset valid_min valid_max geometry w = (Raise e, w2) /\
  fill self variable grid None geometry w = (Raise e, w2) /\
  forall f, fill self variable grid (Some f) geometry w
            = (if comparable (array raw) f
               then Ok (mkRaster
                          (mkarray (shape (array raw))
                             (map (meets IsEqual f) (elements (array raw))))
                          (VIIRS_tiled_granule.geometry raw))
               else Raise OverflowError, w2).
Proof.
  intros HDN Hattrs Ha He.
  unfold VIIRS_tiled_granule.layer, VIIRS_tiled_granule.fill, bindM, lift.
  rewrite HDN, Hattrs. unfold mask_stages, or_attribute. rewrite Ha, He. cbn [bind].
  repeat split. intros f. rewrite compare_cases.
  now destruct (comparable (array raw) f).
Qed.

(** X22. [layer] and [fill] read the file twice. On a file that is
    there, a call opens and closes it once for the pixels and, when
    [DN] has returned, once more for the attributes, with the next two
    handles; when [DN] raises, the attributes are not read and the
    file is not opened again. *)
Theorem reads_file_twice self variable grid fill_value scale offset
    valid_min valid_max geometry w root :
  dict_get (files w) (path_of self) = Some root ->
  let first := [Opened (next_handle w) (path_of self); Closed (next_handle w)] in
  let second := [Opened (S (next_handle w)) (path_of self); Closed (S (next_handle w))] in
  (forall raw, fst (DN self variable grid geometry w) = Ok raw ->
     history (snd (layer self variable grid fill_value scale offset valid_min valid_max
                     geometry w))
       = (history w ++ first ++ second)%list /\
     history (snd (fill self variable grid fill_value geometry w))
       = (history w ++ first ++ second)%list) /\
  (forall e, fst (DN self variable grid geometry w) = Raise e ->
     history (snd (layer self variable grid fill_value scale offset valid_min valid_max
                     geometry w))
       = (history w ++ first)%list /\
     history (snd (fill self variable grid fill_value geometry w))
       = (history w ++ first)%list).
Proof.
  intros Hf first second.
  unfold VIIRS_tiled_granule.layer, VIIRS_tiled_granule.fill, bindM.
  rewrite (DN_block self variable grid geometry w root Hf). cbn [fst].
  destruct (raw <- read_DN parse_VIIRS_tile generate_modland_grid self variable grid root ;;
            match geometry with
            | Some target => to_geometry raw target
            | None => Ok raw
            end) as [raw|e]; split; try discriminate.
  - intros _ _.
    rewrite (attributes_block self variable grid (closed_after w (path_of self)) root Hf).
    destruct (n <- node_at root (dataset_name grid variable) ;; Ok (attrs_of n));
      cbn [snd lift closed_after history next_handle];
      rewrite <- !app_assoc; split; reflexivity.
  - intros _ _. cbn [snd closed_after history]. rewrite <- app_assoc. split; reflexivity.
Qed.

(** X23. A raw element that is NaN (as reprojection leaves where it
    has no data) is never marked by the mask and is NaN in the layer:
    when [DN], [fill] and [layer] return for the same variable and
    geometry, at every position where the raw array holds NaN the mask
    is not true and the layer holds NaN, whatever the fill value. So
    the mask tells fill pixels only, not all no-data pixels of the
    layer. *)
Theorem nan_not_marked self variable grid fill_value scale offset
    valid_min valid_max geometry w raw w1 mask w' out w'' :
  DN self variable grid geometry w = (Ok raw, w1) ->
  fill self variable grid fill_value geometry w = (Ok mask, w') ->
  layer self variable grid fill_value scale offset valid_min valid_max geometry w
    = (Ok out, w'') ->
  forall i x, nth_error (elements (array raw)) i = Some x -> no_data x = true ->
    nth_error (data (array mask)) i <> Some true /\
    exists y, nth_error (elements (array out)) i = Some y /\ no_data y = true.
Proof.
  intros HDN. unfold VIIRS_tiled_granule.fill, VIIRS_tiled_granule.layer, bindM, lift.
  rewrite HDN.
  destruct (attributes self variable grid w1) as [[attrs | e] w2]; [|discriminate].
  intros Hfill Hlayer i x Hi Hx. split.
  - destruct (or_attribute fill_value attrs "_Fillvalue" int_of_attr) as [[f|]|];
      cbn [bind] in Hfill; try discriminate.
    + rewrite compare_cases in Hfill.
      destruct (comparable (array raw) f); cbn [bind] in Hfill; [|discriminate].
      injection Hfill as <- _. cbn [array data]. rewrite nth_error_map, Hi. cbn [option_map].
      now rewrite meets_no_data.
    + unfold new_Raster in Hfill.
      destruct (List.length (shape (np_full (shape raw) false)) =? 2)%nat; [|discriminate].
      injection Hfill as <- _. intros H. cbn in H.
      apply nth_error_In, repeat_spec in H. discriminate.
  - injection Hlayer as Hlayer _.
    destruct (mask_stages raw attrs fill_value valid_min valid_max) as [masked | e] eqn:Hmask;
      cbn [bind] in Hlayer; [|discriminate].
    destruct (mask_stages_elements _ _ _ _ _ _ Hmask) as (f & lo & hi & _ & _ & _ & _ & _ & Dm).
    destruct (rescale_stages_elements _ _ _ _ _ Hlayer) as (s & o & _ & _ & _ & _ & Dr).
    rewrite Dr, Dm, map_map, nth_error_map, Hi. cbn [option_map].
    eexists. split; [reflexivity|].
    apply rescaled_no_data. unfold fill_masking, low_clamp, high_clamp.
    now repeat apply no_data_stage.
Qed.

End DecoderProperties.

(** ** The granule decoder on the sample file *)

Import Instances.

(** Reading a variable the sample file does not have raises, and the
    file that was opened for it is closed again. *)
Lemma file_released_witness :
  (exists key,
     fst (DN (fun p => p) tile_of_name tile_grid keep_pixels (__init__ sample_path)
            "missing" "VNP_Grid_1km_2D" None sample_world)
     = Raise (KeyError key)) /\
  open_handles (snd (DN (fun p => p) tile_of_name tile_grid keep_pixels
                       (__init__ sample_path) "missing" "VNP_Grid_1km_2D" None
                       sample_world))
    = open_handles sample_world /\
  exists evs,
    history (snd (DN (fun p => p) tile_of_name tile_grid keep_pixels
                    (__init__ sample_path) "missing" "VNP_Grid_1km_2D" None sample_world))
      = (history sample_world ++ evs)%list /\ scoped evs.
Proof.
  destruct (file_released (fun p => p) tile_of_name (string * nat) tile_grid keep_pixels
              (__init__ sample_path) "missing" "VNP_Grid_1km_2D"
              None None None None None None) as (_ & _ & HDN & _).
  destruct (HDN sample_world) as (_ & Hopen & _ & Hevents).
  - constructor.
  - split; [eexists; reflexivity|]. split; [exact Hopen | exact Hevents].
Defined.

(** The reflectance band of the sample file has a fill attribute, and
    its first element is the fill value; the quality band has no fill
    attribute, and its mask is all false, two by two. *)
Lemma validity_mask_witness :
  (exists mask w',
     fill (fun p => p) tile_of_name tile_grid keep_pixels (__init__ sample_path)
       "SurfReflect_M5_1" "VNP_Grid_1km_2D" None None sample_world = (Ok mask, w') /\
     shape (array mask) = [2%nat; 2%nat] /\
     data (array mask) = [true; false; false; false]) /\
  (exists mask w',
     fill (fun p => p) tile_of_name tile_grid keep_pixels (__init__ sample_path)
       "SurfReflect_QF1_1" "VNP_Grid_1km_2D" None None sample_world = (Ok mask, w') /\
     shape (array mask) = [2%nat; 2%nat] /\
     data (array mask) = [false; false; false; false]).
Proof.
  split.
  - edestruct (validity_mask (fun p => p) tile_of_name (string * nat) tile_grid keep_pixels
                 (__init__ sample_path) "SurfReflect_M5_1" "VNP_Grid_1km_2D" None None
                 sample_world) as (_ & H & _).
    + vm_compute. reflexivity.
    + vm_compute. reflexivity.
    + destruct (H (-28672)) as [Hmask _].
      { right. split; [reflexivity|]. eexists. split; reflexivity. }
      destruct (Hmask eq_refl) as (mask & Hfill & Hshape & _ & Hdata).
      exists mask. eexists. split; [exact Hfill|]. split; [exact Hshape|].
      apply nth_error_ext. intros i. rewrite Hdata.
      destruct i as [|[|[|[|i]]]]; try reflexivity. now destruct i.
  - edestruct (validity_mask (fun p => p) tile_of_name (string * nat) tile_grid keep_pixels
                 (__init__ sample_path) "SurfReflect_QF1_1" "VNP_Grid_1km_2D" None None
                 sample_world) as (_ & _ & H).
    + vm_compute. reflexivity.
    + vm_compute. reflexivity.
    + destruct (H eq_refl eq_refl eq_refl) as (mask & Hfill & Hshape & _ & Hdata).
      exists mask. eexists. split; [exact Hfill|]. split; [exact Hshape | exact Hdata].
Defined.

(** On the reflectance band of the sample file the first two elements
    are masked, and stay NaN in the layer. *)
Lemma masked_stays_masked_witness :
  exists out w',
    layer (fun p => p) tile_of_name tile_grid keep_pixels (__init__ sample_path)
      "SurfReflect_M5_1" "VNP_Grid_1km_2D" None None None None None None sample_world
      = (Ok out, w') /\
    exists raw w1 attrs masked f lo hi,
      DN (fun p => p) tile_of_name tile_grid keep_pixels (__init__ sample_path)
        "SurfReflect_M5_1" "VNP_Grid_1km_2D" None sample_world = (Ok raw, w1) /\
      attributes (fun p => p) (__init__ sample_path)
        "SurfReflect_M5_1" "VNP_Grid_1km_2D" w1 = (Ok attrs, w') /\
      or_attribute None attrs "_Fillvalue" int_of_attr = Ok f /\
      or_attribute None attrs "valid_range"
        (fun a => x <- attr_item a 0 ;; int_of_attr x) = Ok lo /\
      or_attribute None attrs "valid_range"
        (fun a => x <- attr_item a 1 ;; int_of_attr x) = Ok hi /\
      mask_stages raw attrs None None None = Ok masked /\
      rescale_stages masked attrs None None = Ok out /\
      shape (array out) = shape (array masked) /\
      (forall i x, nth_error (elements (array raw)) i = Some x ->
         excluded f lo hi x = true ->
         exists y, nth_error (elements (array masked)) i = Some y /\ no_data y = true) /\
      (forall i x, nth_error (elements (array masked)) i = Some x ->
         no_data x = true ->
         exists y, nth_error (elements (array out)) i = Some y /\ no_data y = true).
Proof.
  eexists. eexists. split; [vm_compute; reflexivity|].
  eapply (masked_stays_masked (fun p => p) tile_of_name (string * nat) tile_grid keep_pixels
            (__init__ sample_path) "SurfReflect_M5_1" "VNP_Grid_1km_2D"
            None None None None None None sample_world).
  vm_compute. reflexivity.
Defined.

(** The reflectance band of the sample file, calibrated with the
    parameters its attributes hold: 16-bit integers with fill -28672,
    range -100 to 16000, scale 2 and offset 1. And the example of the
    specification on these values, the scale and the offset given as
    integers. *)
Lemma calibrated_layer_witness :
  fst (layer (fun p => p) tile_of_name tile_grid keep_pixels (__init__ sample_path)
         "SurfReflect_M5_1" "VNP_Grid_1km_2D" None None None None None None sample_world)
  = Ok (mkRaster
          (Float64 (mkarray [2%nat; 2%nat]
             [nan; nan; float_of_Z (-199); float_of_Z 32001]))
          ("h10v05", 2%nat)) /\
  (layer <- mask_stages
              (mkRaster (Integers int16 (mkarray [5%nat]
                 [-28672; -101; -100; 16000; 16001])) ("h10v05", 5%nat))
              [] (Some (-28672)) (Some (-100)) (Some 16000) ;;
   rescale_stages layer [] (Some (PyInt 2)) (Some (PyInt 1)))
  = Ok (mkRaster (Float64 (mkarray [5%nat]
          [nan; nan; float_of_Z (-199); float_of_Z 32001; nan])) ("h10v05", 5%nat)).
Proof.
  pose proof (calibrated_layer (fun p => p) tile_of_name (string * nat) tile_grid
                keep_pixels (__init__ sample_path) "SurfReflect_M5_1" "VNP_Grid_1km_2D"
                None None None None None None sample_world
                ("h10v05", 5%nat) int16 (-28672) (-100) 16000) as H.
  specialize (H eq_refl eq_refl eq_refl eq_refl eq_refl).
  destruct H as ((_ & Hfile) & _ & _ & _ & Hexample). split.
  - refine (eq_trans (Hfile sample_file _ "h10v05" 2%nat ("h10v05", 2%nat)
                        eq_refl eq_refl eq_refl eq_refl eq_refl eq_refl) _).
    vm_compute. reflexivity.
  - refine (eq_trans (Hexample [] (PyInt 2) (PyInt 1) (or_introl eq_refl) (or_introl eq_refl))
                     _).
    vm_compute. reflexivity.
Defined.

(** The sample world, and a world with the same files in which another
    file was opened before and is still open. *)
Lemma results_depend_on_files_witness :
  fst (layer (fun p => p) tile_of_name tile_grid keep_pixels (__init__ sample_path)
         "SurfReflect_M5_1" "VNP_Grid_1km_2D" None None None None None None sample_world)
  = fst (layer (fun p => p) tile_of_name tile_grid keep_pixels (__init__ sample_path)
           "SurfReflect_M5_1" "VNP_Grid_1km_2D" None None None None None None
           (mkworld (files sample_world) [(7%nat, "/data/other.h5")] 9
                    [Opened 7 "/data/other.h5"])).
Proof.
  exact (proj1 (proj2 (proj2 (proj2 (proj2
    (results_depend_on_files (fun p => p) tile_of_name (string * nat) tile_grid keep_pixels
       (__init__ sample_path) "SurfReflect_M5_1" "VNP_Grid_1km_2D"
       None None None None None None sample_world
       (mkworld (files sample_world) [(7%nat, "/data/other.h5")] 9
                [Opened 7 "/data/other.h5"]) eq_refl)))))).
Defined.

(** A granule the sample world has no file for. *)
Lemma missing_file_witness :
  grids (fun p => p) (__init__ "/data/absent.h5") sample_world
  = (Raise (OSError "/data/absent.h5"), sample_world).
Proof.
  exact (proj1
    (missing_file (fun p => p) tile_of_name (string * nat) tile_grid keep_pixels
       (__init__ "/data/absent.h5") "SurfReflect_M5_1" "VNP_Grid_1km_2D"
       None None None None None None sample_world eq_refl)).
Defined.


(** The reflectance band of the sample file is listed under its grid. *)
Lemma listed_before_read_witness :
  exists listed,
    fst (variables (fun p => p) (__init__ sample_path) "VNP_Grid_1km_2D" sample_world)
      = Ok listed /\
    In "SurfReflect_M5_1" listed.
Proof.
  destruct (listed_before_read (fun p => p) tile_of_name (string * nat) tile_grid
              keep_pixels (__init__ sample_path) "SurfReflect_M5_1" "VNP_Grid_1km_2D" None
              sample_world) as (_ & H & _).
  - repeat split; discriminate.
  - repeat split; discriminate.
  - eapply H. vm_compute. reflexivity.
Defined.

(** The first element of the reflectance band of the sample file is
    the fill value: the mask holds true there and the layer is
    no-data. *)
Lemma fill_marks_nodata_witness :
  exists out w'',
    layer (fun p => p) tile_of_name tile_grid keep_pixels (__init__ sample_path)
      "SurfReflect_M5_1" "VNP_Grid_1km_2D" None None None None None None sample_world
      = (Ok out, w'') /\
    exists y, nth_error (elements (array out)) 0 = Some y /\ no_data y = true.
Proof.
  eexists. eexists. split; [vm_compute; reflexivity|].
  eapply (fill_marks_nodata (fun p => p) tile_of_name (string * nat) tile_grid keep_pixels
            (__init__ sample_path) "SurfReflect_M5_1" "VNP_Grid_1km_2D"
            None None None None None None sample_world).
  - vm_compute. reflexivity.
  - vm_compute. reflexivity.
  - vm_compute. reflexivity.
Defined.

(** The elements of the reflectance band of the sample file: the
    third, -100, is within the range and becomes -199 as float64. *)
Lemma layer_pixels_witness :
  exists out w',
    layer (fun p => p) tile_of_name tile_grid keep_pixels (__init__ sample_path)
      "SurfReflect_M5_1" "VNP_Grid_1km_2D" None None None None None None sample_world
      = (Ok out, w') /\
    shape (array out) = [2%nat; 2%nat] /\
    VIIRS_tiled_granule.geometry out = ("h10v05", 2%nat) /\
    nth_error (elements (array out)) 2 = Some (Double (float_of_Z (-199))).
Proof.
  eexists. eexists. split; [vm_compute; reflexivity|].
  edestruct (layer_pixels (fun p => p) tile_of_name (string * nat) tile_grid keep_pixels
               (__init__ sample_path) "SurfReflect_M5_1" "VNP_Grid_1km_2D"
               None None None None None None sample_world)
    as (raw & w1 & attrs & f & lo & hi & s & o & HDN & Hattrs & Hf & Hlo & Hhi & Hs & Ho
        & Hshape & Hgeo & Hel & _).
  - vm_compute. reflexivity.
  - injection HDN as <- <-. injection Hattrs as <-.
    injection Hf as <-. injection Hlo as <-. injection Hhi as <-.
    injection Hs as <-. injection Ho as <-.
    split; [exact Hshape|]. split; [exact Hgeo|].
    destruct (Hel 2%nat (Stored int16 (-100)) eq_refl) as (y & Hy & Hval).
    rewrite Hy. f_equal. vm_compute in Hval. rewrite Hval. vm_compute. reflexivity.
Defined.

(** The file whose fill attribute is an object reference. *)
Lemma unreadable_fill_witness :
  fill (fun p => p) tile_of_name tile_grid keep_pixels (__init__ sample_path)
    "SurfReflect_M5_1" "VNP_Grid_1km_2D" None None
    (mkworld [(sample_path, reference_fill_file)] [] 0 [])
  = (Raise TypeError,
     mkworld [(sample_path, reference_fill_file)] [] 2
       [Opened 0 sample_path; Closed 0; Opened 1 sample_path; Closed 1]).
Proof.
  refine (proj1 (proj2
    (unreadable_fill (fun p => p) tile_of_name (string * nat) tile_grid keep_pixels
       (__init__ sample_path) "SurfReflect_M5_1" "VNP_Grid_1km_2D"
       None None None None None
       (mkworld [(sample_path, reference_fill_file)] [] 0 []) _ _ _ _ Reference TypeError
       _ _ _ _))).
  - vm_compute. reflexivity.
  - vm_compute. reflexivity.
  - reflexivity.
  - reflexivity.
Defined.

(** The events of a layer read from the sample file. *)
Lemma reads_file_twice_witness :
  history (snd (layer (fun p => p) tile_of_name tile_grid keep_pixels
                  (__init__ sample_path) "SurfReflect_M5_1" "VNP_Grid_1km_2D"
                  None None None None None None sample_world))
  = [Opened 0 sample_path; Closed 0; Opened 1 sample_path; Closed 1].
Proof.
  destruct (reads_file_twice (fun p => p) tile_of_name (string * nat) tile_grid keep_pixels
              (__init__ sample_path) "SurfReflect_M5_1" "VNP_Grid_1km_2D"
              None None None None None None sample_world sample_file eq_refl)
    as [H _].
  edestruct H as [Hlayer _]; [vm_compute; reflexivity | exact Hlayer].
Defined.

(** The reflectance band of the sample file, reprojected to a target of
    one pixel that the tile does not cover. *)
Lemma nan_not_marked_witness :
  exists mask w' out w'',
    fill (fun p => p) tile_of_name tile_grid off_tile
      (__init__ sample_path) "SurfReflect_M5_1" "VNP_Grid_1km_2D" None
      (Some ("elsewhere", 1%nat)) sample_world = (Ok mask, w') /\
    layer (fun p => p) tile_of_name tile_grid off_tile
      (__init__ sample_path) "SurfReflect_M5_1" "VNP_Grid_1km_2D" None None None None None
      (Some ("elsewhere", 1%nat)) sample_world = (Ok out, w'') /\
    nth_error (data (array mask)) 0 <> Some true /\
    exists y, nth_error (elements (array out)) 0 = Some y /\ no_data y = true.
Proof.
  do 4 eexists. split; [vm_compute; reflexivity|]. split; [vm_compute; reflexivity|].
  eapply (nan_not_marked (fun p => p) tile_of_name (string * nat) tile_grid off_tile
            (__init__ sample_path) "SurfReflect_M5_1" "VNP_Grid_1km_2D"
            None None None None None (Some ("elsewhere", 1%nat)) sample_world).
  - vm_compute. reflexivity.
  - vm_compute. reflexivity.
  - vm_compute. reflexivity.
  - vm_compute. reflexivity.
  - reflexivity.
Defined.
